(** * The PCI IDE/ATA disk driver of Prex (bsp/drv/dev/block/hdd.c)

    A shallow embedding of the driver's probe and read paths, and the
    properties of its specification proved (or refuted) against it.

    Embedded are the register gateway, the interrupt handlers
    ([hdc_isr], [hdc_ist]), the command set-up ([hdd_setup_io]), the
    block device read ([hdd_rw], [adjust_blkno], [hdd_read]) and the
    probe of one disk ([setup_disk], [setup_partitions],
    [read_during_setup]).  The discovery of controllers on the PCI bus
    ([hdd_init], [setup_controller]) is not; a machine starts with its
    controller set up.  What the driver prints is not modelled.

    Conventions of the embedding.
    - C integers are values of [Z]; every conversion of the source is written
      out with [to_u8], [to_u32], [to_u64], [to_size_t] and [to_int].  The
      driver is built for 32-bit targets (the kernel is linked as an elf32
      image and hdd.c has to define [uint64_t] itself), so [int] is a
      32-bit two's complement integer and [size_t] a 32-bit unsigned one.
    - The device and the kernel are the environment: a [platform] answers
      port reads, decides how many interrupts reach a sleeping caller
      before a signal does, and maps user buffers.
    - Driver code runs in the monad [M]: it threads the [machine]
      (the log of bus and scheduler operations and the controller's
      mutable fields) and stops with [None] on [panic], a failed
      [ASSERT] or a NULL dereference. *)

From Stdlib Require Import String Ascii.
From Stdlib Require Import ZArith List Lia Bool.
Import ListNotations.
Local Open Scope Z_scope.

(** ** Machine integers *)

Definition to_u8 (z : Z) : Z := z mod 2 ^ 8.
Definition to_u32 (z : Z) : Z := z mod 2 ^ 32.
Definition to_u64 (z : Z) : Z := z mod 2 ^ 64.

(** Conversion to [int]: reduction modulo 2^32 into [-2^31, 2^31). *)
Definition to_int (z : Z) : Z :=
  let m := z mod 2 ^ 32 in if m <? 2 ^ 31 then m else m - 2 ^ 32.

(** [size_t] is [unsigned long], 32 bits wide. *)
Definition to_size_t (z : Z) : Z := to_u32 z.

(** A C condition [if (e)] on an integer. *)
Definition c_true (z : Z) : bool := negb (z =? 0).

(** ** Constants of hdd.c *)

Definition HDC_IRQ : Z := 14.
Definition SECTOR_SIZE : Z := 512.

Definition ATA_REG_DATA : Z := 0.
Definition ATA_REG_ERR : Z := 1.
Definition ATA_REG_SECTOR_COUNT : Z := 2.
Definition ATA_REG_LBA_LOW : Z := 3.
Definition ATA_REG_LBA_MID : Z := 4.
Definition ATA_REG_LBA_HIGH : Z := 5.
Definition ATA_REG_DISK_SELECT : Z := 6.
Definition ATA_REG_COMMAND_STATUS : Z := 7.

Definition ATA_STATUS_FLAG_ERROR : Z := 0x01.
Definition ATA_STATUS_FLAG_DRQ : Z := 0x08.
Definition ATA_STATUS_FLAG_DEVICE_FAILURE : Z := 0x20.
Definition ATA_STATUS_FLAG_BUSY : Z := 0x80.

Definition BUFFER_LENGTH : Z := 65536.
Definition BUFFER_LENGTH_IN_SECTORS : Z := BUFFER_LENGTH / SECTOR_SIZE.

(** ** Constants of the kernel headers

    hdd.c takes the error numbers, the ISR return code and the length of
    a device name from <sys/param.h> and <driver.h>; the embedding takes
    them as parameters.  What the driver relies on is recorded next to
    them: error numbers are non-zero and distinct, [INT_CONTINUE] differs
    from the answer 0 of an ISR that has nothing to do, and a device name
    buffer holds the nine bytes of "hdXdXpXX" and its terminator (the
    comment on [ata_partition.devname]). *)
Class kernel_abi : Type := {
  EIO : Z;
  EFAULT : Z;
  EINTR : Z;
  EINVAL : Z;
  INT_CONTINUE : Z;
  MAXDEVNAME : nat;
  EIO_nonzero : EIO <> 0;
  EFAULT_nonzero : EFAULT <> 0;
  EINTR_nonzero : EINTR <> 0;
  EFAULT_not_EIO : EFAULT <> EIO;
  INT_CONTINUE_nonzero : INT_CONTINUE <> 0;
  MAXDEVNAME_room : (9 <= MAXDEVNAME)%nat
}.

(** The values Prex gives them (BSD error numbers). *)
#[export] Instance prex_abi : kernel_abi.
Proof.
  refine {| EIO := 5; EFAULT := 14; EINTR := 4; EINVAL := 22;
            INT_CONTINUE := 2; MAXDEVNAME := 12 |};
    first [ discriminate | cbv; lia ].
Defined.

(** ** Data model *)

Record ata_channel : Type := {
  base_port : Z;
  control_port : Z;
  dma_port : Z
}.

Record ata_disk : Type := {
  channel : Z;                       (* 0 => primary, 1 => secondary *)
  slave : Z;                         (* 0 => master, 1 => slave *)
  identification_space : list Z;     (* 512 bytes *)
  serial_number : list Z;
  firmware_revision : list Z;
  model : list Z;
  lba_supported : bool;
  dma_supported : bool;
  sector_capacity : Z;               (* uint32_t *)
  addressable_sector_count : Z;      (* uint64_t *)
  disk_devname : String.string
}.

Record ata_partition : Type := {
  part_disk : ata_disk;
  system_id : Z;                     (* uint8_t *)
  start_lba : Z;                     (* uint32_t *)
  part_sector_count : Z;             (* uint32_t *)
  part_devname : String.string
}.

(** [struct ata_device_handle]: the [kind] tag and the [pointer] union. *)
Inductive ata_device_handle : Type :=
| ATA_DEVICE_WHOLEDISK (wholedisk : ata_disk)
| ATA_DEVICE_PARTITION (partition : ata_partition).

Inductive io_cmd : Type := IO_NONE | IO_READ | IO_WRITE.

(** [struct irp]; [iocomp] is the event the caller sleeps on, and [buf]
    always points at the controller's bounce buffer ([hdd_rw] has one call
    site, which passes [disk->controller->buffer]). *)
Record irp : Type := {
  irp_cmd : io_cmd;
  irp_ntries : Z;
  irp_error : Z;                     (* int *)
  irp_blkno : Z;                     (* int *)
  irp_blksz : Z                      (* size of a request, in sectors *)
}.

Record ata_controller : Type := {
  ctl_devname : String.string;
  channel0 : ata_channel;
  channel1 : ata_channel;
  active_disk : option ata_disk;     (* NULL when no request is in flight *)
  the_irp : irp;
  buffer : list Z                    (* the bounce buffer's bytes *)
}.

(** [c->channel[n]]; the driver only builds disks on channels 0 and 1. *)
Definition channel_at (c : ata_controller) (n : Z) : ata_channel :=
  if n =? 0 then channel0 c else channel1 c.

(** ** The environment *)

Inductive event : Type :=
| EvWrite8 (port val : Z)            (* bus_write_8 *)
| EvRead8 (port val : Z)             (* bus_read_8 *)
| EvRead32 (port val : Z)            (* bus_read_32 *)
| EvSchedLock
| EvSchedUnlock
| EvSleep
| EvWakeup.

(** What the driver cannot decide.  Replies may depend on everything that
    happened so far (the log, newest event first). *)
Record platform : Type := {
  bus_in8 : list event -> Z -> Z;
  bus_in32 : list event -> Z -> Z;
  (* interrupts that reach a sleeping caller before a signal ends the sleep *)
  irq_budget : list event -> nat;
  (* kmem_map(addr, len): the kernel alias of a user buffer, or NULL *)
  kmem_map : Z -> Z -> option Z
}.

(** The state the driver runs in: the log, and the controller.  The
    disks and partitions of a machine are those of its controller:
    [disk->controller] is [ctl]. *)
Record machine : Type := {
  trace : list event;                (* newest first *)
  ctl : ata_controller
}.

(** ** The driver monad *)

Definition M (A : Type) : Type := machine -> option (A * machine).

Definition ret {A} (a : A) : M A := fun m => Some (a, m).

Definition bind {A B} (x : M A) (f : A -> M B) : M B :=
  fun m => match x m with
           | Some (a, m') => f a m'
           | None => None
           end.

(** [panic], a failed [ASSERT], a NULL dereference. *)
Definition panic {A} : M A := fun _ => None.

Notation "x <- e ;; k" := (bind e (fun x => k))
  (at level 61, e at next level, right associativity).
Notation "e ;;; k" := (bind e (fun _ => k))
  (at level 61, right associativity).

Definition log (e : event) : M unit :=
  fun m => Some (tt, {| trace := e :: trace m; ctl := ctl m |}).

Definition get_ctl : M ata_controller := fun m => Some (ctl m, m).

Definition set_ctl (c : ata_controller) : M unit :=
  fun m => Some (tt, {| trace := trace m; ctl := c |}).

Definition deref {A} (p : option A) : M A :=
  match p with Some a => ret a | None => panic end.

Definition with_active_disk (c : ata_controller) (d : option ata_disk)
    : ata_controller :=
  {| ctl_devname := ctl_devname c; channel0 := channel0 c;
     channel1 := channel1 c; active_disk := d;
     the_irp := the_irp c; buffer := buffer c |}.

Definition with_irp (c : ata_controller) (i : irp) : ata_controller :=
  {| ctl_devname := ctl_devname c; channel0 := channel0 c;
     channel1 := channel1 c; active_disk := active_disk c;
     the_irp := i; buffer := buffer c |}.

Definition with_error (i : irp) (e : Z) : irp :=
  {| irp_cmd := irp_cmd i; irp_ntries := irp_ntries i; irp_error := e;
     irp_blkno := irp_blkno i; irp_blksz := irp_blksz i |}.

(** Bytes stored from the start of a buffer replace what was there.
    The bounce buffer of the source is one page of [BUFFER_LENGTH]
    bytes.  This is a store into it as long as [data] is no longer than
    [old]; a longer store, which in the source runs past the page, has
    no counterpart here, where the list gets longer instead. *)
Definition overlay (data old : list Z) : list Z :=
  data ++ skipn (length data) old.

Definition with_buffer (c : ata_controller) (data : list Z)
    : ata_controller :=
  {| ctl_devname := ctl_devname c; channel0 := channel0 c;
     channel1 := channel1 c; active_disk := active_disk c;
     the_irp := the_irp c; buffer := overlay data (buffer c) |}.

Definition set_active_disk (d : option ata_disk) : M unit :=
  c <- get_ctl ;; set_ctl (with_active_disk c d).

Definition set_irp (i : irp) : M unit :=
  c <- get_ctl ;; set_ctl (with_irp c i).

Definition set_irp_error (e : Z) : M unit :=
  c <- get_ctl ;; set_irp (with_error (the_irp c) e).

Definition store_buffer (data : list Z) : M unit :=
  c <- get_ctl ;; set_ctl (with_buffer c data).

(** ** Bytes and names

    hdd.c reads multi-byte fields with [memcpy] into an integer and with
    pointer casts, that is, in the byte order of the host.  The driver is
    written for a little-endian host: it recognises a boot sector, whose
    last two bytes are 55 AA, by comparing the [uint16_t] there with
    0xaa55. *)
Fixpoint le_value (bytes : list Z) : Z :=
  match bytes with
  | [] => 0
  | b :: rest => b + 256 * le_value rest
  end.

Definition memcpy_bytes (src : list Z) (off len : nat) : list Z :=
  firstn len (skipn off src).

Definition load_u16 (buf : list Z) (off : nat) : Z :=
  le_value (memcpy_bytes buf off 2).
Definition load_u32 (buf : list Z) (off : nat) : Z :=
  le_value (memcpy_bytes buf off 4).
Definition load_u64 (buf : list Z) (off : nat) : Z :=
  le_value (memcpy_bytes buf off 8).

(** Byteswap a "string" of 16-bit words. *)
Fixpoint fixup_string_endianness (p : list Z) : list Z :=
  match p with
  | a :: b :: rest => b :: a :: fixup_string_endianness rest
  | _ => p
  end.

Definition char_of (code : Z) : Ascii.ascii :=
  Ascii.ascii_of_N (Z.to_N (to_u8 code)).

Definition zero_char : Z := 48.      (* '0' *)

(** [strlcpy(dst, src, size)] keeps at most [size - 1] characters. *)
Definition strlcpy (src : String.string) (size : nat) : String.string :=
  String.substring 0 (size - 1) src.

Section Driver.

Context {K : kernel_abi}.
Variable P : platform.

(** ** Register gateway *)

Definition bus_write_8 (port val : Z) : M unit := log (EvWrite8 port val).

Definition bus_read_8 (port : Z) : M Z :=
  fun m => let v := to_u8 (bus_in8 P (trace m) port) in
           Some (v, {| trace := EvRead8 port v :: trace m; ctl := ctl m |}).

Definition bus_read_32 (port : Z) : M Z :=
  fun m => let v := to_u32 (bus_in32 P (trace m) port) in
           Some (v, {| trace := EvRead32 port v :: trace m; ctl := ctl m |}).

(* The value is passed as a uint8_t. *)
Definition ata_write (channelnum reg val : Z) : M unit :=
  c <- get_ctl ;;
  bus_write_8 (base_port (channel_at c channelnum) + reg) (to_u8 val).

Definition ata_read (channelnum reg : Z) : M Z :=
  c <- get_ctl ;;
  bus_read_8 (base_port (channel_at c channelnum) + reg).

Definition write_control (channelnum val : Z) : M unit :=
  c <- get_ctl ;;
  bus_write_8 (control_port (channel_at c channelnum)) (to_u8 val).

Definition read_altstatus (channelnum : Z) : M Z :=
  c <- get_ctl ;;
  bus_read_8 (control_port (channel_at c channelnum)).

Definition ata_delay400 (channelnum : Z) : M unit :=
  read_altstatus channelnum ;;;
  read_altstatus channelnum ;;;
  read_altstatus channelnum ;;;
  read_altstatus channelnum ;;;
  ret tt.

(** Run [body] up to [n] times, until it answers [true]. *)
Fixpoint repeat_until (n : positive) (body : M bool) : M bool :=
  match n with
  | xH => body
  | xO n' =>
      done <- repeat_until n' body ;;
      if done then ret true else repeat_until n' body
  | xI n' =>
      done <- body ;;
      if done then ret true else
        done' <- repeat_until n' body ;;
        if done' then ret true else repeat_until n' body
  end.

(** [ata_wait]: poll until BUSY clears; after 0x80000000 reads the source
    prints "busy never went away!!" and returns all the same. *)
Definition ata_wait (channelnum : Z) : M unit :=
  ata_delay400 channelnum ;;;
  repeat_until 0x80000000%positive
    (st <- read_altstatus channelnum ;;
     ret (negb (c_true (Z.land st ATA_STATUS_FLAG_BUSY)))) ;;;
  ret tt.

(** [ata_pio_read]: one 32-bit read per four bytes, stored low byte
    first.  The bytes read are the result; the caller says where they go. *)
Fixpoint pio_words (words : nat) (port : Z) : M (list Z) :=
  match words with
  | O => ret []
  | S n =>
      v <- bus_read_32 port ;;
      rest <- pio_words n port ;;
      ret (Z.land v 0xff :: Z.land (Z.shiftr v 8) 0xff
           :: Z.land (Z.shiftr v 16) 0xff :: Z.land (Z.shiftr v 24) 0xff
           :: rest)
  end.

Definition ata_pio_read (channelnum count : Z) : M (list Z) :=
  if Z.land count 3 =? 0 then
    c <- get_ctl ;;
    pio_words (Z.to_nat (count / 4))
              (base_port (channel_at c channelnum) + ATA_REG_DATA)
  else panic.

(** ** Interrupt handling *)

Definition hdc_isr : M Z :=
  c <- get_ctl ;;
  disk <- deref (active_disk c) ;;
  status <- read_altstatus (channel disk) ;;
  if c_true (Z.land status
               (Z.lor (Z.lor ATA_STATUS_FLAG_DRQ ATA_STATUS_FLAG_DEVICE_FAILURE)
                      ATA_STATUS_FLAG_ERROR))
  then ret INT_CONTINUE
  else ret 0.

Definition sched_wakeup : M unit := log EvWakeup.

Definition hdc_ist : M unit :=
  c <- get_ctl ;;
  disk <- deref (active_disk c) ;;
  status <- ata_read (channel disk) ATA_REG_COMMAND_STATUS ;;
  set_active_disk None ;;;
  if c_true (Z.land status
               (Z.lor ATA_STATUS_FLAG_ERROR ATA_STATUS_FLAG_DEVICE_FAILURE))
  then
    e <- ata_read (channel disk) ATA_REG_ERR ;;
    set_irp_error
      (to_int (Z.lor (Z.lor 0x80000000 (Z.shiftl status 16)) e)) ;;;
    sched_wakeup
  else
    set_irp_error 0 ;;;
    i <- (c' <- get_ctl ;; ret (the_irp c')) ;;
    match irp_cmd i with
    | IO_READ =>
        data <- ata_pio_read (channel disk) (to_size_t (irp_blksz i * SECTOR_SIZE)) ;;
        store_buffer data
    | IO_WRITE => panic              (* "hdd_ist IO_WRITE not implemented" *)
    | IO_NONE => panic               (* "hdd_ist invalid irp->cmd" *)
    end ;;;
    sched_wakeup.

(** ** Issuing a command *)

Definition hdd_setup_io (d : ata_disk) (cmd : io_cmd)
    (lba sector_count : Z) : M unit :=
  set_active_disk (Some d) ;;;
  final_cmd <-
    match cmd with
    | IO_READ =>
        ata_write (channel d) ATA_REG_DISK_SELECT
                  (Z.lor 0x40 (Z.shiftl (slave d) 4)) ;;;
        ret 0x24
    | IO_WRITE => panic              (* "hdd_setup_io IO_WRITE not implemented" *)
    | IO_NONE => panic               (* "hdd_setup_io invalid cmd" *)
    end ;;
  ata_write (channel d) ATA_REG_SECTOR_COUNT (Z.land (Z.shiftr sector_count 8) 0xff) ;;;
  ata_write (channel d) ATA_REG_LBA_LOW (Z.land (Z.shiftr lba 24) 0xff) ;;;
  ata_write (channel d) ATA_REG_LBA_MID (Z.land (Z.shiftr lba 32) 0xff) ;;;
  ata_write (channel d) ATA_REG_LBA_HIGH (Z.land (Z.shiftr lba 40) 0xff) ;;;
  ata_write (channel d) ATA_REG_SECTOR_COUNT (Z.land sector_count 0xff) ;;;
  ata_write (channel d) ATA_REG_LBA_LOW (Z.land lba 0xff) ;;;
  ata_write (channel d) ATA_REG_LBA_MID (Z.land (Z.shiftr lba 8) 0xff) ;;;
  ata_write (channel d) ATA_REG_LBA_HIGH (Z.land (Z.shiftr lba 16) 0xff) ;;;
  ata_write (channel d) ATA_REG_COMMAND_STATUS final_cmd.

(** ** Waiting for completion

    [sched_sleep] and the delivery of interrupts are the kernel's.
    Sections 4.4 and 6 of the specification say what the driver may
    expect of them: every interrupt runs the ISR registered with
    [irq_attach]; the answer [INT_CONTINUE] makes the kernel run the IST,
    whose [sched_wakeup] ends the caller's sleep; the answer 0 leaves
    the caller asleep; a signal ends the sleep with [SLP_INTR]. *)

(** Modelled from the spec: the two results of [sched_sleep] that
    [hdd_rw] tells apart. *)
Inductive sleep_result : Type := SLP_SUCCESS | SLP_INTR.

(** Modelled from the spec: the kernel's handling of one interrupt.  The
    result says whether the IST ran (and woke the caller). *)
Definition deliver_irq : M bool :=
  r <- hdc_isr ;;
  if r =? INT_CONTINUE then hdc_ist ;;; ret true else ret false.

(** Modelled from the spec: a sleep during which at most [irqs]
    interrupts arrive before a signal does.  A sleep that nothing ends
    (section 5 of the specification: after a lost interrupt the caller
    stays asleep) is the sleep of no [irqs]: that [await] has a result
    says nothing about whether a request of the driver returns. *)
Fixpoint await (irqs : nat) : M sleep_result :=
  match irqs with
  | O => ret SLP_INTR
  | S n =>
      woken <- deliver_irq ;;
      if woken then ret SLP_SUCCESS else await n
  end.

(** Modelled from the spec: [sched_sleep(&irp->iocomp)]; the platform
    decides how many interrupts the sleep sees. *)
Definition sched_sleep : M sleep_result :=
  log EvSleep ;;;
  (fun m => await (irq_budget P (trace m)) m).

(** ** Block device facade *)

Definition hdd_rw (d : ata_disk) (cmd : io_cmd)
    (block_count blkno : Z) : M Z :=
  set_irp {| irp_cmd := cmd; irp_ntries := 0; irp_error := 0;
             irp_blkno := blkno; irp_blksz := block_count |} ;;;
  log EvSchedLock ;;;
  i <- (c <- get_ctl ;; ret (the_irp c)) ;;
  (* irp->blkno is an int, the lba parameter a uint64_t *)
  hdd_setup_io d (irp_cmd i) (to_u64 (irp_blkno i)) (irp_blksz i) ;;;
  r <- sched_sleep ;;
  err <- match r with
         | SLP_INTR => ret EINTR
         | SLP_SUCCESS => c <- get_ctl ;; ret (irp_error (the_irp c))
         end ;;
  log EvSchedUnlock ;;;
  ret err.

(** [adjust_blkno] returns what the source stores through [disk_p],
    [blkno_p] and [limit_p].  [*blkno_p += start_lba] adds an [int] and a
    [uint32_t] modulo 2^32 and converts back to [int]; both limits are
    stored into a [size_t]. *)
Definition adjust_blkno (dev : ata_device_handle) (blkno : Z)
    : ata_disk * Z * Z :=
  match dev with
  | ATA_DEVICE_WHOLEDISK d =>
      (d, blkno, to_size_t (addressable_sector_count d))
  | ATA_DEVICE_PARTITION p =>
      (part_disk p, to_int (blkno + start_lba p), to_size_t (part_sector_count p))
  end.

(** What a call of [hdd_read] leaves behind: the value returned, the value
    of [*nbyte] on return, and the bytes copied into the mapped buffer
    (from its start, in order). *)
Record read_result : Type := {
  r_ret : Z;
  r_nbyte : Z;
  r_data : list Z
}.

(** The transfer loop of [hdd_read].  [fuel] bounds the iterations; the
    loop never uses it up ([hdd_read_loop_run]). *)
Fixpoint hdd_read_loop (fuel : nat) (d : ata_disk)
    (sector_count transferred_total blkno : Z) (kdata : list Z)
    : M read_result :=
  if 0 <? sector_count then
    match fuel with
    | O => panic
    | S fuel' =>
        let transfer_sector_count :=
          if BUFFER_LENGTH_IN_SECTORS <? sector_count
          then BUFFER_LENGTH_IN_SECTORS else sector_count in
        let transfer_byte_count :=
          to_size_t (SECTOR_SIZE * transfer_sector_count) in
        err <- hdd_rw d IO_READ transfer_sector_count blkno ;;
        if c_true err then
          ret {| r_ret := EIO; r_nbyte := transferred_total; r_data := kdata |}
        else
          c <- get_ctl ;;
          hdd_read_loop fuel' d
            (to_size_t (sector_count - transfer_sector_count))
            (to_size_t (transferred_total + transfer_byte_count))
            (to_int (blkno + transfer_sector_count))
            (kdata ++ firstn (Z.to_nat transfer_byte_count) (buffer c))
    end
  else
    ret {| r_ret := 0; r_nbyte := transferred_total; r_data := kdata |}.

(** [hdd_read(dev, buf, &nbyte, blkno)], with [nbyte] the value of
    [*nbyte] at the call. *)
Definition hdd_read (dev : ata_device_handle) (buf nbyte blkno : Z)
    : M read_result :=
  let sector_count := nbyte / SECTOR_SIZE in
  let '(d, blkno, sector_limit) := adjust_blkno dev blkno in
  if (blkno <? 0) || (sector_limit <=? to_size_t (blkno + sector_count)) then
    ret {| r_ret := EIO; r_nbyte := nbyte; r_data := [] |}
  else
    match kmem_map P buf nbyte with
    | None => ret {| r_ret := EFAULT; r_nbyte := nbyte; r_data := [] |}
    | Some kbuf =>
        hdd_read_loop (Z.to_nat sector_count) d sector_count 0 blkno []
    end.

Definition hdd_write (dev : ata_device_handle) (buf nbyte blkno : Z)
    : M read_result :=
  ret {| r_ret := EINVAL; r_nbyte := nbyte; r_data := [] |}.

(** ** Probing *)

(** [read_during_setup]: a polled read.  The result is the error code
    and the sectors read. *)
Definition read_during_setup (d : ata_disk) (lba count : Z)
    : M (Z * list Z) :=
  hdd_setup_io d IO_READ lba count ;;;
  ata_wait (channel d) ;;;
  status <- ata_read (channel d) ATA_REG_COMMAND_STATUS ;;
  if c_true (Z.land status
               (Z.lor ATA_STATUS_FLAG_ERROR ATA_STATUS_FLAG_DEVICE_FAILURE))
  then
    (* the ERR register is read for the message printed *)
    ata_read (channel d) ATA_REG_ERR ;;;
    ret (EIO, [])
  else
    data <- ata_pio_read (channel d) (to_size_t (count * SECTOR_SIZE)) ;;
    ret (0, data).

(** The name given to the partition in slot [partition] of a disk. *)
Definition partition_devname (devname : String.string) (partition : Z)
    : String.string :=
  String.append (strlcpy devname MAXDEVNAME)
    (String.String (char_of 112)     (* 'p' *)
       (String.String (char_of (zero_char + partition / 10))
          (String.String (char_of (zero_char + partition mod 10))
             String.EmptyString))).

(** One turn of the loop over the partition table: the entry at
    [0x1be + partition * 16] is laid out as flags (1 byte), start_chs (3),
    system_id (1), end_chs (3), start_lba (4), sector_count (4). *)
Definition scan_slot (d : ata_disk) (sector0 : list Z) (partition : Z)
    : option ata_partition :=
  let p := Z.to_nat (0x1be + partition * 16) in
  let p_system_id := nth (p + 4) sector0 0 in
  let p_start_lba := load_u32 sector0 (p + 8) in
  let p_sector_count := load_u32 sector0 (p + 12) in
  if (p_start_lba =? 0) || (p_sector_count =? 0) || (p_system_id =? 0)
  then None                          (* No allocated partition in this slot. *)
  else Some {| part_disk := d;
               system_id := p_system_id;
               start_lba := p_start_lba;
               part_sector_count := p_sector_count;
               part_devname := partition_devname (disk_devname d) partition |}.

(** [for (partition = ...; partition < 4; partition++)], with [todo] the
    number of turns left; a partition found goes to the end of the
    disk's partition list. *)
Fixpoint scan_slots (todo : nat) (partition : Z) (d : ata_disk)
    (sector0 : list Z) (partition_list : list ata_partition)
    : list ata_partition :=
  match todo with
  | O => partition_list
  | S todo' =>
      match scan_slot d sector0 partition with
      | None => scan_slots todo' (partition + 1) d sector0 partition_list
      | Some part =>
          scan_slots todo' (partition + 1) d sector0 (partition_list ++ [part])
      end
  end.

(** What [setup_partitions] does with the sector it has read. *)
Definition scan_partition_table (d : ata_disk) (sector0 : list Z)
    : list ata_partition :=
  if 0xaa55 =? load_u16 sector0 (Z.to_nat (SECTOR_SIZE - 2))
  then scan_slots 4 0 d sector0 []
  else [].

(** [setup_partitions]; the result is the disk's partition list. *)
Definition setup_partitions (d : ata_disk) : M (list ata_partition) :=
  r <- read_during_setup d 0 1 ;;
  if c_true (fst r) then ret []
  else ret (scan_partition_table d (snd r)).

(** [setup_disk]: [None] for the source's -1 (the disk is dropped),
    otherwise the disk registered and its partitions. *)
Definition setup_disk (disknum : Z)
    : M (option (ata_disk * list ata_partition)) :=
  c <- get_ctl ;;
  let d_channel := Z.shiftr disknum 1 in
  let d_slave := Z.land disknum 1 in
  (* Send IDENTIFY command (0xEC). *)
  ata_write d_channel ATA_REG_DISK_SELECT (Z.lor 0xA0 (Z.shiftl d_slave 4)) ;;;
  ata_delay400 d_channel ;;;
  ata_write d_channel ATA_REG_SECTOR_COUNT 0 ;;;
  ata_write d_channel ATA_REG_LBA_LOW 0 ;;;
  ata_write d_channel ATA_REG_LBA_MID 0 ;;;
  ata_write d_channel ATA_REG_LBA_HIGH 0 ;;;
  ata_write d_channel ATA_REG_COMMAND_STATUS 0xEC ;;;
  ata_delay400 d_channel ;;;
  st <- ata_read d_channel ATA_REG_COMMAND_STATUS ;;
  if st =? 0 then ret None           (* absent (wouldn't accept command) *)
  else
    ata_wait d_channel ;;;
    alt <- read_altstatus d_channel ;;
    if c_true (Z.land alt ATA_STATUS_FLAG_ERROR)
    then ret None                    (* absent (wouldn't identify) *)
    else
      ids <- ata_pio_read d_channel 512 ;;
      let d_lba_supported := c_true (Z.land (nth 99 ids 0) 2) in
      let d_dma_supported := c_true (Z.land (nth 99 ids 0) 1) in
      if negb d_lba_supported then ret None
      else if negb d_dma_supported then ret None
      else
        let lba28_count := load_u32 ids 120 in
        let d :=
          {| channel := d_channel;
             slave := d_slave;
             identification_space := ids;
             serial_number :=
               fixup_string_endianness (memcpy_bytes ids 20 10);
             firmware_revision :=
               fixup_string_endianness (memcpy_bytes ids 46 8);
             model := fixup_string_endianness (memcpy_bytes ids 54 40);
             lba_supported := d_lba_supported;
             dma_supported := d_dma_supported;
             sector_capacity := load_u32 ids 114;
             addressable_sector_count :=
               if lba28_count =? 0x0fffffff
               then load_u64 ids 200  (* read the lba48 area *)
               else lba28_count;
             disk_devname :=
               String.append (String.substring 0 3 (ctl_devname c))
                 (String.String (char_of 100)  (* 'd' *)
                    (String.String (char_of (zero_char + disknum))
                       String.EmptyString)) |} in
        parts <- setup_partitions d ;;
        ret (Some (d, parts)).

End Driver.

(** ** Attaching a controller

    [setup_controller] and [hdd_init] work on what <pci.h> and the
    kernel's allocator give them.  <pci.h> is not part of the sources at
    hand; section 6 of the specification names what the driver takes
    from it. *)

(** Modelled from the spec: a PCI function as hdd.c uses it, that is the
    three fields it tests and [read_pci_bar(v, n)] ("returning a 32-bit
    port/memory base"). *)
Record pci_device : Type := {
  class_code : Z;
  subclass : Z;
  prog_if : Z;
  read_pci_bar : Z -> Z
}.

(** What <pci.h> and the compiler decide: the class code of storage
    devices, and the conversion of an [int] to a plain [char] (the
    counter [which_device] is one).  Whether plain [char] is signed is
    the compiler's choice; both choices leave 0..127 alone. *)
Class build_target : Type := {
  PCI_CLASS_STORAGE : Z;
  to_char : Z -> Z;
  to_char_small : forall x : Z, 0 <= x < 128 -> to_char x = x
}.

(** The class code of the PCI specification for mass storage, and an
    unsigned [char], as on the PowerPC targets of the BSP. *)
#[export] Instance prep_target : build_target.
Proof.
  refine {| PCI_CLASS_STORAGE := 1; to_char := to_u8 |}.
  intros x Hx. unfold to_u8. apply Z.mod_small. lia.
Defined.

Definition ATA_LEGACY_PRIMARY_CONTROL_BASE : Z := 0x1f0.
Definition ATA_LEGACY_SECONDARY_CONTROL_BASE : Z := 0x170.
Definition ATA_LEGACY_CONTROL_ALTERNATE_STATUS_OFFSET : Z := 0x206.

(** What [setup_controller] hands to the kernel and keeps: the line it
    gives to [irq_attach], the line it stores with
    [write_pci_interrupt_line] if it calls it, the controller's disk
    list with the partition list of every disk, and the counter
    [which_device] after the call.  The controller itself is the
    machine's. *)
Record controller_setup : Type := {
  cs_irq : Z;
  cs_interrupt_line : option Z;
  cs_disk_list : list (ata_disk * list ata_partition);
  cs_which_device : Z
}.

Section Attach.

Context {K : kernel_abi} {T : build_target}.
Variable P : platform.

(** The controller as [setup_controller] fills it in.  [mem] is the
    block [kmem_alloc] returned, with whatever it held: of the request
    record only [cmd] is assigned, [active_disk] is not, and the bounce
    buffer is a fresh page.  The ports are stored into [int] fields. *)
Definition new_controller (v : pci_device) (which_device : Z)
    (mem : ata_controller) : ata_controller :=
  let primary_native := c_true (Z.land (prog_if v) 0x01) in
  let secondary_native := c_true (Z.land (prog_if v) 0x04) in
  let dma_port_0 := to_int (read_pci_bar v 4) in
  {| ctl_devname :=
       String.String (char_of 104)      (* 'h' *)
         (String.String (char_of 100)   (* 'd' *)
            (String.String (char_of which_device) String.EmptyString));
     channel0 :=
       if primary_native then
         {| base_port := to_int (read_pci_bar v 0);
            control_port := to_int (read_pci_bar v 1 + 2);
            dma_port := dma_port_0 |}
       else
         {| base_port := ATA_LEGACY_PRIMARY_CONTROL_BASE;
            control_port :=
              ATA_LEGACY_PRIMARY_CONTROL_BASE
              + ATA_LEGACY_CONTROL_ALTERNATE_STATUS_OFFSET;
            dma_port := dma_port_0 |};
     channel1 :=
       if secondary_native then
         {| base_port := to_int (read_pci_bar v 2);
            control_port := to_int (read_pci_bar v 3 + 2);
            dma_port := to_int (dma_port_0 + 8) |}
       else
         {| base_port := ATA_LEGACY_SECONDARY_CONTROL_BASE;
            control_port :=
              ATA_LEGACY_SECONDARY_CONTROL_BASE
              + ATA_LEGACY_CONTROL_ALTERNATE_STATUS_OFFSET;
            dma_port := to_int (dma_port_0 + 8) |};
     active_disk := active_disk mem;
     the_irp :=
       {| irp_cmd := IO_NONE; irp_ntries := irp_ntries (the_irp mem);
          irp_error := irp_error (the_irp mem);
          irp_blkno := irp_blkno (the_irp mem);
          irp_blksz := irp_blksz (the_irp mem) |};
     buffer := buffer mem |}.

(** [for (disk = ...; disk < 4; disk++) setup_disk(self, c, disk)], with
    [todo] the number of turns left; a disk admitted goes to the end of
    the controller's disk list. *)
Fixpoint probe_disks (todo : nat) (disk : Z)
    (disk_list : list (ata_disk * list ata_partition))
    : M (list (ata_disk * list ata_partition)) :=
  match todo with
  | O => ret disk_list
  | S todo' =>
      r <- setup_disk P disk ;;
      probe_disks todo' (disk + 1)
        match r with
        | Some found => disk_list ++ [found]
        | None => disk_list
        end
  end.

(** [setup_controller(self, v)], with [which_device] the value of the
    static counter at the call. *)
Definition setup_controller (v : pci_device) (which_device : Z)
    (mem : ata_controller) : M controller_setup :=
  let primary_native := c_true (Z.land (prog_if v) 0x01) in
  let secondary_native := c_true (Z.land (prog_if v) 0x04) in
  set_ctl (new_controller v which_device mem) ;;;
  (* Disable interrupts from the two channels. *)
  write_control 0 2 ;;;
  write_control 1 2 ;;;
  disk_list <- probe_disks 4 0 [] ;;
  (* Reenable interrupts from the two channels. *)
  write_control 0 0 ;;;
  write_control 1 0 ;;;
  ret {| cs_irq := HDC_IRQ;
         cs_interrupt_line :=
           if primary_native || secondary_native then Some HDC_IRQ else None;
         cs_disk_list := disk_list;
         cs_which_device := to_char (which_device + 1) |}.

(** The loop of [hdd_init] over [pci_devices].  [heap] holds the blocks
    [kmem_alloc] will return; when it has none left it returns NULL,
    which [setup_controller] writes through.  The result lists the
    controllers set up, oldest first. *)
Fixpoint attach_controllers (pci_devices : list pci_device)
    (which_device : Z) (heap : list ata_controller)
    : M (list (ata_controller * controller_setup)) :=
  match pci_devices with
  | [] => ret []
  | v :: rest =>
      if (class_code v =? PCI_CLASS_STORAGE) && (subclass v =? 1 (* IDE *))
      then
        match heap with
        | [] => panic
        | mem :: heap' =>
            s <- setup_controller v which_device mem ;;
            c <- get_ctl ;;
            more <- attach_controllers rest (cs_which_device s) heap' ;;
            ret ((c, s) :: more)
        end
      else attach_controllers rest which_device heap
  end.

(** [hdd_init]: the value returned and the controllers set up.  The
    counter starts at '0'. *)
Definition hdd_init (pci_devices : list pci_device)
    (heap : list ata_controller)
    : M (Z * list (ata_controller * controller_setup)) :=
  attached <- attach_controllers pci_devices zero_char heap ;;
  ret (0, attached).

End Attach.

(** ** Vocabulary of the statements *)

(** The port writes by which [hdd_setup_io] sends one READ SECTORS EXT
    command of [count] sectors at [lba] to a disk, oldest first
    ([hdd_setup_io_read]). *)
Definition read_command_writes (c : ata_controller) (d : ata_disk)
    (sub : Z * Z) : list event :=
  let '(lba, count) := sub in
  let base := base_port (channel_at c (channel d)) in
  [ EvWrite8 (base + ATA_REG_DISK_SELECT)
             (to_u8 (Z.lor 0x40 (Z.shiftl (slave d) 4)));
    EvWrite8 (base + ATA_REG_SECTOR_COUNT) (Z.land (Z.shiftr count 8) 0xff);
    EvWrite8 (base + ATA_REG_LBA_LOW) (Z.land (Z.shiftr lba 24) 0xff);
    EvWrite8 (base + ATA_REG_LBA_MID) (Z.land (Z.shiftr lba 32) 0xff);
    EvWrite8 (base + ATA_REG_LBA_HIGH) (Z.land (Z.shiftr lba 40) 0xff);
    EvWrite8 (base + ATA_REG_SECTOR_COUNT) (Z.land count 0xff);
    EvWrite8 (base + ATA_REG_LBA_LOW) (Z.land lba 0xff);
    EvWrite8 (base + ATA_REG_LBA_MID) (Z.land (Z.shiftr lba 8) 0xff);
    EvWrite8 (base + ATA_REG_LBA_HIGH) (Z.land (Z.shiftr lba 16) 0xff);
    EvWrite8 (base + ATA_REG_COMMAND_STATUS) 0x24 ].

Definition is_port_write (e : event) : bool :=
  match e with EvWrite8 _ _ => true | _ => false end.

Definition is_data_read (e : event) : bool :=
  match e with EvRead32 _ _ => true | _ => false end.

(** The port writes of a log (newest first), oldest first. *)
Definition bus_writes (tr : list event) : list event :=
  rev (filter is_port_write tr).

Definition sum_sectors (subs : list (Z * Z)) : Z :=
  fold_right (fun sub acc => snd sub + acc) 0 subs.

(** [issues blkno n subs]: [subs], pairs of an address and a sector count,
    is an initial part of what the transfer loop submits when it starts
    with [n] sectors to go at block [blkno]. *)
Inductive issues : Z -> Z -> list (Z * Z) -> Prop :=
| issues_none (blkno n : Z) : issues blkno n []
| issues_next (blkno n : Z) (rest : list (Z * Z)) :
    0 < n ->
    issues (to_int (blkno + Z.min n BUFFER_LENGTH_IN_SECTORS))
           (n - Z.min n BUFFER_LENGTH_IN_SECTORS) rest ->
    issues blkno n
           ((to_u64 blkno, Z.min n BUFFER_LENGTH_IN_SECTORS) :: rest).

(** The bounds condition of the specification, in unbounded integers:
    [blkno < 0] or [blkno + nbyte/512 >= limit]. *)
Definition out_of_bounds (blkno nbyte limit : Z) : Prop :=
  blkno < 0 \/ blkno + nbyte / 512 >= limit.

(** The ports of the two channels are fixed when the controller is set up. *)
Definition same_ports (c c' : ata_controller) : Prop :=
  channel0 c' = channel0 c /\ channel1 c' = channel1 c.

(** A read of [count] sectors from disk [d] is in flight. *)
Definition pending (d : ata_disk) (count : Z) (m : machine) : Prop :=
  active_disk (ctl m) = Some d /\
  irp_cmd (the_irp (ctl m)) = IO_READ /\
  irp_blksz (the_irp (ctl m)) = count.

(** How a request ended, as the caller of [hdd_rw] can tell from the
    controller afterwards: with [count] sectors in the bounce buffer and
    no error recorded, or else with an error. *)
Definition completed (count : Z) (before after : ata_controller) : Prop :=
  irp_error (the_irp after) = 0 /\
  exists data,
    length data = Z.to_nat (to_size_t (count * SECTOR_SIZE)) /\
    buffer after = overlay data (buffer before).

(** The disk a handle leads to, and the block number [adjust_blkno]
    makes of the caller's. *)
Definition disk_of (dev : ata_device_handle) : ata_disk :=
  fst (fst (adjust_blkno dev 0)).

Definition resolved_blkno (dev : ata_device_handle) (blkno : Z) : Z :=
  snd (fst (adjust_blkno dev blkno)).

(** The test with which [hdd_read] turns a call down before anything
    else happens. *)
Definition fails_bounds_check (dev : ata_device_handle) (blkno nbyte : Z)
    : bool :=
  let '(_, blk, limit) := adjust_blkno dev blkno in
  (blk <? 0) || (limit <=? to_size_t (blk + nbyte / SECTOR_SIZE)).

(** ** The requests of a read, and how each one ends

    [loop_reaches P d n blk m n' blk' m']: the transfer loop, entered in
    [m] with [n] sectors to go from block [blk], makes requests that all
    succeed ([hdd_rw] returns 0) and then stands in [m'] with [n']
    sectors to go from block [blk'].  Every request asks for the smaller
    of the sectors to go and of [BUFFER_LENGTH_IN_SECTORS]. *)
Inductive loop_reaches {K : kernel_abi} (P : platform) (d : ata_disk)
    : Z -> Z -> machine -> Z -> Z -> machine -> Prop :=
| reaches_here (n blk : Z) (m : machine) : loop_reaches P d n blk m n blk m
| reaches_on (n blk : Z) (m m1 : machine) (n' blk' : Z) (m' : machine) :
    0 < n ->
    hdd_rw P d IO_READ (Z.min n BUFFER_LENGTH_IN_SECTORS) blk m
    = Some (0, m1) ->
    loop_reaches P d (n - Z.min n BUFFER_LENGTH_IN_SECTORS)
      (to_int (blk + Z.min n BUFFER_LENGTH_IN_SECTORS)) m1 n' blk' m' ->
    loop_reaches P d n blk m n' blk' m'.

(** All the requests of a read of [n] sectors succeed, and leave [m']. *)
Definition requests_succeed {K : kernel_abi} (P : platform) (d : ata_disk)
    (n blk : Z) (m m' : machine) : Prop :=
  exists blk', loop_reaches P d n blk m 0 blk' m'.

(** One of the requests of a read of [n] sectors fails: those before it
    succeed, and for this one [hdd_rw] returns an error. *)
Definition request_fails {K : kernel_abi} (P : platform) (d : ata_disk)
    (n blk : Z) (m : machine) : Prop :=
  exists n' blk' m1 err m2,
    loop_reaches P d n blk m n' blk' m1 /\
    0 < n' /\
    hdd_rw P d IO_READ (Z.min n' BUFFER_LENGTH_IN_SECTORS) blk' m1
    = Some (err, m2) /\
    err <> 0.

(** The state in which the caller of [hdd_rw d IO_READ count blk],
    called in [m], goes to sleep: the request is in the record, the
    scheduler is locked and the command has gone to the disk. *)
Definition asleep (d : ata_disk) (count blk : Z) (m : machine) : machine :=
  {| trace :=
       EvSleep
       :: rev (read_command_writes (ctl m) d (to_u64 blk, count))
          ++ EvSchedLock :: trace m;
     ctl :=
       with_active_disk
         (with_irp (ctl m)
            {| irp_cmd := IO_READ; irp_ntries := 0; irp_error := 0;
               irp_blkno := blk; irp_blksz := count |})
         (Some d) |}.

(** What the ISR reads when an interrupt of disk [d] arrives in [m],
    whether it asks for the IST, and the state it leaves. *)
Definition isr_status (P : platform) (d : ata_disk) (m : machine) : Z :=
  to_u8 (bus_in8 P (trace m) (control_port (channel_at (ctl m) (channel d)))).

Definition isr_dispatches (P : platform) (d : ata_disk) (m : machine)
    : bool :=
  c_true (Z.land (isr_status P d m)
            (Z.lor (Z.lor ATA_STATUS_FLAG_DRQ ATA_STATUS_FLAG_DEVICE_FAILURE)
                   ATA_STATUS_FLAG_ERROR)).

Definition after_isr (P : platform) (d : ata_disk) (m : machine) : machine :=
  {| trace :=
       EvRead8 (control_port (channel_at (ctl m) (channel d)))
               (isr_status P d m)
       :: trace m;
     ctl := ctl m |}.

(** [ist_runs_in P d n ms m]: during a sleep that begins in [ms] and
    sees up to [n] interrupts, the ISR turns down the interrupts that
    come first, if any, and then asks for the IST, which runs in [m]. *)
Inductive ist_runs_in (P : platform) (d : ata_disk)
    : nat -> machine -> machine -> Prop :=
| ist_at_once (n : nat) (ms : machine) :
    isr_dispatches P d ms = true ->
    ist_runs_in P d (S n) ms (after_isr P d ms)
| ist_after_ignored (n : nat) (ms m : machine) :
    isr_dispatches P d ms = false ->
    ist_runs_in P d n (after_isr P d ms) m ->
    ist_runs_in P d (S n) ms m.

(** ** The partition table, in the words of the specification

    A sector 0 carries a partition table if its bytes 510 and 511, read
    as a little-endian 16-bit number, are 0xAA55.  The table has four
    entries of 16 bytes from offset 0x1BE on; entry [k] holds the system
    id at byte 4 and, as little-endian 32-bit numbers, the first sector
    at bytes 8..11 and the number of sectors at bytes 12..15.  An entry
    in which one of the three is zero is skipped; every other becomes a
    partition named after the disk, with "p" and the two decimal digits
    of [k]. *)
Definition le16_at (buf : list Z) (off : nat) : Z :=
  nth off buf 0 + 2 ^ 8 * nth (off + 1) buf 0.

Definition le32_at (buf : list Z) (off : nat) : Z :=
  nth off buf 0 + 2 ^ 8 * nth (off + 1) buf 0
  + 2 ^ 16 * nth (off + 2) buf 0 + 2 ^ 24 * nth (off + 3) buf 0.

Definition le64_at (buf : list Z) (off : nat) : Z :=
  le32_at buf off + 2 ^ 32 * le32_at buf (off + 4).

Definition two_digits (k : nat) : string :=
  match k with
  | 0%nat => "00"
  | 1%nat => "01"
  | 2%nat => "02"
  | 3%nat => "03"
  | _ => ""
  end%string.

Definition mbr_entry (d : ata_disk) (sector0 : list Z) (k : nat)
    : list ata_partition :=
  let off := (0x1BE + 16 * k)%nat in
  let id := nth (off + 4) sector0 0 in
  let start := le32_at sector0 (off + 8) in
  let count := le32_at sector0 (off + 12) in
  if (start =? 0) || (count =? 0) || (id =? 0) then []
  else [ {| part_disk := d;
            system_id := id;
            start_lba := start;
            part_sector_count := count;
            part_devname :=
              String.append (disk_devname d)
                (String.append "p" (two_digits k)) |} ].

Definition mbr_partitions (d : ata_disk) (sector0 : list Z)
    : list ata_partition :=
  if le16_at sector0 510 =? 0xAA55
  then flat_map (mbr_entry d sector0) [0; 1; 2; 3]%nat
  else [].

(** A computation that always returns. *)
Definition total {A : Type} (x : M A) : Prop :=
  forall m, exists a m', x m = Some (a, m').

(** ** Vocabulary of the further properties *)

(** The four bytes [ata_pio_read] stores for a word read, low byte
    first. *)
Definition word_bytes (v : Z) : list Z :=
  [ Z.land v 0xff; Z.land (Z.shiftr v 8) 0xff;
    Z.land (Z.shiftr v 16) 0xff; Z.land (Z.shiftr v 24) 0xff ].

(** The words a log shows as read from a data port, oldest first, and
    their bytes. *)
Definition words_read (tr : list event) : list Z :=
  rev (flat_map (fun e => match e with EvRead32 _ v => [v] | _ => [] end) tr).

Definition bytes_read (tr : list event) : list Z :=
  flat_map word_bytes (words_read tr).

(** A read of the 8-bit port [port]. *)
Definition reads_port (port : Z) (e : event) : Prop :=
  exists v, e = EvRead8 port v.

(** The limit [adjust_blkno] hands back for a device. *)
Definition sector_limit (dev : ata_device_handle) : Z :=
  snd (adjust_blkno dev 0).

(** [x], started in [m], returns: with a value, events added to the log
    and a controller that satisfy [Q]. *)
Definition runs {A : Type} (x : M A) (m : machine)
    (Q : A -> list event -> ata_controller -> Prop) : Prop :=
  exists a evs c',
    x m = Some (a, {| trace := evs ++ trace m; ctl := c' |}) /\ Q a evs c'.

(** The port writes by which [setup_disk] sends IDENTIFY to disk
    [disknum], oldest first. *)
Definition identify_writes (c : ata_controller) (disknum : Z)
    : list event :=
  let base := base_port (channel_at c (Z.shiftr disknum 1)) in
  [ EvWrite8 (base + ATA_REG_DISK_SELECT)
             (to_u8 (Z.lor 0xA0 (Z.shiftl (Z.land disknum 1) 4)));
    EvWrite8 (base + ATA_REG_SECTOR_COUNT) 0;
    EvWrite8 (base + ATA_REG_LBA_LOW) 0;
    EvWrite8 (base + ATA_REG_LBA_MID) 0;
    EvWrite8 (base + ATA_REG_LBA_HIGH) 0;
    EvWrite8 (base + ATA_REG_COMMAND_STATUS) 0xEC ].

(** The port writes of the probe of one disk, given with its outcome:
    IDENTIFY, and the read of sector 0 if the disk was admitted. *)
Definition probe_writes (c : ata_controller)
    (probe : Z * option (ata_disk * list ata_partition)) : list event :=
  identify_writes c (fst probe)
  ++ match snd probe with
     | Some (d, _) => read_command_writes c d (0, 1)
     | None => []
     end.

(** The disks admitted in a row of probes, and the controller's active
    disk after them. *)
Definition admitted (probes : list (Z * option (ata_disk * list ata_partition)))
    : list (ata_disk * list ata_partition) :=
  flat_map (fun probe => match snd probe with
                         | Some found => [found]
                         | None => []
                         end) probes.

Definition last_active (before : option ata_disk)
    (probes : list (Z * option (ata_disk * list ata_partition)))
    : option ata_disk :=
  fold_left (fun active probe => match snd probe with
                                 | Some (d, _) => Some d
                                 | None => active
                                 end) probes before.

(** The name of disk [disknum] of the controller named [devname]: the
    bytes the driver stores at [disk->devname] before the final NUL.
    They are the C string at [disk->devname] when none of them is NUL. *)
Definition disk_name (devname : string) (disknum : Z) : string :=
  String.append (String.substring 0 3 devname)
    (String.String (char_of 100)
       (String.String (char_of (zero_char + disknum)) String.EmptyString)).

(** What the probe of disk [fst probe] of the controller named
    [devname] says about the disk it admits. *)
Definition probe_sound (devname : string)
    (probe : Z * option (ata_disk * list ata_partition)) : Prop :=
  match snd probe with
  | Some (d, parts) =>
      channel d = Z.shiftr (fst probe) 1 /\
      slave d = Z.land (fst probe) 1 /\
      disk_devname d = disk_name devname (fst probe) /\
      Forall (fun p => part_disk p = d) parts
  | None => True
  end.

(** The test of [hdd_init]: an IDE controller. *)
Definition is_ide {T : build_target} (v : pci_device) : bool :=
  (class_code v =? PCI_CLASS_STORAGE) && (subclass v =? 1).

(** "hd" and the character with code [code]. *)
Definition controller_name (code : Z) : string :=
  String.String (char_of 104)
    (String.String (char_of 100)
       (String.String (char_of code) String.EmptyString)).

(** The two status flags that make a command fail. *)
Definition failure_flags : Z :=
  Z.lor ATA_STATUS_FLAG_ERROR ATA_STATUS_FLAG_DEVICE_FAILURE.

(** ** Fixtures *)

Definition legacy_primary : ata_channel :=
  {| base_port := 0x1f0; control_port := 0x1f0 + 0x206; dma_port := 0 |}.
Definition legacy_secondary : ata_channel :=
  {| base_port := 0x170; control_port := 0x170 + 0x206; dma_port := 8 |}.

Definition idle_irp : irp :=
  {| irp_cmd := IO_NONE; irp_ntries := 0; irp_error := 0;
     irp_blkno := 0; irp_blksz := 0 |}.

Definition hd0 : ata_controller :=
  {| ctl_devname := "hd0"%string; channel0 := legacy_primary;
     channel1 := legacy_secondary; active_disk := None;
     the_irp := idle_irp; buffer := [] |}.

Definition boot : machine := {| trace := []; ctl := hd0 |}.

Definition plain_disk (sectors : Z) : ata_disk :=
  {| channel := 0; slave := 0; identification_space := [];
     serial_number := []; firmware_revision := []; model := [];
     lba_supported := true; dma_supported := true; sector_capacity := 0;
     addressable_sector_count := sectors; disk_devname := "hd0d0"%string |}.

Definition plain_partition (sectors start count : Z) : ata_partition :=
  {| part_disk := plain_disk sectors; system_id := 0x83;
     start_lba := start; part_sector_count := count;
     part_devname := "hd0d0p00"%string |}.

(** A device that answers every status read with [status] and every data
    read with [word], interrupts at once, and a kernel that maps every
    buffer. *)
Definition steady_device (status word : Z) : platform :=
  {| bus_in8 := fun _ _ => status;
     bus_in32 := fun _ _ => word;
     irq_budget := fun _ => 1%nat;
     kmem_map := fun addr _ => Some addr |}.

(** The same with a kernel that maps no buffer. *)
Definition unmapped_device (status word : Z) : platform :=
  {| bus_in8 := fun _ _ => status;
     bus_in32 := fun _ _ => word;
     irq_budget := fun _ => 1%nat;
     kmem_map := fun _ _ => None |}.

(** The controller with a request for [d] in flight. *)
Definition waiting (d : ata_disk) (count : Z) : machine :=
  {| trace := [];
     ctl := with_irp (with_active_disk hd0 (Some d))
              {| irp_cmd := IO_READ; irp_ntries := 0; irp_error := 0;
                 irp_blkno := 0; irp_blksz := count |} |}.

(** A partition of ten sectors that starts at the last 32-bit block
    number of a disk of 2^33 sectors. *)
Definition far_partition : ata_partition :=
  plain_partition 0x200000000 0xFFFFFFFF 10.

(** A disk of 2^32 sectors (scenario S1 of the specification). *)
Definition big_disk : ata_disk := plain_disk 0x100000000.

(** The 128 words of an identification space: LBA and DMA supported
    (byte 99), an lba28 count of 0x0FFFFFFF (bytes 120..123) and an
    lba48 count of 2^32 (bytes 200..207): scenario S1. *)
Definition id_words_lba48 : list Z :=
  repeat 0 24 ++ [0x03000000] ++ repeat 0 5 ++ [0x0FFFFFFF]
  ++ repeat 0 19 ++ [0; 1] ++ repeat 0 76.

(** The same with an lba28 count of 1000000. *)
Definition id_words_lba28 : list Z :=
  repeat 0 24 ++ [0x03000000] ++ repeat 0 5 ++ [1000000]
  ++ repeat 0 19 ++ [0; 1] ++ repeat 0 76.

Definition data_reads (tr : list event) : nat :=
  length (filter is_data_read tr).

(** A disk that is ready at once and hands out [words] one by one, and
    zeroes after them. *)
Definition scripted_disk (words : list Z) : platform :=
  {| bus_in8 := fun _ _ => 0x58;
     bus_in32 := fun tr _ => nth (data_reads tr) words 0;
     irq_budget := fun _ => 1%nat;
     kmem_map := fun addr _ => Some addr |}.

(** A boot sector with one Linux partition in slot 0: scenario S2. *)
Definition sector0_one_partition : list Z :=
  repeat 0 446
  ++ [0; 0; 0; 0; 0x83; 0; 0; 0; 0x00; 0x08; 0; 0; 0x40; 0x42; 0x0F; 0]
  ++ repeat 0 48 ++ [0x55; 0xAA].

(** The same machine with the bounce buffer as [page_alloc] gives it: a
    page of [BUFFER_LENGTH] bytes (here all zero). *)
Definition with_page (m : machine) : machine :=
  {| trace := trace m;
     ctl := {| ctl_devname := ctl_devname (ctl m);
               channel0 := channel0 (ctl m);
               channel1 := channel1 (ctl m);
               active_disk := active_disk (ctl m);
               the_irp := the_irp (ctl m);
               buffer := repeat 0 (Z.to_nat BUFFER_LENGTH) |} |}.

(** A kernel whose signal reaches the sleeper before any interrupt. *)
Definition impatient_device (status word : Z) : platform :=
  {| bus_in8 := fun _ _ => status;
     bus_in32 := fun _ _ => word;
     irq_budget := fun _ => 0%nat;
     kmem_map := fun addr _ => Some addr |}.

(** * Properties *)

(** ** Machine arithmetic *)

Lemma land_ff_mod (x : Z) : Z.land x 0xff = x mod 2 ^ 8.
Proof. change 0xff with (Z.ones 8). apply Z.land_ones. lia. Qed.

Lemma to_u8_land_ff (x : Z) : to_u8 (Z.land x 0xff) = Z.land x 0xff.
Proof.
  unfold to_u8. rewrite land_ff_mod. apply Z.mod_mod. lia.
Qed.

Lemma to_u8_range (x : Z) : 0 <= to_u8 x < 256.
Proof. unfold to_u8. change (2 ^ 8) with 256. apply Z.mod_pos_bound. lia. Qed.

Lemma to_u8_small (x : Z) : 0 <= x < 256 -> to_u8 x = x.
Proof. intros H. unfold to_u8. apply Z.mod_small. change (2 ^ 8) with 256. lia. Qed.

Lemma to_u32_small (x : Z) : 0 <= x < 2 ^ 32 -> to_u32 x = x.
Proof. intros H. unfold to_u32. apply Z.mod_small. lia. Qed.

Lemma to_u32_range (x : Z) : 0 <= to_u32 x < 2 ^ 32.
Proof. unfold to_u32. apply Z.mod_pos_bound. lia. Qed.

Lemma to_int_small (x : Z) : 0 <= x < 2 ^ 31 -> to_int x = x.
Proof.
  intros H. unfold to_int. rewrite Z.mod_small by lia.
  destruct (Z.ltb_spec x (2 ^ 31)); lia.
Qed.

Lemma to_int_range (x : Z) : - 2 ^ 31 <= to_int x < 2 ^ 31.
Proof.
  unfold to_int. pose proof (Z.mod_pos_bound x (2 ^ 32) ltac:(lia)).
  destruct (Z.ltb_spec (x mod 2 ^ 32) (2 ^ 31)); lia.
Qed.

Lemma c_true_iff (z : Z) : c_true z = true <-> z <> 0.
Proof.
  unfold c_true. destruct (Z.eqb_spec z 0); simpl; split; intros; congruence.
Qed.

Lemma c_true_false_iff (z : Z) : c_true z = false <-> z = 0.
Proof.
  unfold c_true. destruct (Z.eqb_spec z 0); simpl; split; intros; congruence.
Qed.

(** A mask made of several flags selects a bit iff one of the flags does. *)
Lemma land_lor_zero (s a b : Z) :
  Z.land s (Z.lor a b) = 0 <-> Z.land s a = 0 /\ Z.land s b = 0.
Proof.
  rewrite Z.land_lor_distr_r. apply Z.lor_eq_0_iff.
Qed.

(** ** The bus log *)

Lemma bus_writes_app (new old : list event) :
  bus_writes (new ++ old) = bus_writes old ++ bus_writes new.
Proof.
  unfold bus_writes. rewrite filter_app, rev_app_distr. reflexivity.
Qed.

Lemma bus_writes_rev_writes (ws : list event) :
  forallb is_port_write ws = true -> bus_writes (rev ws) = ws.
Proof.
  intros H. unfold bus_writes.
  assert (E : filter is_port_write (rev ws) = rev ws).
  { apply forallb_filter_id. rewrite forallb_forall in *.
    intros x Hx. apply H. apply in_rev. exact Hx. }
  rewrite E. apply rev_involutive.
Qed.

Lemma read_command_writes_are_writes (c : ata_controller) (d : ata_disk)
    (sub : Z * Z) :
  forallb is_port_write (read_command_writes c d sub) = true.
Proof. destruct sub. reflexivity. Qed.

(** ** Issuing a command *)

Lemma hdd_setup_io_read (d : ata_disk) (lba count : Z) (m : machine) :
  hdd_setup_io d IO_READ lba count m =
  Some (tt, {| trace := rev (read_command_writes (ctl m) d (lba, count))
                          ++ trace m;
               ctl := with_active_disk (ctl m) (Some d) |}).
Proof.
  unfold hdd_setup_io, ata_write, bus_write_8, set_active_disk, set_ctl,
    get_ctl, log, bind, ret.
  cbn -[Z.land Z.shiftr Z.shiftl Z.lor to_u8 Z.add].
  rewrite !to_u8_land_ff.
  reflexivity.
Qed.

(** ** Interrupt handling *)

Lemma same_ports_refl (c : ata_controller) : same_ports c c.
Proof. split; reflexivity. Qed.

Lemma same_ports_trans (a b c : ata_controller) :
  same_ports a b -> same_ports b c -> same_ports a c.
Proof. unfold same_ports. intros [? ?] [? ?]. split; congruence. Qed.

Lemma channel_at_same_ports (c c' : ata_controller) (n : Z) :
  same_ports c c' -> channel_at c' n = channel_at c n.
Proof.
  intros [H0 H1]. unfold channel_at. rewrite H0, H1. reflexivity.
Qed.

Lemma read_command_writes_same_ports (c c' : ata_controller) (d : ata_disk)
    (sub : Z * Z) :
  same_ports c c' -> read_command_writes c' d sub = read_command_writes c d sub.
Proof.
  intros H. unfold read_command_writes.
  rewrite (channel_at_same_ports c c') by assumption. reflexivity.
Qed.

(** A whole number of sectors is a whole number of 32-bit words. *)
Lemma sector_bytes_aligned (x : Z) :
  Z.land (to_size_t (x * SECTOR_SIZE)) 3 = 0 /\
  (4 * Z.to_nat (to_size_t (x * SECTOR_SIZE) / 4))%nat
  = Z.to_nat (to_size_t (x * SECTOR_SIZE)).
Proof.
  unfold to_size_t, to_u32, SECTOR_SIZE.
  change (2 ^ 32) with (2 ^ 23 * 512).
  rewrite Z.mul_mod_distr_r by lia.
  pose proof (Z.mod_pos_bound x (2 ^ 23) ltac:(lia)) as Hy.
  set (y := x mod 2 ^ 23) in *.
  change 3 with (Z.ones 2). rewrite Z.land_ones by lia.
  change (2 ^ 2) with 4.
  replace (y * 512) with ((y * 128) * 4) by lia.
  rewrite Z.mod_mul, Z.div_mul by lia.
  split; [reflexivity | lia].
Qed.

Section Handlers.

Context {K : kernel_abi}.
Variable P : platform.

Lemma pio_words_spec (n : nat) (port : Z) (m : machine) :
  exists data evs,
    pio_words P n port m
    = Some (data, {| trace := evs ++ trace m; ctl := ctl m |}) /\
    length data = (4 * n)%nat /\
    filter is_port_write evs = [] /\
    length evs = n.
Proof.
  revert m. induction n as [|n IH]; intros m.
  - exists [], []. destruct m. repeat split.
  - cbn [pio_words]. unfold bind at 1. unfold bus_read_32.
    set (v := to_u32 (bus_in32 P (trace m) port)).
    set (m1 := {| trace := EvRead32 port v :: trace m; ctl := ctl m |}).
    destruct (IH m1) as (data & evs & E & Hlen & Hw & Hn).
    unfold bind. rewrite E. unfold ret.
    eexists. exists (evs ++ [EvRead32 port v]).
    split; [| split; [| split]].
    + cbn [trace ctl m1]. rewrite <- app_assoc. reflexivity.
    + cbn [length]. lia.
    + rewrite filter_app, Hw. reflexivity.
    + rewrite length_app. cbn [length]. lia.
Qed.

Lemma hdc_isr_spec (d : ata_disk) (m : machine) :
  active_disk (ctl m) = Some d ->
  let port := control_port (channel_at (ctl m) (channel d)) in
  let status := to_u8 (bus_in8 P (trace m) port) in
  hdc_isr P m
  = Some (if c_true (Z.land status
                       (Z.lor (Z.lor ATA_STATUS_FLAG_DRQ
                                     ATA_STATUS_FLAG_DEVICE_FAILURE)
                              ATA_STATUS_FLAG_ERROR))
          then INT_CONTINUE else 0,
          {| trace := EvRead8 port status :: trace m; ctl := ctl m |}).
Proof.
  intros Hd port status.
  unfold hdc_isr, bind, get_ctl, read_altstatus, bus_read_8, bind, get_ctl.
  rewrite Hd. cbn [deref ret].
  fold port. fold status.
  destruct (c_true _); reflexivity.
Qed.

(** The IST on an error status: two register reads, the error word, the
    wakeup. *)
Lemma hdc_ist_error (d : ata_disk) (m : machine) :
  active_disk (ctl m) = Some d ->
  let base := base_port (channel_at (ctl m) (channel d)) in
  let status :=
    to_u8 (bus_in8 P (trace m) (base + ATA_REG_COMMAND_STATUS)) in
  let tr1 := EvRead8 (base + ATA_REG_COMMAND_STATUS) status :: trace m in
  let e := to_u8 (bus_in8 P tr1 (base + ATA_REG_ERR)) in
  c_true (Z.land status
            (Z.lor ATA_STATUS_FLAG_ERROR ATA_STATUS_FLAG_DEVICE_FAILURE))
  = true ->
  hdc_ist P m
  = Some (tt,
          {| trace := EvWakeup :: EvRead8 (base + ATA_REG_ERR) e :: tr1;
             ctl := with_irp (with_active_disk (ctl m) None)
                      (with_error (the_irp (ctl m))
                         (to_int (Z.lor (Z.lor 0x80000000
                                               (Z.shiftl status 16)) e))) |}).
Proof.
  intros Hd base status tr1 e Hst.
  unfold hdc_ist, bind, get_ctl, ata_read, bus_read_8, bind, get_ctl.
  rewrite Hd. cbn [deref ret].
  fold base. fold status.
  cbn -[Z.land Z.lor Z.shiftl to_int to_u8 c_true Z.add].
  rewrite Hst.
  reflexivity.
Qed.

(** The IST on a good status: the sectors are read into the bounce
    buffer. *)
Lemma hdc_ist_data (d : ata_disk) (count : Z) (m : machine) :
  pending d count m ->
  let base := base_port (channel_at (ctl m) (channel d)) in
  let status :=
    to_u8 (bus_in8 P (trace m) (base + ATA_REG_COMMAND_STATUS)) in
  c_true (Z.land status
            (Z.lor ATA_STATUS_FLAG_ERROR ATA_STATUS_FLAG_DEVICE_FAILURE))
  = false ->
  exists data evs,
    hdc_ist P m
    = Some (tt,
            {| trace := EvWakeup :: evs
                         ++ EvRead8 (base + ATA_REG_COMMAND_STATUS) status
                         :: trace m;
               ctl := with_buffer
                        (with_irp (with_active_disk (ctl m) None)
                           (with_error (the_irp (ctl m)) 0)) data |}) /\
    length data = Z.to_nat (to_size_t (count * SECTOR_SIZE)) /\
    filter is_port_write evs = [].
Proof.
  intros (Hd & Hcmd & Hsz) base status Hst.
  destruct (sector_bytes_aligned count) as [Hal Hwords].
  set (m1 := {| trace := EvRead8 (base + ATA_REG_COMMAND_STATUS) status
                           :: trace m;
                ctl := with_irp (with_active_disk (ctl m) None)
                         (with_error (the_irp (ctl m)) 0) |}).
  destruct (pio_words_spec
              (Z.to_nat (to_size_t (count * SECTOR_SIZE) / 4))
              (base + ATA_REG_DATA) m1)
    as (data & evs & E & Hlen & Hw & _).
  exists data, evs. split; [| split; [lia | exact Hw]].
  unfold hdc_ist, bind, get_ctl, ata_read, bus_read_8, bind, get_ctl.
  rewrite Hd. cbn [deref ret].
  fold base. fold status.
  cbn -[Z.land Z.lor Z.shiftl to_int to_u8 c_true Z.add to_size_t
        ata_pio_read Z.mul].
  rewrite Hst.
  cbn -[Z.land Z.lor Z.shiftl to_int to_u8 c_true Z.add to_size_t
        ata_pio_read Z.mul].
  rewrite Hcmd, Hsz.
  unfold ata_pio_read, bind, get_ctl. rewrite Hal.
  cbn -[Z.land Z.lor Z.shiftl to_int to_u8 c_true Z.add to_size_t
        pio_words Z.mul Z.div Z.to_nat].
  change (channel_at (with_irp (with_active_disk (ctl m) None)
                        (with_error (the_irp (ctl m)) 0)) (channel d))
    with (channel_at (ctl m) (channel d)).
  fold base. fold m1. rewrite E.
  reflexivity.
Qed.

(** The error word the IST records is never 0: bit 31 is set. *)
Lemma error_word_nonzero (status e : Z) :
  to_int (Z.lor (Z.lor 0x80000000 (Z.shiftl status 16)) e) <> 0.
Proof.
  set (w := Z.lor (Z.lor 0x80000000 (Z.shiftl status 16)) e).
  assert (Hbit : Z.testbit (w mod 2 ^ 32) 31 = true).
  { rewrite Z.mod_pow2_bits_low by lia.
    unfold w. rewrite !Z.lor_spec. reflexivity. }
  unfold to_int. intros H.
  pose proof (Z.mod_pos_bound w (2 ^ 32) ltac:(lia)) as Hr.
  destruct (Z.ltb_spec (w mod 2 ^ 32) (2 ^ 31)) as [Hlt | Hge].
  - rewrite H in Hbit. discriminate Hbit.
  - lia.
Qed.

Lemma await_spec (d : ata_disk) (count : Z) (n : nat) (m : machine) :
  pending d count m ->
  exists r m' evs,
    await P n m = Some (r, m') /\
    trace m' = evs ++ trace m /\
    filter is_port_write evs = [] /\
    same_ports (ctl m) (ctl m') /\
    (r = SLP_SUCCESS ->
     completed count (ctl m) (ctl m') \/ irp_error (the_irp (ctl m')) <> 0).
Proof.
  revert m. induction n as [|n IH]; intros m Hp.
  - exists SLP_INTR, m, []. repeat split; try reflexivity. discriminate.
  - pose proof Hp as (Hd & Hcmd & Hsz).
    cbn [await]. unfold bind at 1. unfold deliver_irq. unfold bind at 1.
    rewrite (hdc_isr_spec d m Hd).
    set (port := control_port (channel_at (ctl m) (channel d))).
    set (alt := to_u8 (bus_in8 P (trace m) port)).
    set (m1 := {| trace := EvRead8 port alt :: trace m; ctl := ctl m |}).
    assert (Hp1 : pending d count m1) by exact Hp.
    destruct (c_true (Z.land alt _)).
    + rewrite Z.eqb_refl. unfold bind at 1.
      set (base := base_port (channel_at (ctl m1) (channel d))).
      set (status :=
             to_u8 (bus_in8 P (trace m1) (base + ATA_REG_COMMAND_STATUS))).
      destruct (c_true (Z.land status
                          (Z.lor ATA_STATUS_FLAG_ERROR
                                 ATA_STATUS_FLAG_DEVICE_FAILURE))) eqn:Hst.
      * rewrite (hdc_ist_error d m1 Hd Hst). cbn [ret].
        eexists SLP_SUCCESS, _, _. split; [reflexivity |].
        split; [| split; [| split]].
        -- cbn [trace m1].
           instantiate (1 := [EvWakeup; EvRead8 _ _; EvRead8 _ _; EvRead8 port alt]).
           reflexivity.
        -- reflexivity.
        -- split; reflexivity.
        -- intros _. right. cbn [ctl with_irp the_irp with_error irp_error].
           apply error_word_nonzero.
      * destruct (hdc_ist_data d count m1 Hp1 Hst)
          as (data & evs & E & Hlen & Hw).
        rewrite E. cbn [ret].
        eexists SLP_SUCCESS, _,
          (EvWakeup :: evs
           ++ [EvRead8 (base + ATA_REG_COMMAND_STATUS) status;
               EvRead8 port alt]).
        split; [reflexivity |].
        split; [| split; [| split]].
        -- cbn [trace m1 app]. rewrite <- app_assoc. reflexivity.
        -- cbn [filter is_port_write]. rewrite filter_app, Hw. reflexivity.
        -- split; reflexivity.
        -- intros _. left. split; [reflexivity |].
           exists data. split; [exact Hlen | reflexivity].
    + destruct (Z.eqb_spec 0 INT_CONTINUE) as [Heq | _].
      { exfalso. apply INT_CONTINUE_nonzero. symmetry. exact Heq. }
      cbn [ret].
      destruct (IH m1 Hp1) as (r & m' & evs & E & Htr & Hw & Hports & Hok).
      rewrite E.
      exists r, m', (evs ++ [EvRead8 port alt]).
      split; [reflexivity |].
      split; [| split; [| split]].
      -- rewrite Htr. cbn [trace m1]. rewrite <- app_assoc. reflexivity.
      -- rewrite filter_app, Hw. reflexivity.
      -- exact Hports.
      -- exact Hok.
Qed.

Lemma bus_writes_quiet (evs : list event) :
  filter is_port_write evs = [] -> bus_writes evs = [].
Proof. intros H. unfold bus_writes. rewrite H. reflexivity. Qed.

(** One request: the command goes out, the caller sleeps, and a return
    value of 0 means the sectors are in the bounce buffer. *)
Lemma hdd_rw_spec (d : ata_disk) (count blk : Z) (m : machine) :
  exists err m' evs,
    hdd_rw P d IO_READ count blk m = Some (err, m') /\
    trace m' = evs ++ trace m /\
    bus_writes evs = read_command_writes (ctl m) d (to_u64 blk, count) /\
    same_ports (ctl m) (ctl m') /\
    (err = 0 -> completed count (ctl m) (ctl m')).
Proof.
  unfold hdd_rw.
  unfold bind at 1. unfold set_irp at 1. unfold bind at 1, get_ctl at 1.
  unfold set_ctl at 1.
  unfold bind at 1. unfold log at 1.
  unfold bind at 1. unfold bind at 1, get_ctl at 1. unfold ret at 1.
  cbn [trace ctl with_irp the_irp irp_cmd irp_blkno irp_blksz].
  unfold bind at 1. rewrite hdd_setup_io_read.
  cbn [trace ctl].
  set (c2 := with_active_disk _ (Some d)).
  unfold bind at 1. unfold sched_sleep. unfold bind at 1, log at 1.
  cbn [trace ctl].
  change (read_command_writes (with_irp (ctl m) ?i) d ?sub)
    with (read_command_writes (ctl m) d sub).
  set (m3 := {| trace :=
                  EvSleep
                  :: rev (read_command_writes (ctl m) d (to_u64 blk, count))
                     ++ EvSchedLock :: trace m;
                ctl := c2 |}).
  change (EvSleep
          :: rev (read_command_writes (ctl m) d (to_u64 blk, count))
             ++ EvSchedLock :: trace m) with (trace m3).
  assert (Hp : pending d count m3) by (repeat split).
  destruct (await_spec d count (irq_budget P (trace m3)) m3 Hp)
    as (r & m4 & evs & E & Htr & Hw & Hports & Hok).
  rewrite E.
  assert (Hports' : same_ports (ctl m) (ctl m4)).
  { apply (same_ports_trans _ c2); [split; reflexivity | exact Hports]. }
  assert (Hwrites :
    bus_writes ((EvSchedUnlock :: evs)
                ++ EvSleep
                   :: rev (read_command_writes (ctl m) d (to_u64 blk, count))
                   ++ [EvSchedLock])
    = read_command_writes (ctl m) d (to_u64 blk, count)).
  { rewrite bus_writes_app.
    change (EvSleep :: ?l) with ([EvSleep] ++ l).
    rewrite (bus_writes_app [EvSleep]), (bus_writes_app (rev _)).
    rewrite bus_writes_rev_writes by apply read_command_writes_are_writes.
    change (EvSchedUnlock :: evs) with ([EvSchedUnlock] ++ evs).
    rewrite (bus_writes_app [EvSchedUnlock]).
    rewrite (bus_writes_quiet evs Hw).
    cbn [bus_writes filter is_port_write rev app].
    rewrite app_nil_r. reflexivity. }
  destruct r.
  - unfold bind at 1, get_ctl, ret. unfold bind at 1, log. cbn [trace ctl].
    eexists _, _, _. split; [reflexivity |].
    split; [| split; [exact Hwrites | split]].
    + cbn [trace]. rewrite Htr. cbn [trace m3].
      rewrite <- !app_assoc. cbn [app]. rewrite <- !app_assoc. reflexivity.
    + exact Hports'.
    + intros Herr. cbn [ctl].
      destruct (Hok eq_refl) as [Hc | Hne]; [| contradiction].
      destruct Hc as (He & data & Hlen & Hbuf).
      split; [exact He |]. exists data. split; [exact Hlen | exact Hbuf].
  - unfold ret at 1. unfold bind at 1, log. cbn [trace ctl]. unfold ret.
    eexists _, _, _. split; [reflexivity |].
    split; [| split; [exact Hwrites | split]].
    + cbn [trace]. rewrite Htr. cbn [trace m3].
      rewrite <- !app_assoc. cbn [app]. rewrite <- !app_assoc. reflexivity.
    + exact Hports'.
    + intros Herr. exfalso. apply EINTR_nonzero. exact Herr.
Qed.

End Handlers.

(** ** The transfer loop *)

Lemma chunk_size_min (n : Z) :
  (if BUFFER_LENGTH_IN_SECTORS <? n then BUFFER_LENGTH_IN_SECTORS else n)
  = Z.min n BUFFER_LENGTH_IN_SECTORS.
Proof.
  destruct (Z.ltb_spec BUFFER_LENGTH_IN_SECTORS n); lia.
Qed.

Lemma firstn_overlay (data old : list Z) :
  firstn (length data) (overlay data old) = data.
Proof.
  unfold overlay. rewrite firstn_app, Nat.sub_diag, firstn_all.
  cbn [firstn]. apply app_nil_r.
Qed.

Lemma flat_map_same_ports (c c' : ata_controller) (d : ata_disk)
    (subs : list (Z * Z)) :
  same_ports c c' ->
  flat_map (read_command_writes c' d) subs
  = flat_map (read_command_writes c d) subs.
Proof.
  intros H. apply flat_map_ext. intros sub.
  apply read_command_writes_same_ports. exact H.
Qed.

Lemma sum_sectors_app (a b : list (Z * Z)) :
  sum_sectors (a ++ b) = sum_sectors a + sum_sectors b.
Proof.
  induction a as [|x a IH]; cbn [app sum_sectors fold_right].
  - reflexivity.
  - fold (sum_sectors (a ++ b)). fold (sum_sectors a). lia.
Qed.

Section Loop.

Context {K : kernel_abi}.
Variable P : platform.

Lemma hdd_read_loop_unfold (fuel : nat) (d : ata_disk)
    (n total blk : Z) (kdata : list Z) :
  hdd_read_loop P fuel d n total blk kdata
  = if 0 <? n then
      match fuel with
      | O => panic
      | S fuel' =>
          err <- hdd_rw P d IO_READ (Z.min n BUFFER_LENGTH_IN_SECTORS) blk ;;
          if c_true err then
            ret {| r_ret := EIO; r_nbyte := total; r_data := kdata |}
          else
            c <- get_ctl ;;
            hdd_read_loop P fuel' d
              (to_size_t (n - Z.min n BUFFER_LENGTH_IN_SECTORS))
              (to_size_t
                 (total
                  + to_size_t
                      (SECTOR_SIZE * Z.min n BUFFER_LENGTH_IN_SECTORS)))
              (to_int (blk + Z.min n BUFFER_LENGTH_IN_SECTORS))
              (kdata
               ++ firstn
                    (Z.to_nat
                       (to_size_t
                          (SECTOR_SIZE * Z.min n BUFFER_LENGTH_IN_SECTORS)))
                    (buffer c))
      end
    else ret {| r_ret := 0; r_nbyte := total; r_data := kdata |}.
Proof.
  destruct fuel; cbn [hdd_read_loop]; rewrite ?chunk_size_min; reflexivity.
Qed.

(** Every run of the loop: it returns; what went over the bus is the
    commands of [subs], which the loop's arithmetic determines; [*nbyte]
    and the bytes copied count the sectors of the requests that
    completed. *)
Lemma hdd_read_loop_run (d : ata_disk) (fuel : nat) :
  forall (n total blk : Z) (kdata : list Z) (m : machine),
    0 <= n -> (Z.to_nat n <= fuel)%nat ->
    0 <= total -> total + 512 * n < 2 ^ 32 ->
    exists r m' evs subs data,
      hdd_read_loop P fuel d n total blk kdata m = Some (r, m') /\
      trace m' = evs ++ trace m /\
      same_ports (ctl m) (ctl m') /\
      bus_writes evs = flat_map (read_command_writes (ctl m) d) subs /\
      issues blk n subs /\
      r_data r = kdata ++ data /\
      Z.of_nat (length data) = r_nbyte r - total /\
      ((r_ret r = 0 /\
        r_nbyte r = total + 512 * sum_sectors subs /\
        sum_sectors subs = n /\
        (subs = [] -> m' = m) /\
        (subs <> [] -> irp_error (the_irp (ctl m')) = 0))
       \/
       (r_ret r = EIO /\
        exists done last,
          subs = done ++ [last] /\
          r_nbyte r = total + 512 * sum_sectors done)).
Proof.
  induction fuel as [|fuel IH]; intros n total blk kdata m Hn Hfuel Ht Hfit;
    rewrite hdd_read_loop_unfold.
  - assert (n = 0) by lia. subst n. cbn [Z.ltb Z.compare].
    exists {| r_ret := 0; r_nbyte := total; r_data := kdata |}, m, [], [], [].
    split; [reflexivity |]. split; [reflexivity |].
    split; [apply same_ports_refl |]. split; [reflexivity |].
    split; [constructor |]. split; [symmetry; apply app_nil_r |].
    split; [cbn; lia |].
    left. cbn. repeat split; try lia; congruence.
  - destruct (Z.ltb_spec 0 n) as [Hpos | Hzero].
    2:{ exists {| r_ret := 0; r_nbyte := total; r_data := kdata |}, m, [], [], [].
        split; [reflexivity |]. split; [reflexivity |].
        split; [apply same_ports_refl |]. split; [reflexivity |].
        split; [constructor |]. split; [symmetry; apply app_nil_r |].
        split; [cbn; lia |].
        left. cbn. repeat split; try lia; congruence. }
    set (tsc := Z.min n BUFFER_LENGTH_IN_SECTORS).
    assert (Htsc : 0 < tsc <= 128 /\ tsc <= n).
    { unfold tsc, BUFFER_LENGTH_IN_SECTORS, BUFFER_LENGTH, SECTOR_SIZE.
      change (65536 / 512) with 128. lia. }
    assert (Hbytes : to_size_t (SECTOR_SIZE * tsc) = 512 * tsc).
    { unfold to_size_t, SECTOR_SIZE. apply to_u32_small. lia. }
    rewrite Hbytes.
    assert (Hn' : to_size_t (n - tsc) = n - tsc).
    { unfold to_size_t. apply to_u32_small. lia. }
    assert (Ht' : to_size_t (total + 512 * tsc) = total + 512 * tsc).
    { unfold to_size_t. apply to_u32_small. lia. }
    rewrite Hn', Ht'.
    destruct (hdd_rw_spec P d tsc blk m)
      as (err & m1 & evs1 & E1 & Htr1 & Hw1 & Hp1 & Hok1).
    unfold bind at 1. rewrite E1.
    destruct (c_true err) eqn:Herr.
    + exists {| r_ret := EIO; r_nbyte := total; r_data := kdata |}, m1, evs1,
        [(to_u64 blk, tsc)], [].
      split; [reflexivity |]. split; [exact Htr1 |].
      split; [exact Hp1 |].
      split; [cbn [flat_map]; rewrite app_nil_r; exact Hw1 |].
      split; [constructor; [exact Hpos | constructor] |].
      split; [symmetry; apply app_nil_r |].
      split; [cbn; lia |].
      right. split; [reflexivity |].
      exists [], (to_u64 blk, tsc). split; [reflexivity | cbn; lia].
    + apply c_true_false_iff in Herr.
      destruct (Hok1 Herr) as (He1 & data1 & Hlen1 & Hbuf1).
      unfold bind at 1, get_ctl at 1.
      assert (Hfirst : firstn (Z.to_nat (512 * tsc)) (buffer (ctl m1)) = data1).
      { rewrite Hbuf1.
        replace (Z.to_nat (512 * tsc)) with (length data1).
        - apply firstn_overlay.
        - rewrite Hlen1. f_equal. unfold to_size_t, SECTOR_SIZE.
          rewrite to_u32_small by lia. lia. }
      rewrite Hfirst.
      destruct (IH (n - tsc) (total + 512 * tsc) (to_int (blk + tsc))
                  (kdata ++ data1) m1)
        as (r & m' & evs2 & subs2 & data2 & E2 & Htr2 & Hp2 & Hw2 & Hiss
            & Hdata & Hlen2 & Hres); try lia.
      rewrite E2.
      exists r, m', (evs2 ++ evs1), ((to_u64 blk, tsc) :: subs2),
        (data1 ++ data2).
      split; [reflexivity |].
      split; [rewrite Htr2, Htr1; apply app_assoc |].
      split; [apply (same_ports_trans _ (ctl m1)); assumption |].
      split.
      { rewrite bus_writes_app, Hw1, Hw2. cbn [flat_map].
        rewrite (flat_map_same_ports (ctl m) (ctl m1)) by exact Hp1.
        reflexivity. }
      split; [constructor; [exact Hpos | exact Hiss] |].
      split; [rewrite Hdata; symmetry; apply app_assoc |].
      split.
      { rewrite length_app, Nat2Z.inj_add, Hlen2, Hlen1.
        unfold to_size_t, SECTOR_SIZE. rewrite to_u32_small by lia. lia. }
      destruct Hres as [(Hret & Hnb & Hsum & Hnil & Hirp)
                       | (Hret & done & last & Hsubs & Hnb)].
      * left. split; [exact Hret |].
        change (sum_sectors ((to_u64 blk, tsc) :: subs2))
          with (tsc + sum_sectors subs2).
        split; [lia |]. split; [lia |].
        split; [discriminate |].
        intros _. destruct subs2 as [|s2 subs2'].
        -- (* the loop ended right after this request *)
           rewrite (Hnil eq_refl). exact He1.
        -- apply Hirp. discriminate.
      * right. split; [exact Hret |].
        exists ((to_u64 blk, tsc) :: done), last.
        split; [rewrite Hsubs; reflexivity |].
        change (sum_sectors ((to_u64 blk, tsc) :: done))
          with (tsc + sum_sectors done).
        lia.
Qed.

End Loop.

(** ** A call of [hdd_read] *)

Lemma issues_bounds (blk n : Z) (subs : list (Z * Z)) :
  issues blk n subs ->
  0 <= sum_sectors subs /\
  (subs <> [] -> sum_sectors subs <= n) /\
  (forall done last, subs = done ++ [last] -> sum_sectors done < n).
Proof.
  induction 1 as [blk n | blk n rest Hpos Hrest IH].
  - split; [cbn; lia |]. split; [congruence |].
    intros done last H. destruct done; discriminate H.
  - destruct IH as (Hnn & Hle & Hlast).
    change (sum_sectors ((to_u64 blk, Z.min n BUFFER_LENGTH_IN_SECTORS) :: rest))
      with (Z.min n BUFFER_LENGTH_IN_SECTORS + sum_sectors rest).
    assert (Hc : 0 < Z.min n BUFFER_LENGTH_IN_SECTORS <= n).
    { unfold BUFFER_LENGTH_IN_SECTORS, BUFFER_LENGTH, SECTOR_SIZE.
      change (65536 / 512) with 128. lia. }
    split; [lia |]. split.
    + intros _. destruct rest as [|x rest'].
      * cbn. lia.
      * assert (sum_sectors (x :: rest')
                <= n - Z.min n BUFFER_LENGTH_IN_SECTORS)
          by (apply Hle; discriminate).
        lia.
    + intros done last H. destruct done as [|y done'].
      * cbn. lia.
      * cbn [app] in H. injection H as Hy Hr. subst y.
        change (sum_sectors ((to_u64 blk, Z.min n BUFFER_LENGTH_IN_SECTORS)
                             :: done'))
          with (Z.min n BUFFER_LENGTH_IN_SECTORS + sum_sectors done').
        specialize (Hlast done' last Hr). lia.
Qed.

(** [(n + 127) / 128] is [n / 128] rounded up. *)
Lemma ceiling_128 (n : Z) :
  128 * ((n + 127) / 128 - 1) < n <= 128 * ((n + 127) / 128).
Proof.
  pose proof (Z.div_mod (n + 127) 128 ltac:(lia)) as Hdm.
  pose proof (Z.mod_pos_bound (n + 127) 128 ltac:(lia)) as Hr.
  lia.
Qed.

(** The requests of a complete run: their number and their sizes. *)
Lemma issues_complete (blk n : Z) (subs : list (Z * Z)) :
  issues blk n subs ->
  0 <= n ->
  sum_sectors subs = n ->
  Z.of_nat (length subs) = (n + 127) / 128 /\
  (forall k sub,
      nth_error subs k = Some sub ->
      snd sub = Z.min (n - sum_sectors (firstn k subs)) 128).
Proof.
  induction 1 as [blk n | blk n rest Hpos Hrest IH]; intros Hn Hsum.
  - cbn in Hsum. subst n. split; [reflexivity |].
    intros k sub H. destruct k; discriminate H.
  - change (sum_sectors ((to_u64 blk, Z.min n BUFFER_LENGTH_IN_SECTORS) :: rest))
      with (Z.min n BUFFER_LENGTH_IN_SECTORS + sum_sectors rest) in Hsum.
    revert Hrest IH Hsum.
    unfold BUFFER_LENGTH_IN_SECTORS, BUFFER_LENGTH, SECTOR_SIZE.
    change (65536 / 512) with 128.
    intros Hrest IH Hsum.
    destruct IH as (Hlen & Hnth); [lia | lia |].
    split.
    + cbn [length]. rewrite Nat2Z.inj_succ, Hlen.
      destruct (Z.le_gt_cases 128 n) as [Hbig | Hsmall].
      * rewrite Z.min_r by lia.
        replace (n + 127) with ((n - 128 + 127) + 1 * 128) by lia.
        rewrite Z.div_add by lia. lia.
      * rewrite Z.min_l by lia.
        replace (n - n + 127) with 127 by lia.
        rewrite (Z.div_small 127 128) by lia.
        assert (E : (n + 127) / 128 = 1).
        { symmetry. apply (Z.div_unique (n + 127) 128 1 (n - 1)); lia. }
        lia.
    + intros k sub H. destruct k as [|k].
      * cbn in H. injection H as <-. cbn. lia.
      * cbn [nth_error] in H. cbn [firstn].
        change (sum_sectors ((to_u64 blk, Z.min n 128) :: firstn k rest))
          with (Z.min n 128 + sum_sectors (firstn k rest)).
        rewrite (Hnth k sub H). f_equal. lia.
Qed.

Section Read.

Context {K : kernel_abi}.
Variable P : platform.

(** The three ways a call goes: turned down by the bounds test, turned
    down because the buffer cannot be mapped, or through the loop. *)
Lemma hdd_read_run (dev : ata_device_handle) (buf nbyte blkno : Z)
    (m : machine) :
  0 <= nbyte < 2 ^ 32 ->
  exists r m' evs subs,
    hdd_read P dev buf nbyte blkno m = Some (r, m') /\
    trace m' = evs ++ trace m /\
    same_ports (ctl m) (ctl m') /\
    bus_writes evs = flat_map (read_command_writes (ctl m) (disk_of dev)) subs /\
    issues (resolved_blkno dev blkno) (nbyte / 512) subs /\
    ((fails_bounds_check dev blkno nbyte = true /\
      r = {| r_ret := EIO; r_nbyte := nbyte; r_data := [] |} /\
      m' = m /\ subs = [])
     \/
     (fails_bounds_check dev blkno nbyte = false /\
      kmem_map P buf nbyte = None /\
      r = {| r_ret := EFAULT; r_nbyte := nbyte; r_data := [] |} /\
      m' = m /\ subs = [])
     \/
     (fails_bounds_check dev blkno nbyte = false /\
      kmem_map P buf nbyte <> None /\
      Z.of_nat (length (r_data r)) = r_nbyte r /\
      ((r_ret r = 0 /\
        r_nbyte r = 512 * (nbyte / 512) /\
        sum_sectors subs = nbyte / 512 /\
        (subs = [] -> m' = m) /\
        (subs <> [] -> irp_error (the_irp (ctl m')) = 0))
       \/
       (r_ret r = EIO /\
        exists done last,
          subs = done ++ [last] /\
          r_nbyte r = 512 * sum_sectors done)))).
Proof.
  intros Hnb.
  assert (Hn : 0 <= nbyte / 512 /\ 512 * (nbyte / 512) <= nbyte).
  { split; [apply Z.div_pos; lia | apply Z.mul_div_le; lia]. }
  unfold hdd_read, fails_bounds_check, resolved_blkno, disk_of.
  change SECTOR_SIZE with 512.
  assert (Hd : fst (fst (adjust_blkno dev 0)) = fst (fst (adjust_blkno dev blkno)))
    by (destruct dev; reflexivity).
  rewrite Hd.
  destruct (adjust_blkno dev blkno) as [[d blk] limit]. cbn [fst snd].
  destruct ((blk <? 0) || (limit <=? to_size_t (blk + nbyte / 512))).
  - exists {| r_ret := EIO; r_nbyte := nbyte; r_data := [] |}, m, [], [].
    split; [reflexivity |]. split; [reflexivity |].
    split; [apply same_ports_refl |]. split; [reflexivity |].
    split; [constructor |]. left. repeat split.
  - destruct (kmem_map P buf nbyte) as [kbuf |] eqn:Hmap.
    + destruct (hdd_read_loop_run P d (Z.to_nat (nbyte / 512))
                  (nbyte / 512) 0 blk [] m)
        as (r & m' & evs & subs & data & E & Htr & Hp & Hw & Hiss & Hdata
            & Hlen & Hres); try lia.
      exists r, m', evs, subs.
      split; [exact E |]. split; [exact Htr |]. split; [exact Hp |].
      split; [exact Hw |]. split; [exact Hiss |].
      right. right. split; [reflexivity |]. split; [discriminate |].
      split; [rewrite Hdata; cbn [app]; lia |].
      destruct Hres as [(Hret & Hnbyte & Hsum & Hnil & Hirp)
                       | (Hret & done & last & Hsubs & Hnbyte)].
      * left. rewrite Hsum in Hnbyte. repeat split; try assumption; lia.
      * right. split; [exact Hret |]. exists done, last.
        split; [exact Hsubs | lia].
    + exists {| r_ret := EFAULT; r_nbyte := nbyte; r_data := [] |}, m, [], [].
      split; [reflexivity |]. split; [reflexivity |].
      split; [apply same_ports_refl |]. split; [reflexivity |].
      split; [constructor |]. right. left. repeat split.
Qed.

End Read.

(** ** Requests and their outcomes *)

Section Outcomes.

Context {K : kernel_abi}.
Variable P : platform.

(** [hdd_rw] up to the sleep, and from there on. *)
Lemma hdd_rw_asleep (d : ata_disk) (count blk : Z) (m : machine) :
  hdd_rw P d IO_READ count blk m
  = (r <- await P (irq_budget P (trace (asleep d count blk m))) ;;
     err <- match r with
            | SLP_INTR => ret EINTR
            | SLP_SUCCESS => c <- get_ctl ;; ret (irp_error (the_irp c))
            end ;;
     log EvSchedUnlock ;;;
     ret err) (asleep d count blk m).
Proof.
  unfold hdd_rw.
  unfold bind at 1. unfold set_irp at 1. unfold bind at 1, get_ctl at 1.
  unfold set_ctl at 1.
  unfold bind at 1. unfold log at 1.
  unfold bind at 1. unfold bind at 1, get_ctl at 1. unfold ret at 1.
  cbn [trace ctl with_irp the_irp irp_cmd irp_blkno irp_blksz].
  unfold bind at 1. rewrite hdd_setup_io_read.
  cbn [trace ctl].
  unfold bind at 1. unfold sched_sleep. unfold bind at 1, log at 1.
  cbn [trace ctl].
  reflexivity.
Qed.

Lemma ist_runs_in_ctl (d : ata_disk) (n : nat) (ms m : machine) :
  ist_runs_in P d n ms m -> ctl m = ctl ms.
Proof.
  induction 1 as [n ms _ | n ms m _ _ IH]; [reflexivity | exact IH].
Qed.

(** The sleep ends with the IST's wakeup. *)
Lemma await_ist (d : ata_disk) (n : nat) (ms m : machine) :
  ist_runs_in P d n ms m ->
  active_disk (ctl ms) = Some d ->
  forall m', hdc_ist P m = Some (tt, m') ->
  await P n ms = Some (SLP_SUCCESS, m').
Proof.
  induction 1 as [n ms Hgo | n ms m Hno _ IH]; intros Hd m' Hist.
  - cbn [await]. unfold bind at 1. unfold deliver_irq. unfold bind at 1.
    rewrite (hdc_isr_spec P d ms Hd).
    unfold isr_dispatches, isr_status in Hgo. rewrite Hgo.
    rewrite Z.eqb_refl. unfold bind at 1.
    change {| trace := _ :: trace ms; ctl := ctl ms |}
      with (after_isr P d ms).
    rewrite Hist. reflexivity.
  - cbn [await]. unfold bind at 1. unfold deliver_irq. unfold bind at 1.
    rewrite (hdc_isr_spec P d ms Hd).
    unfold isr_dispatches, isr_status in Hno. rewrite Hno.
    destruct (Z.eqb_spec 0 INT_CONTINUE) as [Heq | _].
    { exfalso. apply INT_CONTINUE_nonzero. symmetry. exact Heq. }
    cbn [ret].
    change {| trace := _ :: trace ms; ctl := ctl ms |}
      with (after_isr P d ms).
    apply IH; [exact Hd | exact Hist].
Qed.

(** A request during whose sleep the IST runs returns what the IST
    recorded, right after the IST. *)
Lemma hdd_rw_by_ist (d : ata_disk) (count blk : Z) (m1 m m' : machine) :
  ist_runs_in P d (irq_budget P (trace (asleep d count blk m1)))
    (asleep d count blk m1) m ->
  hdc_ist P m = Some (tt, m') ->
  hdd_rw P d IO_READ count blk m1
  = Some (irp_error (the_irp (ctl m')),
          {| trace := EvSchedUnlock :: trace m'; ctl := ctl m' |}).
Proof.
  intros Hruns Hist. rewrite hdd_rw_asleep.
  unfold bind at 1.
  rewrite (await_ist d _ _ m Hruns eq_refl m' Hist).
  reflexivity.
Qed.

Lemma loop_reaches_range (d : ata_disk) (n blk : Z) (m : machine)
    (n' blk' : Z) (m' : machine) :
  loop_reaches P d n blk m n' blk' m' -> 0 <= n -> 0 <= n' <= n.
Proof.
  induction 1 as [n blk m | n blk m m1 n' blk' m' Hpos _ _ IH]; intros Hn.
  - lia.
  - revert IH. unfold BUFFER_LENGTH_IN_SECTORS, BUFFER_LENGTH, SECTOR_SIZE.
    change (65536 / 512) with 128. lia.
Qed.

(** Past the requests that succeed, the loop goes on from where it
    stands. *)
Lemma loop_reaches_run (d : ata_disk) (n blk : Z) (m : machine)
    (n' blk' : Z) (m' : machine) :
  loop_reaches P d n blk m n' blk' m' ->
  forall (fuel : nat) (total : Z) (kdata : list Z),
    0 <= n -> (Z.to_nat n <= fuel)%nat ->
    0 <= total -> total + 512 * n < 2 ^ 32 ->
    exists fuel' kdata',
      (Z.to_nat n' <= fuel')%nat /\
      hdd_read_loop P fuel d n total blk kdata m
      = hdd_read_loop P fuel' d n' (total + 512 * (n - n')) blk' kdata' m'.
Proof.
  induction 1 as [n blk m | n blk m m1 n' blk' m' Hpos Hrw Hrest IH];
    intros fuel total kdata Hn Hfuel Ht Hfit.
  - exists fuel, kdata. split; [exact Hfuel |].
    replace (total + 512 * (n - n)) with total by lia. reflexivity.
  - rewrite hdd_read_loop_unfold.
    destruct (Z.ltb_spec 0 n) as [_ | Hno]; [| lia].
    destruct fuel as [|fuel]; [lia |].
    revert Hrw Hrest IH.
    set (tsc := Z.min n BUFFER_LENGTH_IN_SECTORS).
    intros Hrw Hrest IH.
    assert (Htsc : 0 < tsc <= 128 /\ tsc <= n).
    { unfold tsc, BUFFER_LENGTH_IN_SECTORS, BUFFER_LENGTH, SECTOR_SIZE.
      change (65536 / 512) with 128. lia. }
    assert (Hbytes : to_size_t (SECTOR_SIZE * tsc) = 512 * tsc).
    { unfold to_size_t, SECTOR_SIZE. apply to_u32_small. lia. }
    assert (Hn' : to_size_t (n - tsc) = n - tsc).
    { unfold to_size_t. apply to_u32_small. lia. }
    assert (Ht' : to_size_t (total + 512 * tsc) = total + 512 * tsc).
    { unfold to_size_t. apply to_u32_small. lia. }
    rewrite Hbytes, Hn', Ht'.
    unfold bind at 1. rewrite Hrw.
    change (c_true 0) with false. cbv iota.
    unfold bind at 1. unfold get_ctl at 1.
    destruct (IH fuel (total + 512 * tsc)
                (kdata ++ firstn (Z.to_nat (512 * tsc)) (buffer (ctl m1))))
      as (fuel' & kdata' & Hf' & E); try lia.
    exists fuel', kdata'. split; [exact Hf' |].
    rewrite E. f_equal. lia.
Qed.

(** Every run of the loop settles one way or the other. *)
Lemma hdd_read_loop_settles (d : ata_disk) (fuel : nat) :
  forall (n total blk : Z) (kdata : list Z) (m : machine),
    0 <= n -> (Z.to_nat n <= fuel)%nat ->
    0 <= total -> total + 512 * n < 2 ^ 32 ->
    exists r m',
      hdd_read_loop P fuel d n total blk kdata m = Some (r, m') /\
      ((r_ret r = 0 /\ requests_succeed P d n blk m m')
       \/ (r_ret r = EIO /\ request_fails P d n blk m)).
Proof.
  induction fuel as [|fuel IH]; intros n total blk kdata m Hn Hfuel Ht Hfit;
    rewrite hdd_read_loop_unfold.
  - assert (n = 0) by lia. subst n. cbn [Z.ltb Z.compare].
    eexists _, m. split; [reflexivity |].
    left. split; [reflexivity |]. exists blk. constructor.
  - destruct (Z.ltb_spec 0 n) as [Hpos | Hzero].
    2:{ assert (n = 0) by lia. subst n.
        eexists _, m. split; [reflexivity |].
        left. split; [reflexivity |]. exists blk. constructor. }
    set (tsc := Z.min n BUFFER_LENGTH_IN_SECTORS).
    assert (Htsc : 0 < tsc <= 128 /\ tsc <= n).
    { unfold tsc, BUFFER_LENGTH_IN_SECTORS, BUFFER_LENGTH, SECTOR_SIZE.
      change (65536 / 512) with 128. lia. }
    assert (Hbytes : to_size_t (SECTOR_SIZE * tsc) = 512 * tsc).
    { unfold to_size_t, SECTOR_SIZE. apply to_u32_small. lia. }
    assert (Hn' : to_size_t (n - tsc) = n - tsc).
    { unfold to_size_t. apply to_u32_small. lia. }
    assert (Ht' : to_size_t (total + 512 * tsc) = total + 512 * tsc).
    { unfold to_size_t. apply to_u32_small. lia. }
    rewrite Hbytes, Hn', Ht'.
    destruct (hdd_rw_spec P d tsc blk m) as (err & m1 & evs1 & E1 & _).
    unfold bind at 1. rewrite E1.
    destruct (Z.eq_dec err 0) as [-> | Herr].
    + change (c_true 0) with false. cbv iota.
      unfold bind at 1. unfold get_ctl at 1.
      destruct (IH (n - tsc) (total + 512 * tsc) (to_int (blk + tsc))
                  (kdata ++ firstn (Z.to_nat (512 * tsc)) (buffer (ctl m1)))
                  m1)
        as (r & m' & E & Hres); try lia.
      exists r, m'. split; [exact E |].
      destruct Hres as [(Hret & blk' & Hgo) | (Hret & Hfail)].
      * left. split; [exact Hret |]. exists blk'.
        exact (reaches_on P d n blk m m1 0 blk' m' Hpos E1 Hgo).
      * right. split; [exact Hret |].
        destruct Hfail as (n' & blk' & m2 & err & m3 & Hgo & Hn2 & E2 & He).
        exists n', blk', m2, err, m3.
        split; [exact (reaches_on P d n blk m m1 n' blk' m2 Hpos E1 Hgo) |].
        split; [exact Hn2 |]. split; [exact E2 | exact He].
    + assert (Hc : c_true err = true) by (apply c_true_iff; exact Herr).
      rewrite Hc. eexists _, m1. split; [reflexivity |].
      right. split; [reflexivity |].
      exists n, blk, m, err, m1.
      split; [constructor |]. split; [exact Hpos |].
      split; [exact E1 | exact Herr].
Qed.

(** A call that gets past the two guards is the loop. *)
Lemma hdd_read_through (dev : ata_device_handle) (buf nbyte blkno : Z)
    (m : machine) :
  fails_bounds_check dev blkno nbyte = false ->
  kmem_map P buf nbyte <> None ->
  hdd_read P dev buf nbyte blkno m
  = hdd_read_loop P (Z.to_nat (nbyte / 512)) (disk_of dev) (nbyte / 512) 0
      (resolved_blkno dev blkno) [] m.
Proof.
  unfold hdd_read, fails_bounds_check, resolved_blkno, disk_of.
  change SECTOR_SIZE with 512.
  assert (Hd : fst (fst (adjust_blkno dev 0))
               = fst (fst (adjust_blkno dev blkno)))
    by (destruct dev; reflexivity).
  rewrite Hd.
  destruct (adjust_blkno dev blkno) as [[d blk] limit]. cbn [fst snd].
  intros Hpass Hmap. rewrite Hpass.
  destruct (kmem_map P buf nbyte); [reflexivity | contradiction].
Qed.

(** When all requests succeed the call returns 0. *)
Lemma hdd_read_succeeds (dev : ata_device_handle) (buf nbyte blkno : Z)
    (m mf : machine) :
  0 <= nbyte < 2 ^ 32 ->
  fails_bounds_check dev blkno nbyte = false ->
  kmem_map P buf nbyte <> None ->
  requests_succeed P (disk_of dev) (nbyte / 512) (resolved_blkno dev blkno)
    m mf ->
  exists r, hdd_read P dev buf nbyte blkno m = Some (r, mf) /\ r_ret r = 0.
Proof.
  intros Hnb Hpass Hmap (blk' & Hgo).
  assert (Hn : 0 <= nbyte / 512 /\ 512 * (nbyte / 512) <= nbyte).
  { split; [apply Z.div_pos; lia | apply Z.mul_div_le; lia]. }
  rewrite (hdd_read_through dev buf nbyte blkno m Hpass Hmap).
  destruct (loop_reaches_run _ _ _ _ _ _ _ Hgo
              (Z.to_nat (nbyte / 512)) 0 []) as (fuel' & kdata' & _ & E);
    try lia.
  rewrite E, hdd_read_loop_unfold. cbn [Z.ltb Z.compare].
  eexists. split; reflexivity.
Qed.

(** When a request fails the call returns EIO, with [*nbyte] counting
    the sectors of the requests before it. *)
Lemma hdd_read_fails (dev : ata_device_handle) (buf nbyte blkno : Z)
    (m : machine) (n' blk' : Z) (m1 : machine) (err : Z) (m2 : machine) :
  0 <= nbyte < 2 ^ 32 ->
  fails_bounds_check dev blkno nbyte = false ->
  kmem_map P buf nbyte <> None ->
  loop_reaches P (disk_of dev) (nbyte / 512) (resolved_blkno dev blkno) m
    n' blk' m1 ->
  0 < n' ->
  hdd_rw P (disk_of dev) IO_READ (Z.min n' BUFFER_LENGTH_IN_SECTORS) blk' m1
  = Some (err, m2) ->
  err <> 0 ->
  exists r,
    hdd_read P dev buf nbyte blkno m = Some (r, m2) /\
    r_ret r = EIO /\
    r_nbyte r = 512 * (nbyte / 512 - n').
Proof.
  intros Hnb Hpass Hmap Hgo Hpos Hrw Herr.
  assert (Hn : 0 <= nbyte / 512 /\ 512 * (nbyte / 512) <= nbyte).
  { split; [apply Z.div_pos; lia | apply Z.mul_div_le; lia]. }
  rewrite (hdd_read_through dev buf nbyte blkno m Hpass Hmap).
  destruct (loop_reaches_run _ _ _ _ _ _ _ Hgo
              (Z.to_nat (nbyte / 512)) 0 []) as (fuel' & kdata' & Hf & E);
    try lia.
  rewrite E, hdd_read_loop_unfold.
  destruct (Z.ltb_spec 0 n') as [_ | Hno]; [| lia].
  destruct fuel' as [|fuel']; [lia |].
  unfold bind at 1. rewrite Hrw.
  assert (Hc : c_true err = true) by (apply c_true_iff; exact Herr).
  rewrite Hc. eexists. split; [reflexivity |].
  split; reflexivity.
Qed.

End Outcomes.

(** On a device that is always ready (status 0x58: DRDY, DSC, DRQ) and
    interrupts at once, every request succeeds. *)
Lemma steady_request_succeeds (word : Z) (d : ata_disk) (count blk : Z)
    (m : machine) :
  exists m',
    hdd_rw (steady_device 0x58 word) d IO_READ count blk m = Some (0, m').
Proof.
  set (P := steady_device 0x58 word).
  set (ms := asleep d count blk m).
  assert (Hp : pending d count (after_isr P d ms)) by (repeat split).
  destruct (hdc_ist_data P d count (after_isr P d ms) Hp)
    as (data & evs & Hist & _); [reflexivity |].
  eexists.
  rewrite (hdd_rw_by_ist P d count blk m (after_isr P d ms) _
             (ist_at_once P d 0 ms eq_refl) Hist).
  reflexivity.
Qed.

Lemma steady_requests_succeed (word : Z) (d : ata_disk) (k : nat) :
  forall (n blk : Z) (m : machine),
    0 <= n <= 128 * Z.of_nat k ->
    exists m', requests_succeed (steady_device 0x58 word) d n blk m m'.
Proof.
  induction k as [|k IH]; intros n blk m Hn.
  - assert (n = 0) by lia. subst n. exists m, blk. constructor.
  - destruct (Z.eq_dec n 0) as [-> | Hpos].
    + exists m, blk. constructor.
    + destruct (steady_request_succeeds word d
                  (Z.min n BUFFER_LENGTH_IN_SECTORS) blk m) as (m1 & E1).
      destruct (IH (n - Z.min n BUFFER_LENGTH_IN_SECTORS)
                  (to_int (blk + Z.min n BUFFER_LENGTH_IN_SECTORS)) m1)
        as (m' & blk' & Hgo).
      { unfold BUFFER_LENGTH_IN_SECTORS, BUFFER_LENGTH, SECTOR_SIZE.
        change (65536 / 512) with 128. lia. }
      exists m', blk'.
      apply (reaches_on _ d n blk m m1 0 blk' m'); [lia | exact E1 | exact Hgo].
Qed.

(** * The claims *)

(** ** C2: the order of the register writes *)

(** C2.  Issuing a read of [count] sectors at the 64-bit address [lba]
    puts exactly these writes on the bus, in this order: DISK_SELECT,
    then SECTOR_COUNT <- (count >> 8) & 0xff, LBA_LOW <- (lba >> 24) & 0xff,
    LBA_MID <- (lba >> 32) & 0xff, LBA_HIGH <- (lba >> 40) & 0xff,
    SECTOR_COUNT <- count & 0xff, LBA_LOW <- lba & 0xff,
    LBA_MID <- (lba >> 8) & 0xff, LBA_HIGH <- (lba >> 16) & 0xff, and
    last COMMAND_STATUS <- 0x24.  Nothing else is logged, and the disk
    becomes the controller's active disk. *)
Theorem hdd_setup_io_register_order (d : ata_disk) (lba count : Z)
    (m : machine) :
  let base := base_port (channel_at (ctl m) (channel d)) in
  exists m',
    hdd_setup_io d IO_READ lba count m = Some (tt, m') /\
    active_disk (ctl m') = Some d /\
    rev (trace m')
    = rev (trace m)
      ++ [ EvWrite8 (base + ATA_REG_DISK_SELECT)
                    (to_u8 (Z.lor 0x40 (Z.shiftl (slave d) 4)));
           EvWrite8 (base + ATA_REG_SECTOR_COUNT)
                    (Z.land (Z.shiftr count 8) 0xFF);
           EvWrite8 (base + ATA_REG_LBA_LOW) (Z.land (Z.shiftr lba 24) 0xFF);
           EvWrite8 (base + ATA_REG_LBA_MID) (Z.land (Z.shiftr lba 32) 0xFF);
           EvWrite8 (base + ATA_REG_LBA_HIGH) (Z.land (Z.shiftr lba 40) 0xFF);
           EvWrite8 (base + ATA_REG_SECTOR_COUNT) (Z.land count 0xFF);
           EvWrite8 (base + ATA_REG_LBA_LOW) (Z.land lba 0xFF);
           EvWrite8 (base + ATA_REG_LBA_MID) (Z.land (Z.shiftr lba 8) 0xFF);
           EvWrite8 (base + ATA_REG_LBA_HIGH) (Z.land (Z.shiftr lba 16) 0xFF);
           EvWrite8 (base + ATA_REG_COMMAND_STATUS) 0x24 ].
Proof.
  intros base. eexists. split; [apply hdd_setup_io_read |].
  split; [reflexivity |].
  cbn [trace]. rewrite rev_app_distr, rev_involutive. reflexivity.
Qed.

(** ** C9: the interrupt service routine *)

(** C9.  With a request in flight, the ISR reads the alternate status
    register once and returns [INT_CONTINUE] if and only if at least one
    of DRQ (0x08), DEVICE_FAILURE (0x20) and ERROR (0x01) is set in the
    byte read; otherwise it returns 0, and the interrupt ends there: the
    IST is not run, the log shows the one status read and the
    controller is as it was. *)
Theorem hdc_isr_dispatch {K : kernel_abi} (P : platform) (d : ata_disk)
    (m : machine) :
  active_disk (ctl m) = Some d ->
  let port := control_port (channel_at (ctl m) (channel d)) in
  let status := to_u8 (bus_in8 P (trace m) port) in
  let seen := {| trace := EvRead8 port status :: trace m; ctl := ctl m |} in
  let flagged :=
    Z.land status ATA_STATUS_FLAG_DRQ <> 0 \/
    Z.land status ATA_STATUS_FLAG_DEVICE_FAILURE <> 0 \/
    Z.land status ATA_STATUS_FLAG_ERROR <> 0 in
  exists r,
    hdc_isr P m = Some (r, seen) /\
    (r = INT_CONTINUE <-> flagged) /\
    (~ flagged -> r = 0 /\ deliver_irq P m = Some (false, seen)).
Proof.
  intros Hd port status seen flagged.
  pose proof (hdc_isr_spec P d m Hd) as E. cbn zeta in E.
  fold port in E. fold status in E. fold seen in E.
  set (mask := Z.lor (Z.lor ATA_STATUS_FLAG_DRQ ATA_STATUS_FLAG_DEVICE_FAILURE)
                     ATA_STATUS_FLAG_ERROR) in E.
  assert (Hflag : c_true (Z.land status mask) = true <-> flagged).
  { rewrite c_true_iff. unfold mask, flagged.
    rewrite !land_lor_zero.
    destruct (Z.eq_dec (Z.land status ATA_STATUS_FLAG_DRQ) 0);
      destruct (Z.eq_dec (Z.land status ATA_STATUS_FLAG_DEVICE_FAILURE) 0);
      destruct (Z.eq_dec (Z.land status ATA_STATUS_FLAG_ERROR) 0);
      tauto. }
  destruct (c_true (Z.land status mask)) eqn:Hc.
  - exists INT_CONTINUE. split; [exact E |]. split.
    + split; intros _; [apply Hflag |]; reflexivity.
    + intros Hn. exfalso. apply Hn. apply Hflag. reflexivity.
  - exists 0. split; [exact E |]. split.
    + split.
      * intros H0. exfalso. apply INT_CONTINUE_nonzero. symmetry. exact H0.
      * intros Hf. apply Hflag in Hf. discriminate Hf.
    + intros _. split; [reflexivity |].
      unfold deliver_irq, bind. rewrite E.
      destruct (Z.eqb_spec 0 INT_CONTINUE) as [H0 | _].
      * exfalso. apply INT_CONTINUE_nonzero. symmetry. exact H0.
      * reflexivity.
Qed.

(** A status of 0x58 (DRDY, DSC, DRQ) makes the ISR ask for the IST. *)
Lemma hdc_isr_dispatch_witness :
  active_disk (ctl (waiting (plain_disk 1000) 1)) = Some (plain_disk 1000) /\
  exists seen,
    hdc_isr (steady_device 0x58 0) (waiting (plain_disk 1000) 1)
    = Some (INT_CONTINUE, seen).
Proof.
  split; [reflexivity |].
  destruct (hdc_isr_dispatch (steady_device 0x58 0) (plain_disk 1000)
              (waiting (plain_disk 1000) 1) eq_refl)
    as (r & E & Hiff & _).
  eexists. rewrite E. f_equal. f_equal.
  apply Hiff. left. vm_compute. discriminate.
Defined.

(** ** C4: chunking *)

(** C4.  Every call returns.  A call that passes the bounds test, has
    its buffer mapped and whose requests all succeed returns 0, and
    only such a call does.  It has then put on the bus exactly the
    commands of a list [subs] of requests such that: their number is
    nbyte/512 divided by 128 and rounded up ([ceiling_128]); the sector
    count of each is the smaller of 128 and the sectors still to go
    when it is issued; and the sector counts add up to nbyte/512. *)
Theorem hdd_read_chunking {K : kernel_abi} (P : platform)
    (dev : ata_device_handle) (buf nbyte blkno : Z) (m : machine) :
  0 <= nbyte < 2 ^ 32 ->
  exists r m',
    hdd_read P dev buf nbyte blkno m = Some (r, m') /\
    (fails_bounds_check dev blkno nbyte = false ->
     kmem_map P buf nbyte <> None ->
     (exists mf,
         requests_succeed P (disk_of dev) (nbyte / 512)
           (resolved_blkno dev blkno) m mf) ->
     r_ret r = 0) /\
    (r_ret r = 0 ->
     fails_bounds_check dev blkno nbyte = false /\
     kmem_map P buf nbyte <> None /\
     requests_succeed P (disk_of dev) (nbyte / 512)
       (resolved_blkno dev blkno) m m' /\
     exists evs subs,
       trace m' = evs ++ trace m /\
       bus_writes evs
       = flat_map (read_command_writes (ctl m) (disk_of dev)) subs /\
       Z.of_nat (length subs) = (nbyte / 512 + 127) / 128 /\
       (forall k sub,
           nth_error subs k = Some sub ->
           snd sub
           = Z.min (nbyte / 512 - sum_sectors (firstn k subs)) 128) /\
       sum_sectors subs = nbyte / 512).
Proof.
  intros Hnb.
  assert (Hn : 0 <= nbyte / 512 /\ 512 * (nbyte / 512) <= nbyte).
  { split; [apply Z.div_pos; lia | apply Z.mul_div_le; lia]. }
  destruct (hdd_read_run P dev buf nbyte blkno m Hnb)
    as (r & m' & evs & subs & E & Htr & _ & Hw & Hiss & Hcases).
  exists r, m'. split; [exact E |]. split.
  - (* requests that succeed give 0 *)
    intros Hpass Hmap (mf & Hgo).
    destruct (hdd_read_succeeds P dev buf nbyte blkno m mf Hnb Hpass Hmap Hgo)
      as (r1 & E1 & Hret).
    rewrite E in E1. injection E1 as -> _. exact Hret.
  - (* and 0 comes from nothing else *)
    intros Hret.
    assert (Hok : fails_bounds_check dev blkno nbyte = false
                  /\ kmem_map P buf nbyte <> None
                  /\ sum_sectors subs = nbyte / 512).
    { destruct Hcases
        as [(_ & Hr & _) | [(_ & _ & Hr & _) | (Hf & Hmap & _ & Hres)]].
      - subst r. cbn in Hret. exfalso. apply EIO_nonzero. exact Hret.
      - subst r. cbn in Hret. exfalso. apply EFAULT_nonzero. exact Hret.
      - destruct Hres as [(_ & _ & Hs & _) | (Hr & _)].
        + repeat split; assumption.
        + exfalso. apply EIO_nonzero. congruence. }
    destruct Hok as (Hf & Hmap & Hsum).
    split; [exact Hf |]. split; [exact Hmap |]. split.
    + rewrite (hdd_read_through P dev buf nbyte blkno m Hf Hmap) in E.
      destruct (hdd_read_loop_settles P (disk_of dev)
                  (Z.to_nat (nbyte / 512)) (nbyte / 512) 0
                  (resolved_blkno dev blkno) [] m)
        as (r1 & m1 & E1 & Hres); try lia.
      rewrite E in E1. injection E1 as <- <-.
      destruct Hres as [(_ & Hgo) | (Heio & _)]; [exact Hgo |].
      exfalso. apply EIO_nonzero. congruence.
    + exists evs, subs. split; [exact Htr |]. split; [exact Hw |].
      destruct (issues_complete _ _ _ Hiss) as (Hlen & Hnth);
        [apply Z.div_pos; lia | exact Hsum |].
      split; [exact Hlen |]. split; [exact Hnth | exact Hsum].
Qed.

(** 200 sectors at block 5 of a disk of 1000, on a device that is always
    ready: the call returns 0 after two requests, of 128 and of 72
    sectors. *)
Lemma hdd_read_chunking_witness :
  exists r m',
    hdd_read (steady_device 0x58 0)
      (ATA_DEVICE_WHOLEDISK (plain_disk 1000)) 0 102400 5 boot
    = Some (r, m') /\
    r_ret r = 0 /\
    exists evs subs,
      trace m' = evs ++ trace boot /\
      bus_writes evs
      = flat_map (read_command_writes (ctl boot) (plain_disk 1000)) subs /\
      map snd subs = [128; 72].
Proof.
  destruct (hdd_read_chunking (steady_device 0x58 0)
              (ATA_DEVICE_WHOLEDISK (plain_disk 1000)) 0 102400 5 boot
              ltac:(lia))
    as (r & m' & E & Hzero & Hall).
  assert (Hret : r_ret r = 0).
  { apply Hzero; [reflexivity | discriminate |].
    apply (steady_requests_succeed 0 (plain_disk 1000) 2).
    change (102400 / 512) with 200. cbn. lia. }
  exists r, m'. split; [exact E |]. split; [exact Hret |].
  destruct (Hall Hret) as (_ & _ & _ & evs & subs & Htr & Hw & Hlen & Hnth & _).
  exists evs, subs. split; [exact Htr |]. split; [exact Hw |].
  change (102400 / 512) with 200 in Hlen, Hnth.
  change ((200 + 127) / 128) with 2 in Hlen.
  destruct subs as [|a [|b [|c subs]]]; cbn [length] in Hlen; try lia.
  pose proof (Hnth 0%nat a eq_refl) as Ha.
  pose proof (Hnth 1%nat b eq_refl) as Hb.
  unfold sum_sectors in Ha, Hb. cbn [firstn fold_right] in Ha, Hb.
  rewrite Ha in Hb. cbn [map]. rewrite Ha, Hb. reflexivity.
Defined.

(** Scenario S4: 131072 bytes at block 100 of a partition that starts at
    sector 2048 go out, on any device that serves the two requests, as
    two commands: 128 sectors at 2148, then 128 sectors at 2276. *)
Lemma hdd_read_two_chunks {K : kernel_abi} (P : platform) (buf : Z)
    (m mf : machine) :
  kmem_map P buf 131072 <> None ->
  requests_succeed P (plain_disk 5000000) 256 2148 m mf ->
  exists r evs,
    hdd_read P (ATA_DEVICE_PARTITION (plain_partition 5000000 2048 1000000))
      buf 131072 100 m = Some (r, mf) /\
    r_ret r = 0 /\
    trace mf = evs ++ trace m /\
    bus_writes evs
    = read_command_writes (ctl m) (plain_disk 5000000) (2148, 128)
      ++ read_command_writes (ctl m) (plain_disk 5000000) (2276, 128).
Proof.
  intros Hmap Hgo.
  destruct (hdd_read_succeeds P
              (ATA_DEVICE_PARTITION (plain_partition 5000000 2048 1000000))
              buf 131072 100 m mf ltac:(lia) eq_refl Hmap Hgo)
    as (r & E & Hret).
  destruct (hdd_read_run P
              (ATA_DEVICE_PARTITION (plain_partition 5000000 2048 1000000))
              buf 131072 100 m ltac:(lia))
    as (r0 & m0 & evs & subs & E0 & Htr & _ & Hw & Hiss & Hcases).
  rewrite E in E0. injection E0 as <- <-.
  exists r, evs. split; [exact E |]. split; [exact Hret |].
  split; [exact Htr |].
  assert (Hsum : sum_sectors subs = 256).
  { destruct Hcases as [(_ & Hr & _) | [(_ & _ & Hr & _) | (_ & _ & _ & Hres)]].
    - subst r. exfalso. apply EIO_nonzero. exact Hret.
    - subst r. exfalso. apply EFAULT_nonzero. exact Hret.
    - destruct Hres as [(_ & _ & Hs & _) | (Hr & _)].
      + exact Hs.
      + exfalso. apply EIO_nonzero. congruence. }
  change (resolved_blkno _ 100) with 2148 in Hiss.
  change (131072 / 512) with 256 in Hiss.
  inversion Hiss as [| ? ? rest1 _ Hiss1]; subst; [discriminate Hsum |].
  change (to_int (2148 + Z.min 256 BUFFER_LENGTH_IN_SECTORS)) with 2276 in Hiss1.
  change (256 - Z.min 256 BUFFER_LENGTH_IN_SECTORS) with 128 in Hiss1.
  inversion Hiss1 as [| ? ? rest2 _ Hiss2]; subst; [discriminate Hsum |].
  change (128 - Z.min 128 BUFFER_LENGTH_IN_SECTORS) with 0 in Hiss2.
  inversion Hiss2 as [| ? ? rest3 Hpos _]; subst; [| lia].
  rewrite Hw. cbn [flat_map]. rewrite app_nil_r. reflexivity.
Qed.

(** ** C5: partition-relative block numbers *)

(** Where [S + blkno] fits the [int] that carries block numbers, the
    first command of a read of a partition starting at [S] carries the
    address [S + blkno]. *)
Lemma hdd_read_rebase_in_range {K : kernel_abi} (P : platform)
    (p : ata_partition) (buf nbyte blkno : Z) (m : machine) :
  0 <= nbyte < 2 ^ 32 ->
  0 <= start_lba p + blkno < 2 ^ 31 ->
  exists r m' evs subs,
    hdd_read P (ATA_DEVICE_PARTITION p) buf nbyte blkno m = Some (r, m') /\
    trace m' = evs ++ trace m /\
    bus_writes evs
    = flat_map (read_command_writes (ctl m) (part_disk p)) subs /\
    (forall lba count rest,
        subs = (lba, count) :: rest -> lba = start_lba p + blkno).
Proof.
  intros Hnb Hfit.
  destruct (hdd_read_run P (ATA_DEVICE_PARTITION p) buf nbyte blkno m Hnb)
    as (r & m' & evs & subs & E & Htr & _ & Hw & Hiss & _).
  exists r, m', evs, subs.
  split; [exact E |]. split; [exact Htr |]. split; [exact Hw |].
  intros lba count rest Hsubs. rewrite Hsubs in Hiss.
  inversion Hiss; subst.
  unfold resolved_blkno. cbn [adjust_blkno fst snd].
  rewrite to_int_small by lia. unfold to_u64. rewrite Z.mod_small by lia. lia.
Qed.

(** C5.  The claim fails on the code where [S + blkno] does not fit the
    32-bit [int] that [adjust_blkno] adds into: block 1 of a partition
    that starts at sector 0xFFFFFFFF passes the bounds test, the call
    returns 0, and the one command it sends reads sector 0 of the disk,
    not sector 0x100000000 = S + 1. *)
Theorem hdd_read_rebase_wraps :
  exists r m',
    hdd_read (steady_device 0x58 0) (ATA_DEVICE_PARTITION far_partition)
      0 512 1 boot
    = Some (r, m') /\
    r_ret r = 0 /\
    bus_writes (trace m')
    = read_command_writes hd0 (part_disk far_partition) (0, 1) /\
    read_command_writes hd0 (part_disk far_partition) (0, 1)
    <> read_command_writes hd0 (part_disk far_partition)
         (start_lba far_partition + 1, 1).
Proof.
  eexists _, _. split; [vm_compute; reflexivity |].
  split; [reflexivity |]. split; [vm_compute; reflexivity |].
  vm_compute. discriminate.
Qed.

(** ** C6: [*nbyte] on failure *)

(** C6, as the code has it.  A call that fails in a request to the disk
    returns EIO with [*nbyte] set to the bytes of the requests completed
    before it, which are the bytes copied to the caller.  A call turned
    down by the bounds test (EIO) or for want of a mapping (EFAULT)
    returns at once: [*nbyte] keeps the value the caller put there,
    nothing is copied and nothing is logged. *)
Theorem hdd_read_nbyte_on_failure {K : kernel_abi} (P : platform)
    (dev : ata_device_handle) (buf nbyte blkno : Z) (m : machine) :
  0 <= nbyte < 2 ^ 32 ->
  exists r m' evs,
    hdd_read P dev buf nbyte blkno m = Some (r, m') /\
    trace m' = evs ++ trace m /\
    (fails_bounds_check dev blkno nbyte = true ->
     r = {| r_ret := EIO; r_nbyte := nbyte; r_data := [] |} /\ m' = m) /\
    (fails_bounds_check dev blkno nbyte = false ->
     kmem_map P buf nbyte = None ->
     r = {| r_ret := EFAULT; r_nbyte := nbyte; r_data := [] |} /\ m' = m) /\
    (fails_bounds_check dev blkno nbyte = false ->
     kmem_map P buf nbyte <> None ->
     r_ret r <> 0 ->
     r_ret r = EIO /\
     Z.of_nat (length (r_data r)) = r_nbyte r /\
     exists done last,
       bus_writes evs
       = flat_map (read_command_writes (ctl m) (disk_of dev))
           (done ++ [last]) /\
       r_nbyte r = 512 * sum_sectors done).
Proof.
  intros Hnb.
  destruct (hdd_read_run P dev buf nbyte blkno m Hnb)
    as (r & m' & evs & subs & E & Htr & _ & Hw & Hiss & Hcases).
  exists r, m', evs. split; [exact E |]. split; [exact Htr |].
  destruct Hcases as [(Hf & Hr & Hm & _)
                     | [(Hf & Hmap & Hr & Hm & _)
                       | (Hf & Hmap & Hlen & Hres)]].
  - split; [intros _; split; assumption |].
    split; intros Hf'; rewrite Hf in Hf'; discriminate Hf'.
  - split; [intros Hf'; rewrite Hf in Hf'; discriminate Hf' |].
    split; [intros _ _; split; assumption |].
    intros _ Hmap'. contradiction.
  - split; [intros Hf'; rewrite Hf in Hf'; discriminate Hf' |].
    split; [intros _ Hmap'; contradiction |].
    intros _ _ Hret.
    destruct Hres as [(Hz & _) | (Heio & done & last & Hsubs & Hnbyte)];
      [contradiction |].
    split; [exact Heio |]. split; [exact Hlen |].
    exists done, last. rewrite <- Hsubs. split; [exact Hw | exact Hnbyte].
Qed.

(** A device error on the first request: EIO and [*nbyte] = 0. *)
Lemma hdd_read_nbyte_on_failure_witness :
  exists r m',
    hdd_read (steady_device 0x41 0)
      (ATA_DEVICE_WHOLEDISK (plain_disk 1000)) 0 1024 5 boot
    = Some (r, m') /\
    r_ret r = EIO /\ r_nbyte r = 0.
Proof.
  destruct (hdd_read_nbyte_on_failure (steady_device 0x41 0)
              (ATA_DEVICE_WHOLEDISK (plain_disk 1000)) 0 1024 5 boot
              ltac:(lia))
    as (r & m' & evs & E & _ & _ & _ & Hfail).
  exists r, m'. split; [exact E |].
  assert (Hret : r_ret r <> 0).
  { vm_compute in E. injection E as <- _. discriminate. }
  destruct (Hfail eq_refl ltac:(discriminate) Hret) as (Heio & _ & _).
  split; [exact Heio |].
  vm_compute in E. injection E as <- _. reflexivity.
Defined.

(** C6 as stated fails on the two early returns: [*nbyte] is not set to
    the zero bytes transferred, it stays at the 512 the caller asked for,
    both when block -1 is turned down and when the buffer cannot be
    mapped. *)
Lemma hdd_read_early_return_keeps_nbyte :
  (exists m',
      hdd_read (steady_device 0x58 0)
        (ATA_DEVICE_WHOLEDISK (plain_disk 1000)) 0 512 (-1) boot
      = Some ({| r_ret := EIO; r_nbyte := 512; r_data := [] |}, m')) /\
  (exists m',
      hdd_read (unmapped_device 0x58 0)
        (ATA_DEVICE_WHOLEDISK (plain_disk 1000)) 0 512 0 boot
      = Some ({| r_ret := EFAULT; r_nbyte := 512; r_data := [] |}, m')).
Proof.
  split; eexists; vm_compute; reflexivity.
Qed.

(** ** C10: byte counts that are not whole sectors *)

(** C10, as the code has it.  Of a read that passes the bounds test and
    the mapping, whatever [nbyte] is: if every request succeeds (the
    call returns 0), exactly floor(nbyte/512)*512 bytes are copied and
    [*nbyte] is set to that; and if [nbyte < 512], no command is issued,
    nothing is logged, and the call returns 0 with [*nbyte] = 0. *)
Theorem hdd_read_whole_sectors {K : kernel_abi} (P : platform)
    (dev : ata_device_handle) (buf nbyte blkno : Z) (m : machine) :
  0 <= nbyte < 2 ^ 32 ->
  fails_bounds_check dev blkno nbyte = false ->
  kmem_map P buf nbyte <> None ->
  exists r m',
    hdd_read P dev buf nbyte blkno m = Some (r, m') /\
    (r_ret r = 0 ->
     r_nbyte r = nbyte / 512 * 512 /\
     Z.of_nat (length (r_data r)) = nbyte / 512 * 512) /\
    (nbyte < 512 ->
     r = {| r_ret := 0; r_nbyte := 0; r_data := [] |} /\ m' = m).
Proof.
  intros Hnb Hpass Hmap.
  destruct (hdd_read_run P dev buf nbyte blkno m Hnb)
    as (r & m' & evs & subs & E & Htr & _ & Hw & Hiss & Hcases).
  exists r, m'. split; [exact E |].
  destruct Hcases as [(Hf & _) | [(_ & Hnone & _) | (_ & _ & Hlen & Hres)]];
    [rewrite Hpass in Hf; discriminate Hf | contradiction |].
  split.
  - intros Hret.
    destruct Hres as [(_ & Hnbyte & _) | (Heio & _)].
    + split; lia.
    + exfalso. apply EIO_nonzero. congruence.
  - intros Hsmall.
    assert (Hn : nbyte / 512 = 0) by (apply Z.div_small; lia).
    rewrite Hn in *.
    assert (Hsubs : subs = []).
    { inversion Hiss; [reflexivity | lia]. }
    destruct Hres as [(Hret & Hnbyte & _ & Hnil & _)
                     | (_ & done & last & Hdl & _)].
    + split; [| exact (Hnil Hsubs)].
      destruct r as [ret nb data]. cbn [r_ret r_nbyte r_data] in *.
      rewrite Hnbyte in Hlen. rewrite Hret, Hnbyte.
      destruct data; [reflexivity | cbn [length] in Hlen; lia].
    + rewrite Hsubs in Hdl. destruct done; discriminate Hdl.
Qed.

(** 300 bytes of a good disk: nothing happens. *)
Lemma hdd_read_whole_sectors_witness :
  exists m',
    hdd_read (steady_device 0x58 0)
      (ATA_DEVICE_WHOLEDISK (plain_disk 1000)) 0 300 5 boot
    = Some ({| r_ret := 0; r_nbyte := 0; r_data := [] |}, m') /\
    m' = boot.
Proof.
  destruct (hdd_read_whole_sectors (steady_device 0x58 0)
              (ATA_DEVICE_WHOLEDISK (plain_disk 1000)) 0 300 5 boot
              ltac:(lia) eq_refl ltac:(discriminate))
    as (r & m' & E & _ & Hsmall).
  destruct (Hsmall ltac:(lia)) as [Hr Hm].
  exists m'. rewrite E, Hr. split; [reflexivity | exact Hm].
Defined.

(** C10 as stated fails when the device reports an error: 700 bytes at
    block 0 of a disk of 1000 sectors pass the bounds test and the
    mapping, yet not floor(700/512)*512 = 512 bytes are transferred but
    none, and [*nbyte] is set to 0. *)
Lemma hdd_read_partial_sector_device_error :
  700 mod 512 <> 0 /\
  fails_bounds_check (ATA_DEVICE_WHOLEDISK (plain_disk 1000)) 0 700 = false /\
  kmem_map (steady_device 0x41 0) 0 700 <> None /\
  exists m',
    hdd_read (steady_device 0x41 0)
      (ATA_DEVICE_WHOLEDISK (plain_disk 1000)) 0 700 0 boot
    = Some ({| r_ret := EIO; r_nbyte := 0; r_data := [] |}, m') /\
    0 <> 700 / 512 * 512.
Proof.
  split; [discriminate |]. split; [reflexivity |]. split; [discriminate |].
  eexists. split; [vm_compute; reflexivity | discriminate].
Qed.

(** ** C1: when [hdd_read] returns EIO *)

(** On a whole disk of fewer than 2^32 sectors the bounds test of the
    code is the test of the specification. *)
Lemma wholedisk_bounds_check (d : ata_disk) (blkno nbyte : Z) :
  0 <= nbyte < 2 ^ 32 ->
  - 2 ^ 31 <= blkno < 2 ^ 31 ->
  0 <= addressable_sector_count d < 2 ^ 32 ->
  fails_bounds_check (ATA_DEVICE_WHOLEDISK d) blkno nbyte = true
  <-> out_of_bounds blkno nbyte (addressable_sector_count d).
Proof.
  intros Hnb Hb Hd.
  unfold fails_bounds_check, out_of_bounds. cbn [adjust_blkno].
  change SECTOR_SIZE with 512.
  assert (Hn : 0 <= nbyte / 512 < 2 ^ 23).
  { split; [apply Z.div_pos; lia | apply Z.div_lt_upper_bound; lia]. }
  unfold to_size_t. rewrite (to_u32_small (addressable_sector_count d)) by lia.
  rewrite orb_true_iff, Z.ltb_lt, Z.leb_le.
  destruct (Z.lt_ge_cases blkno 0) as [Hneg | Hpos].
  - split; intros _; left; exact Hneg.
  - rewrite to_u32_small by lia. lia.
Qed.

(** C1, as the code has it.  On a whole disk of fewer than 2^32 sectors,
    [hdd_read] returns EIO if and only if [blkno < 0], or
    [blkno + nbyte/512 >= addressable_sector_count], or else the buffer
    is mapped and one of the requests the call submits to the disk
    fails: [hdd_rw] returns an error for it, after the requests before
    it succeeded. *)
Theorem hdd_read_wholedisk_eio {K : kernel_abi} (P : platform)
    (d : ata_disk) (buf nbyte blkno : Z) (m : machine) :
  0 <= nbyte < 2 ^ 32 ->
  - 2 ^ 31 <= blkno < 2 ^ 31 ->
  0 <= addressable_sector_count d < 2 ^ 32 ->
  exists r m',
    hdd_read P (ATA_DEVICE_WHOLEDISK d) buf nbyte blkno m = Some (r, m') /\
    (r_ret r = EIO <->
     out_of_bounds blkno nbyte (addressable_sector_count d) \/
     (kmem_map P buf nbyte <> None /\
      request_fails P d (nbyte / 512) blkno m)).
Proof.
  intros Hnb Hb Hd.
  assert (Hn : 0 <= nbyte / 512 /\ 512 * (nbyte / 512) <= nbyte).
  { split; [apply Z.div_pos; lia | apply Z.mul_div_le; lia]. }
  pose proof (wholedisk_bounds_check d blkno nbyte Hnb Hb Hd) as Hcheck.
  destruct (hdd_read_run P (ATA_DEVICE_WHOLEDISK d) buf nbyte blkno m Hnb)
    as (r & m' & evs & subs & E & _ & _ & _ & _ & Hcases).
  exists r, m'. split; [exact E |].
  destruct Hcases as [(Hf & Hr & _)
                     | [(Hf & Hmap & Hr & _)
                       | (Hf & Hmap & _ & _)]].
  - (* turned down by the bounds test *)
    subst r. cbn [r_ret]. split; [intros _ | reflexivity].
    left. apply Hcheck. exact Hf.
  - (* no mapping *)
    subst r. cbn [r_ret]. split.
    + intros H. exfalso. apply EFAULT_not_EIO. exact H.
    + intros [Hout | (Hm & _)]; [| contradiction].
      apply Hcheck in Hout. rewrite Hf in Hout. discriminate Hout.
  - (* through the loop *)
    split.
    + intros Hret. right. split; [exact Hmap |].
      rewrite (hdd_read_through P _ buf nbyte blkno m Hf Hmap) in E.
      destruct (hdd_read_loop_settles P d (Z.to_nat (nbyte / 512))
                  (nbyte / 512) 0 blkno [] m)
        as (r1 & m1 & E1 & Hres); try lia.
      change (disk_of (ATA_DEVICE_WHOLEDISK d)) with d in E.
      change (resolved_blkno (ATA_DEVICE_WHOLEDISK d) blkno) with blkno in E.
      rewrite E in E1. injection E1 as <- <-.
      destruct Hres as [(Hz & _) | (_ & Hfail)]; [| exact Hfail].
      exfalso. apply EIO_nonzero. congruence.
    + intros [Hout | (_ & Hfail)].
      * apply Hcheck in Hout. rewrite Hf in Hout. discriminate Hout.
      * destruct Hfail as (n' & blk' & m1 & err & m2 & Hgo & Hpos & Hrw & Herr).
        destruct (hdd_read_fails P (ATA_DEVICE_WHOLEDISK d) buf nbyte blkno m
                    n' blk' m1 err m2 Hnb Hf Hmap Hgo Hpos Hrw Herr)
          as (r1 & E1 & Hret & _).
        rewrite E in E1. injection E1 as -> _. exact Hret.
Qed.

(** Block 1000 of a disk of 1000 sectors is out of bounds; and block 7
    is read in vain from a device that reports an error (status 0x41):
    the one request fails. *)
Lemma hdd_read_wholedisk_eio_witness :
  (exists r m',
      hdd_read (steady_device 0x58 0)
        (ATA_DEVICE_WHOLEDISK (plain_disk 1000)) 0 512 1000 boot
      = Some (r, m') /\
      r_ret r = EIO) /\
  (exists r m',
      hdd_read (steady_device 0x41 0)
        (ATA_DEVICE_WHOLEDISK (plain_disk 1000)) 0 512 7 boot
      = Some (r, m') /\
      r_ret r = EIO).
Proof.
  split.
  - destruct (hdd_read_wholedisk_eio (steady_device 0x58 0) (plain_disk 1000)
                0 512 1000 boot ltac:(lia) ltac:(lia)
                ltac:(cbn; lia))
      as (r & m' & E & Hiff).
    exists r, m'. split; [exact E |].
    apply Hiff. left. right. vm_compute. discriminate.
  - destruct (hdd_read_wholedisk_eio (steady_device 0x41 0) (plain_disk 1000)
                0 512 7 boot ltac:(lia) ltac:(lia)
                ltac:(cbn; lia))
      as (r & m' & E & Hiff).
    exists r, m'. split; [exact E |].
    apply Hiff. right. split; [discriminate |].
    eexists 1, 7, boot, _, _.
    split; [constructor |]. split; [lia |].
    split; [vm_compute; reflexivity | discriminate].
Defined.

(** C1 as stated fails in both directions.  EIO without a bounds
    violation: (1) the device reports an error on a read well inside a
    whole disk; (2) block 0 of a partition of 1000 sectors that starts at
    sector 2048 is turned down, because the test is made on the
    rebased block number; (3) on a disk of 2^32 sectors the limit,
    stored in a 32-bit [size_t], is 0 and every read is turned down. *)
Lemma hdd_read_eio_not_only_bounds :
  (exists r m',
      hdd_read (steady_device 0x41 0)
        (ATA_DEVICE_WHOLEDISK (plain_disk 1000)) 0 512 0 boot
      = Some (r, m') /\
      r_ret r = EIO /\ ~ out_of_bounds 0 512 1000) /\
  (exists r m',
      hdd_read (steady_device 0x58 0)
        (ATA_DEVICE_PARTITION (plain_partition 1000000 2048 1000))
        0 512 0 boot
      = Some (r, m') /\
      r_ret r = EIO /\ ~ out_of_bounds 0 512 1000) /\
  (exists r m',
      hdd_read (steady_device 0x58 0) (ATA_DEVICE_WHOLEDISK big_disk)
        0 512 0 boot
      = Some (r, m') /\
      r_ret r = EIO /\ ~ out_of_bounds 0 512 0x100000000).
Proof.
  unfold out_of_bounds.
  repeat split; eexists _, _;
    (split; [vm_compute; reflexivity |]);
    (split; [reflexivity |]);
    change (512 / 512) with 1; lia.
Qed.

(** The same rebased test lets block -1 of a partition through: the
    sector before the partition is read. *)
Lemma hdd_read_partition_negative_block :
  exists r m',
    hdd_read (steady_device 0x58 0)
      (ATA_DEVICE_PARTITION (plain_partition 1000000 2048 1000000))
      0 512 (-1) boot
    = Some (r, m') /\
    r_ret r = 0 /\
    bus_writes (trace m')
    = read_command_writes hd0 (plain_disk 1000000) (2047, 1).
Proof.
  eexists _, _. split; [vm_compute; reflexivity |].
  split; [reflexivity | vm_compute; reflexivity].
Qed.

(** ** C3: an error status on completion *)

Lemma to_u32_to_int (x : Z) : to_u32 (to_int x) = x mod 2 ^ 32.
Proof.
  unfold to_u32, to_int.
  destruct (Z.ltb_spec (x mod 2 ^ 32) (2 ^ 31)).
  - apply Z.mod_mod. lia.
  - replace (x mod 2 ^ 32 - 2 ^ 32) with (x mod 2 ^ 32 + (-1) * 2 ^ 32) by lia.
    rewrite Z.mod_add by lia. apply Z.mod_mod. lia.
Qed.

(** The error word fits 32 bits. *)
Lemma error_word_u32 (status e : Z) :
  0 <= status < 256 -> 0 <= e < 256 ->
  to_u32 (to_int (Z.lor (Z.lor 0x80000000 (Z.shiftl status 16)) e))
  = Z.lor (Z.lor 0x80000000 (Z.shiftl status 16)) e.
Proof.
  intros Hs He. rewrite to_u32_to_int.
  rewrite <- Z.land_ones by lia.
  rewrite !Z.land_lor_distr_l.
  rewrite (Z.land_ones (Z.shiftl status 16)), (Z.land_ones e) by lia.
  rewrite Z.shiftl_mul_pow2 by lia.
  rewrite (Z.mod_small (status * 2 ^ 16)) by lia.
  rewrite (Z.mod_small e) by lia.
  reflexivity.
Qed.

(** C3.  When the IST runs and finds ERROR or DEVICE_FAILURE in the
    status register, it reads the ERR register, records the error word
    0x80000000 | (status << 16) | ERR (which is not 0), reads no data
    and leaves the bounce buffer alone, clears the active disk and wakes
    the caller: the log gains the two register reads and the wakeup,
    nothing else.  And the read call fails: every call of [hdd_read]
    that has a request during whose sleep this run of the IST happens
    (after any number of requests that succeeded, and of interrupts the
    ISR turned down) returns EIO as soon as the IST has woken it, with
    [*nbyte] counting the sectors of the requests before. *)
Theorem hdc_ist_error_completion {K : kernel_abi} (P : platform)
    (d : ata_disk) (m : machine) :
  active_disk (ctl m) = Some d ->
  let base := base_port (channel_at (ctl m) (channel d)) in
  let status :=
    to_u8 (bus_in8 P (trace m) (base + ATA_REG_COMMAND_STATUS)) in
  let tr1 := EvRead8 (base + ATA_REG_COMMAND_STATUS) status :: trace m in
  let e := to_u8 (bus_in8 P tr1 (base + ATA_REG_ERR)) in
  Z.land status ATA_STATUS_FLAG_ERROR <> 0 \/
  Z.land status ATA_STATUS_FLAG_DEVICE_FAILURE <> 0 ->
  exists m',
    hdc_ist P m = Some (tt, m') /\
    trace m' = EvWakeup :: EvRead8 (base + ATA_REG_ERR) e :: tr1 /\
    to_u32 (irp_error (the_irp (ctl m')))
    = Z.lor (Z.lor 0x80000000 (Z.shiftl status 16)) e /\
    irp_error (the_irp (ctl m')) <> 0 /\
    buffer (ctl m') = buffer (ctl m) /\
    active_disk (ctl m') = None /\
    (forall dev buf nbyte blkno m0 n' blk' m1,
        0 <= nbyte < 2 ^ 32 ->
        fails_bounds_check dev blkno nbyte = false ->
        kmem_map P buf nbyte <> None ->
        disk_of dev = d ->
        loop_reaches P d (nbyte / 512) (resolved_blkno dev blkno) m0
          n' blk' m1 ->
        0 < n' ->
        ist_runs_in P d
          (irq_budget P
             (trace (asleep d (Z.min n' BUFFER_LENGTH_IN_SECTORS) blk' m1)))
          (asleep d (Z.min n' BUFFER_LENGTH_IN_SECTORS) blk' m1) m ->
        exists r,
          hdd_read P dev buf nbyte blkno m0
          = Some (r, {| trace := EvSchedUnlock :: trace m'; ctl := ctl m' |}) /\
          r_ret r = EIO /\
          r_nbyte r = 512 * (nbyte / 512 - n')).
Proof.
  intros Hd base status tr1 e Hflag.
  assert (Hst : c_true (Z.land status
                          (Z.lor ATA_STATUS_FLAG_ERROR
                                 ATA_STATUS_FLAG_DEVICE_FAILURE)) = true).
  { apply c_true_iff. rewrite land_lor_zero. tauto. }
  pose proof (hdc_ist_error P d m Hd Hst) as Hist. cbn zeta in Hist.
  fold base in Hist. fold status in Hist. fold tr1 in Hist. fold e in Hist.
  eexists. split; [exact Hist |].
  cbn [trace ctl with_irp with_active_disk the_irp with_error irp_error
       buffer active_disk].
  split; [reflexivity |].
  split; [apply error_word_u32; apply to_u8_range |].
  split; [apply error_word_nonzero |].
  split; [reflexivity |]. split; [reflexivity |].
  intros dev buf nbyte blkno m0 n' blk' m1 Hnb Hpass Hmap Hdev Hgo Hpos Hruns.
  pose proof (hdd_rw_by_ist P d _ blk' m1 m _ Hruns Hist) as Hrw.
  cbn [trace ctl with_irp the_irp with_error irp_error] in Hrw.
  subst d.
  destruct (hdd_read_fails P dev buf nbyte blkno m0 n' blk' m1 _ _
              Hnb Hpass Hmap Hgo Hpos Hrw (error_word_nonzero _ _))
    as (r & E & Hret & Hnbyte).
  exists r. split; [exact E |]. split; [exact Hret | exact Hnbyte].
Qed.

(** Scenario S5: on a device whose status is 0x41 the IST, run for the
    request of a read of block 7, records the error word 0x80410041,
    and the read returns EIO with [*nbyte] = 0. *)
Lemma hdc_ist_error_completion_witness :
  exists mi r mf,
    hdc_ist (steady_device 0x41 0x41)
      (after_isr (steady_device 0x41 0x41) (plain_disk 1000)
         (asleep (plain_disk 1000) 1 7 boot))
    = Some (tt, mi) /\
    to_u32 (irp_error (the_irp (ctl mi))) = 0x80410041 /\
    hdd_read (steady_device 0x41 0x41)
      (ATA_DEVICE_WHOLEDISK (plain_disk 1000)) 0 512 7 boot
    = Some (r, mf) /\
    r_ret r = EIO /\ r_nbyte r = 0.
Proof.
  destruct (hdc_ist_error_completion (steady_device 0x41 0x41)
              (plain_disk 1000)
              (after_isr (steady_device 0x41 0x41) (plain_disk 1000)
                 (asleep (plain_disk 1000) 1 7 boot))
              eq_refl ltac:(left; vm_compute; discriminate))
    as (mi & E & _ & Hword & _ & _ & _ & Hread).
  destruct (Hread (ATA_DEVICE_WHOLEDISK (plain_disk 1000)) 0 512 7 boot
              1 7 boot ltac:(lia) eq_refl ltac:(discriminate) eq_refl
              (reaches_here (steady_device 0x41 0x41) (plain_disk 1000)
                 1 7 boot)
              ltac:(lia)
              (ist_at_once (steady_device 0x41 0x41) (plain_disk 1000) 0
                 (asleep (plain_disk 1000) 1 7 boot) eq_refl))
    as (r & Er & Hret & Hnbyte).
  exists mi, r. eexists.
  split; [exact E |].
  split; [rewrite Hword; vm_compute; reflexivity |].
  split; [exact Er |]. split; [exact Hret | exact Hnbyte].
Defined.

(** The whole chain on that device: the one request of the read fails
    and the call returns EIO with nothing transferred. *)
Lemma hdd_read_device_error :
  exists m',
    hdd_read (steady_device 0x41 0x41)
      (ATA_DEVICE_WHOLEDISK (plain_disk 1000)) 0 512 7 boot
    = Some ({| r_ret := EIO; r_nbyte := 0; r_data := [] |}, m') /\
    to_u32 (irp_error (the_irp (ctl m'))) = 0x80410041 /\
    filter is_data_read (trace m') = [].
Proof.
  eexists. split; [vm_compute; reflexivity |].
  split; vm_compute; reflexivity.
Qed.

(** ** Reading numbers out of a sector *)

Lemma skipn_cons_nth (l : list Z) (off : nat) :
  (off < length l)%nat -> skipn off l = nth off l 0 :: skipn (S off) l.
Proof.
  revert off. induction l as [|x l IH]; intros off H.
  - cbn in H. lia.
  - destruct off as [|off].
    + reflexivity.
    + cbn [skipn nth]. apply IH. cbn in H. lia.
Qed.

Lemma load_u16_le (l : list Z) (off : nat) :
  (off + 2 <= length l)%nat -> load_u16 l off = le16_at l off.
Proof.
  intros H. unfold load_u16, memcpy_bytes, le16_at.
  rewrite (skipn_cons_nth l off), (skipn_cons_nth l (S off)) by lia.
  cbn [firstn le_value].
  replace (off + 1)%nat with (S off) by lia. lia.
Qed.

Lemma load_u32_le (l : list Z) (off : nat) :
  (off + 4 <= length l)%nat -> load_u32 l off = le32_at l off.
Proof.
  intros H. unfold load_u32, memcpy_bytes, le32_at.
  rewrite (skipn_cons_nth l off), (skipn_cons_nth l (S off)),
    (skipn_cons_nth l (S (S off))), (skipn_cons_nth l (S (S (S off))))
    by lia.
  cbn [firstn le_value].
  replace (off + 1)%nat with (S off) by lia.
  replace (off + 2)%nat with (S (S off)) by lia.
  replace (off + 3)%nat with (S (S (S off))) by lia.
  lia.
Qed.

Lemma le_value_app4 (a b c e : Z) (rest : list Z) :
  le_value (a :: b :: c :: e :: rest)
  = le_value [a; b; c; e] + 2 ^ 32 * le_value rest.
Proof. cbn [le_value]. lia. Qed.

Lemma load_u64_le (l : list Z) (off : nat) :
  (off + 8 <= length l)%nat -> load_u64 l off = le64_at l off.
Proof.
  intros H. unfold le64_at.
  rewrite <- !load_u32_le by lia.
  unfold load_u64, load_u32, memcpy_bytes.
  rewrite (skipn_cons_nth l off), (skipn_cons_nth l (S off)),
    (skipn_cons_nth l (S (S off))), (skipn_cons_nth l (S (S (S off))))
    by lia.
  replace (off + 4)%nat with (S (S (S (S off)))) by lia.
  cbn [firstn]. rewrite le_value_app4. reflexivity.
Qed.

(** ** C7: the number of sectors of a disk *)

Lemma bind_Some {A B : Type} (x : M A) (f : A -> M B) (m : machine)
    (b : B) (m' : machine) :
  bind x f m = Some (b, m') ->
  exists a m1, x m = Some (a, m1) /\ f a m1 = Some (b, m').
Proof.
  unfold bind. destruct (x m) as [[a m1] |]; intros H.
  - exists a, m1. split; [reflexivity | exact H].
  - discriminate H.
Qed.

Lemma ata_pio_read_length {K : kernel_abi} (P : platform)
    (channelnum count : Z) (m : machine) (data : list Z) (m' : machine) :
  ata_pio_read P channelnum count m = Some (data, m') ->
  length data = (4 * Z.to_nat (count / 4))%nat.
Proof.
  unfold ata_pio_read. destruct (Z.land count 3 =? 0); [| discriminate].
  unfold bind, get_ctl. intros H.
  destruct (pio_words_spec P (Z.to_nat (count / 4))
              (base_port (channel_at (ctl m) channelnum) + ATA_REG_DATA) m)
    as (data0 & evs & E & Hlen & _).
  rewrite E in H. injection H as <- _. exact Hlen.
Qed.

(** What [setup_disk] makes of the identification space of a disk it
    admits. *)
Lemma setup_disk_admits {K : kernel_abi} (P : platform)
    (disknum : Z) (m : machine) (d : ata_disk)
    (parts : list ata_partition) (m' : machine) :
  setup_disk P disknum m = Some (Some (d, parts), m') ->
  let ids := identification_space d in
  length ids = 512%nat /\
  addressable_sector_count d
  = if le32_at ids 120 =? 0x0fffffff then le64_at ids 200
    else le32_at ids 120.
Proof.
  unfold setup_disk. intros H.
  repeat (apply bind_Some in H; destruct H as (? & ? & _ & H)).
  destruct (_ =? 0); [discriminate H |].
  apply bind_Some in H. destruct H as (? & ? & _ & H).
  apply bind_Some in H. destruct H as (alt & ? & _ & H).
  destruct (c_true (Z.land alt _)); [discriminate H |].
  apply bind_Some in H. destruct H as (ids & m2 & Hids & H).
  apply ata_pio_read_length in Hids.
  change (4 * Z.to_nat (512 / 4))%nat with 512%nat in Hids.
  destruct (negb (c_true (Z.land (nth 99 ids 0) 2))); [discriminate H |].
  destruct (negb (c_true (Z.land (nth 99 ids 0) 1))); [discriminate H |].
  apply bind_Some in H. destruct H as (parts0 & m3 & _ & H).
  unfold ret in H. injection H as <- _ _.
  cbn [identification_space addressable_sector_count].
  rewrite load_u32_le, load_u64_le by lia.
  split; [exact Hids | reflexivity].
Qed.

(** *** Probing always returns *)

Lemma total_ret {A : Type} (a : A) : total (ret a).
Proof. intros m. exists a, m. reflexivity. Qed.

Lemma total_bind {A B : Type} (x : M A) (f : A -> M B) :
  total x -> (forall a, total (f a)) -> total (bind x f).
Proof.
  intros Hx Hf m. destruct (Hx m) as (a & m1 & E).
  destruct (Hf a m1) as (b & m2 & E2).
  exists b, m2. unfold bind. rewrite E. exact E2.
Qed.

Lemma total_if {A : Type} (c : bool) (x y : M A) :
  total x -> total y -> total (if c then x else y).
Proof. destruct c; auto. Qed.

Lemma total_get_ctl : total get_ctl.
Proof. intros m. exists (ctl m), m. reflexivity. Qed.

Lemma total_ata_write (channelnum reg val : Z) :
  total (ata_write channelnum reg val).
Proof.
  apply total_bind; [apply total_get_ctl |].
  intros c m. eexists _, _. reflexivity.
Qed.

Section Probing.

Context {K : kernel_abi}.
Variable P : platform.

Lemma total_bus_read_8 (port : Z) : total (bus_read_8 P port).
Proof. intros m. eexists _, _. reflexivity. Qed.

Lemma total_ata_read (channelnum reg : Z) :
  total (ata_read P channelnum reg).
Proof.
  apply total_bind; [apply total_get_ctl | intros c; apply total_bus_read_8].
Qed.

Lemma total_read_altstatus (channelnum : Z) :
  total (read_altstatus P channelnum).
Proof.
  apply total_bind; [apply total_get_ctl | intros c; apply total_bus_read_8].
Qed.

Lemma total_ata_delay400 (channelnum : Z) :
  total (ata_delay400 P channelnum).
Proof.
  unfold ata_delay400.
  repeat (apply total_bind; [apply total_read_altstatus | intros _]).
  apply total_ret.
Qed.

Lemma total_repeat_until (n : positive) (body : M bool) :
  total body -> total (repeat_until n body).
Proof.
  intros Hb. induction n as [n IH | n IH |]; cbn [repeat_until].
  - apply total_bind; [exact Hb | intros done].
    apply total_if; [apply total_ret |].
    apply total_bind; [exact IH | intros done'].
    apply total_if; [apply total_ret | exact IH].
  - apply total_bind; [exact IH | intros done].
    apply total_if; [apply total_ret | exact IH].
  - exact Hb.
Qed.

Lemma total_ata_wait (channelnum : Z) : total (ata_wait P channelnum).
Proof.
  unfold ata_wait.
  apply total_bind; [apply total_ata_delay400 | intros _].
  apply total_bind; [| intros _; apply total_ret].
  apply total_repeat_until.
  apply total_bind; [apply total_read_altstatus | intros st].
  apply total_ret.
Qed.

Lemma total_ata_pio_read (channelnum count : Z) :
  Z.land count 3 = 0 -> total (ata_pio_read P channelnum count).
Proof.
  intros Hal. unfold ata_pio_read. rewrite Hal. cbn [Z.eqb].
  apply total_bind; [apply total_get_ctl | intros c m].
  destruct (pio_words_spec P (Z.to_nat (count / 4))
              (base_port (channel_at c channelnum) + ATA_REG_DATA) m)
    as (data & evs & E & _).
  eexists _, _. exact E.
Qed.

Lemma total_hdd_setup_io_read (d : ata_disk) (lba count : Z) :
  total (hdd_setup_io d IO_READ lba count).
Proof. intros m. eexists _, _. apply hdd_setup_io_read. Qed.

Lemma total_read_during_setup (d : ata_disk) (lba count : Z) :
  total (read_during_setup P d lba count).
Proof.
  unfold read_during_setup.
  apply total_bind; [apply total_hdd_setup_io_read | intros _].
  apply total_bind; [apply total_ata_wait | intros _].
  apply total_bind; [apply total_ata_read | intros status].
  apply total_if.
  - apply total_bind; [apply total_ata_read | intros _; apply total_ret].
  - apply total_bind; [| intros data; apply total_ret].
    apply total_ata_pio_read. apply sector_bytes_aligned.
Qed.

Lemma total_setup_partitions (d : ata_disk) :
  total (setup_partitions P d).
Proof.
  unfold setup_partitions.
  apply total_bind; [apply total_read_during_setup | intros r].
  apply total_if; apply total_ret.
Qed.

Lemma total_setup_disk (disknum : Z) : total (setup_disk P disknum).
Proof.
  unfold setup_disk.
  apply total_bind; [apply total_get_ctl | intros c].
  apply total_bind; [apply total_ata_write | intros _].
  apply total_bind; [apply total_ata_delay400 | intros _].
  do 5 (apply total_bind; [apply total_ata_write | intros _]).
  apply total_bind; [apply total_ata_delay400 | intros _].
  apply total_bind; [apply total_ata_read | intros st].
  apply total_if; [apply total_ret |].
  apply total_bind; [apply total_ata_wait | intros _].
  apply total_bind; [apply total_read_altstatus | intros alt].
  apply total_if; [apply total_ret |].
  apply total_bind; [apply total_ata_pio_read; reflexivity | intros ids].
  apply total_if; [apply total_ret |].
  apply total_if; [apply total_ret |].
  apply total_bind; [apply total_setup_partitions | intros parts].
  apply total_ret.
Qed.

End Probing.

(** C7.  [setup_disk] always returns, and for every disk it admits: the
    identification space has 512 bytes; if the little-endian 32-bit
    number in bytes 120..123 of it (the lba28 count) is 0x0FFFFFFF, the
    disk's [addressable_sector_count] is the little-endian 64-bit number
    in bytes 200..207; otherwise it is the lba28 count. *)
Theorem setup_disk_sector_count {K : kernel_abi} (P : platform)
    (disknum : Z) (m : machine) :
  exists r m',
    setup_disk P disknum m = Some (r, m') /\
    forall d parts,
      r = Some (d, parts) ->
      let ids := identification_space d in
      length ids = 512%nat /\
      (le32_at ids 120 = 0x0FFFFFFF ->
       addressable_sector_count d = le64_at ids 200) /\
      (le32_at ids 120 <> 0x0FFFFFFF ->
       addressable_sector_count d = le32_at ids 120).
Proof.
  destruct (total_setup_disk P disknum m) as (r & m' & E).
  exists r, m'. split; [exact E |].
  intros d parts ->.
  destruct (setup_disk_admits P disknum m d parts m' E) as (Hlen & Hcount).
  cbn zeta. split; [exact Hlen |]. rewrite Hcount.
  destruct (Z.eqb_spec (le32_at (identification_space d) 120) 0x0fffffff)
    as [Heq | Hne].
  - split; [reflexivity | intros Hn; contradiction].
  - split; [intros He; contradiction | reflexivity].
Qed.

(** Scenario S1: an lba28 count of 0x0FFFFFFF and an lba48 count of
    2^32 give a disk of 2^32 sectors. *)
Lemma setup_disk_sector_count_witness :
  exists d parts m',
    setup_disk (scripted_disk id_words_lba48) 0 boot
    = Some (Some (d, parts), m') /\
    addressable_sector_count d = 2 ^ 32.
Proof.
  destruct (setup_disk_sector_count (scripted_disk id_words_lba48) 0 boot)
    as (r & m' & E & Hr).
  destruct r as [[d parts] |]; [| vm_compute in E; discriminate E].
  exists d, parts, m'. split; [exact E |].
  destruct (Hr d parts eq_refl) as (_ & H48 & _).
  rewrite H48.
  - vm_compute in E. injection E as <- _ _. reflexivity.
  - vm_compute in E. injection E as <- _ _. reflexivity.
Defined.

(** A disk that reports an lba28 count of 1000000 has 1000000 sectors,
    whatever its lba48 area says. *)
Lemma setup_disk_lba28 :
  exists d parts m',
    setup_disk (scripted_disk id_words_lba28) 3 boot
    = Some (Some (d, parts), m') /\
    addressable_sector_count d = 1000000 /\
    le64_at (identification_space d) 200 = 2 ^ 32 /\
    disk_devname d = "hd0d3"%string.
Proof.
  eexists _, _, _. split; [vm_compute; reflexivity |].
  repeat split; vm_compute; reflexivity.
Qed.

(** ** C8: the partition scanner *)

Lemma substring_whole (s : string) (n : nat) :
  (String.length s <= n)%nat -> String.substring 0 n s = s.
Proof.
  revert n. induction s as [|c s IH]; intros n H.
  - destruct n; reflexivity.
  - destruct n as [|n]; cbn in H; [lia |].
    cbn [String.substring]. f_equal. apply IH. lia.
Qed.

Lemma partition_devname_digits {K : kernel_abi} (devname : string)
    (k : nat) :
  (String.length devname + 4 <= MAXDEVNAME)%nat ->
  (k < 4)%nat ->
  partition_devname devname (Z.of_nat k)
  = String.append devname (String.append "p" (two_digits k)).
Proof.
  intros Hfit Hk. unfold partition_devname, strlcpy.
  assert (Hwhole : (String.length devname <= MAXDEVNAME - 1)%nat) by lia.
  rewrite (substring_whole devname _ Hwhole).
  destruct k as [|[|[|[|k]]]]; [reflexivity .. | exfalso; lia].
Qed.

Lemma scan_slot_entry {K : kernel_abi} (d : ata_disk) (sector0 : list Z)
    (k : nat) :
  length sector0 = 512%nat ->
  (String.length (disk_devname d) + 4 <= MAXDEVNAME)%nat ->
  (k < 4)%nat ->
  match scan_slot d sector0 (Z.of_nat k) with
  | Some part => [part]
  | None => []
  end = mbr_entry d sector0 k.
Proof.
  intros Hlen Hfit Hk. unfold scan_slot, mbr_entry.
  replace (Z.to_nat (0x1be + Z.of_nat k * 16)) with (0x1BE + 16 * k)%nat
    by lia.
  rewrite !load_u32_le by lia.
  rewrite (partition_devname_digits (disk_devname d) k Hfit Hk).
  destruct (_ || _); reflexivity.
Qed.

(** What [setup_partitions] adds to the scanner is the read of sector
    0: it returns, and its result is the scanner's on the sector read,
    or no partition at all if the read fails. *)
Lemma setup_partitions_scans {K : kernel_abi} (P : platform)
    (d : ata_disk) (m : machine) (parts : list ata_partition)
    (m' : machine) :
  setup_partitions P d m = Some (parts, m') ->
  parts = [] \/
  exists sector0,
    length sector0 = 512%nat /\ parts = scan_partition_table d sector0.
Proof.
  unfold setup_partitions, read_during_setup. intros H.
  apply bind_Some in H. destruct H as (r & m1 & Hread & H).
  do 3 (apply bind_Some in Hread; destruct Hread as (? & ? & _ & Hread)).
  destruct (c_true (fst r)) eqn:Herr.
  - left. injection H as <- _. reflexivity.
  - right. injection H as <- _.
    destruct (c_true (Z.land _ _)).
    + apply bind_Some in Hread. destruct Hread as (? & ? & _ & Hread).
      injection Hread as <- _. cbn [fst] in Herr.
      apply c_true_false_iff in Herr. exfalso. apply EIO_nonzero. exact Herr.
    + apply bind_Some in Hread. destruct Hread as (data & ? & Hdata & Hread).
      injection Hread as <- _. exists data. split; [| reflexivity].
      apply ata_pio_read_length in Hdata. rewrite Hdata.
      vm_compute. reflexivity.
Qed.

(** C8.  On every sector 0 (of 512 bytes, of a disk whose name leaves
    room for the suffix), the partitions the scanner makes are those of
    the specification: none unless the little-endian 16-bit number at
    offset 510 is 0xAA55; otherwise, in the order of the four entries at
    0x1BE, 0x1CE, 0x1DE and 0x1EE, one partition for every entry in which
    none of start_lba, sector_count and system_id is zero, carrying
    these three values and the name of the disk followed by "p" and the
    two decimal digits of the entry's index.  And [setup_partitions]
    always returns, with the partitions of the sector it has read, or
    with none if the read fails. *)
Theorem scan_partition_table_mbr {K : kernel_abi} (d : ata_disk) :
  (String.length (disk_devname d) + 4 <= MAXDEVNAME)%nat ->
  (forall sector0,
      length sector0 = 512%nat ->
      scan_partition_table d sector0 = mbr_partitions d sector0) /\
  (forall P m,
      exists parts m',
        setup_partitions P d m = Some (parts, m') /\
        (parts = [] \/
         exists sector0,
           length sector0 = 512%nat /\ parts = mbr_partitions d sector0)).
Proof.
  intros Hfit.
  assert (Hscan : forall sector0,
             length sector0 = 512%nat ->
             scan_partition_table d sector0 = mbr_partitions d sector0).
  { intros sector0 Hlen. unfold scan_partition_table, mbr_partitions.
    change (Z.to_nat (SECTOR_SIZE - 2)) with 510%nat.
    rewrite load_u16_le by lia.
    rewrite (Z.eqb_sym 0xaa55).
    destruct (le16_at sector0 510 =? 0xAA55); [| reflexivity].
    cbn [flat_map]. rewrite app_nil_r.
    rewrite <- (scan_slot_entry d sector0 0), <- (scan_slot_entry d sector0 1),
      <- (scan_slot_entry d sector0 2), <- (scan_slot_entry d sector0 3)
      by (assumption || lia).
    cbn [scan_slots]. change (0 + 1) with 1. change (1 + 1) with 2.
    change (2 + 1) with 3.
    change (Z.of_nat 0) with 0. change (Z.of_nat 1) with 1.
    change (Z.of_nat 2) with 2. change (Z.of_nat 3) with 3.
    destruct (scan_slot d sector0 0); destruct (scan_slot d sector0 1);
      destruct (scan_slot d sector0 2); destruct (scan_slot d sector0 3);
      reflexivity. }
  split; [exact Hscan |].
  intros P m.
  destruct (total_setup_partitions P d m) as (parts & m' & E).
  exists parts, m'. split; [exact E |].
  destruct (setup_partitions_scans P d m parts m' E)
    as [Hnil | (sector0 & Hlen & Hparts)].
  - left. exact Hnil.
  - right. exists sector0. split; [exact Hlen |].
    rewrite Hparts. apply Hscan. exact Hlen.
Qed.

(** Scenario S2: one Linux partition in slot 0 gives "hd0d0p00". *)
Lemma scan_partition_table_mbr_witness :
  scan_partition_table (plain_disk 5000000) sector0_one_partition
  = [ {| part_disk := plain_disk 5000000; system_id := 0x83;
         start_lba := 2048; part_sector_count := 1000000;
         part_devname := "hd0d0p00" |} ].
Proof.
  assert (Hfit : (String.length (disk_devname (plain_disk 5000000)) + 4
                  <= MAXDEVNAME)%nat) by (cbv; lia).
  destruct (scan_partition_table_mbr (plain_disk 5000000) Hfit)
    as [Hscan _].
  rewrite (Hscan sector0_one_partition eq_refl).
  reflexivity.
Defined.

(** * Further properties of the driver *)

(** ** Byte order *)

Lemma fixup_string_endianness_pairs (k : nat) :
  forall p : list Z,
    length p = (2 * k)%nat ->
    fixup_string_endianness (fixup_string_endianness p) = p /\
    length (fixup_string_endianness p) = length p /\
    forall i : nat,
      (i < length p)%nat ->
      nth i (fixup_string_endianness p) 0
      = nth (if Nat.even i then i + 1 else i - 1)%nat p 0.
Proof.
  induction k as [|k IH]; intros p Hlen.
  - destruct p; [| discriminate Hlen].
    repeat split. intros i Hi. cbn in Hi. lia.
  - destruct p as [|a [|b p]]; try (cbn in Hlen; lia).
    cbn [length] in Hlen.
    destruct (IH p ltac:(lia)) as (Hinv & Hl & Hnth).
    cbn [fixup_string_endianness]. rewrite Hinv.
    split; [reflexivity |]. split; [cbn [length]; rewrite Hl; reflexivity |].
    intros i Hi. destruct i as [|[|i]].
    + reflexivity.
    + reflexivity.
    + cbn [length] in Hi. cbn [nth].
      rewrite (Hnth i ltac:(lia)).
      change (Nat.even (S (S i))) with (Nat.even i).
      destruct (Nat.even i) eqn:He.
      * replace (S (S i) + 1)%nat with (S (S (i + 1))) by lia. reflexivity.
      * destruct i as [|i]; [discriminate He |].
        replace (S (S (S i)) - 1)%nat with (S (S (S i - 1))) by lia.
        reflexivity.
Qed.

(** X1.  On a buffer of even size (the three the driver swaps have 10,
    8 and 40 bytes), the byteswap of 16-bit words is its own inverse,
    keeps the size, and puts at every even position the byte that
    followed and at every odd position the byte that preceded. *)
Theorem fixup_string_endianness_involutive (p : list Z) :
  Nat.even (length p) = true ->
  fixup_string_endianness (fixup_string_endianness p) = p /\
  length (fixup_string_endianness p) = length p /\
  forall i : nat,
    (i < length p)%nat ->
    nth i (fixup_string_endianness p) 0
    = nth (if Nat.even i then i + 1 else i - 1)%nat p 0.
Proof.
  intros He. apply Nat.even_spec in He. destruct He as [k Hk].
  apply (fixup_string_endianness_pairs k). exact Hk.
Qed.

(** The serial number "QM00001 " as the disk sends it. *)
Lemma fixup_string_endianness_involutive_witness :
  fixup_string_endianness
    (fixup_string_endianness [77; 81; 48; 48; 48; 48; 32; 49])
  = [77; 81; 48; 48; 48; 48; 32; 49].
Proof.
  apply (fixup_string_endianness_involutive
           [77; 81; 48; 48; 48; 48; 32; 49] eq_refl).
Defined.

(** ** Programmed I/O *)

Lemma word_bytes_le (v : Z) :
  0 <= v < 2 ^ 32 -> le_value (word_bytes v) = v.
Proof.
  intros Hv. unfold word_bytes. rewrite !land_ff_mod.
  rewrite !Z.shiftr_div_pow2 by lia. cbn [le_value].
  change (2 ^ 16) with (2 ^ 8 * 2 ^ 8).
  change (2 ^ 24) with (2 ^ 8 * 2 ^ 8 * 2 ^ 8).
  rewrite <- !Z.div_div by lia.
  change (2 ^ 8) with 256.
  pose proof (Z.div_mod v 256 ltac:(lia)) as H0.
  pose proof (Z.mod_pos_bound v 256 ltac:(lia)) as B0.
  set (v1 := v / 256) in *.
  pose proof (Z.div_mod v1 256 ltac:(lia)) as H1.
  pose proof (Z.mod_pos_bound v1 256 ltac:(lia)) as B1.
  set (v2 := v1 / 256) in *.
  pose proof (Z.div_mod v2 256 ltac:(lia)) as H2.
  pose proof (Z.mod_pos_bound v2 256 ltac:(lia)) as B2.
  set (v3 := v2 / 256) in *.
  assert (H3 : v3 mod 256 = v3) by (apply Z.mod_small; lia).
  lia.
Qed.

Lemma word_bytes_range (v : Z) :
  Forall (fun b => 0 <= b < 256) (word_bytes v).
Proof.
  unfold word_bytes. rewrite !land_ff_mod. change (2 ^ 8) with 256.
  repeat constructor; apply Z.mod_pos_bound; lia.
Qed.

Section Transfers.

Context {K : kernel_abi}.
Variable P : platform.

Lemma pio_words_words (n : nat) (port : Z) (m : machine) :
  exists words,
    pio_words P n port m
    = Some (flat_map word_bytes words,
            {| trace := rev (map (EvRead32 port) words) ++ trace m;
               ctl := ctl m |}) /\
    length words = n /\
    Forall (fun w => 0 <= w < 2 ^ 32) words.
Proof.
  revert m. induction n as [|n IH]; intros m.
  - exists []. destruct m. repeat split. constructor.
  - cbn [pio_words]. unfold bind at 1. unfold bus_read_32.
    set (v := to_u32 (bus_in32 P (trace m) port)).
    set (m1 := {| trace := EvRead32 port v :: trace m; ctl := ctl m |}).
    destruct (IH m1) as (words & E & Hlen & Hr).
    unfold bind. rewrite E. unfold ret.
    exists (v :: words). split; [| split].
    + cbn [trace ctl m1 map rev flat_map word_bytes app].
      rewrite <- app_assoc. reflexivity.
    + cbn [length]. lia.
    + constructor; [apply to_u32_range | exact Hr].
Qed.

(** X2.  A PIO read of [count] bytes, [count] a multiple of 4, makes
    exactly [count / 4] reads of the 32-bit data port of the channel
    and nothing else; the [count] bytes it stores are the words read,
    in order, each split low byte first, so that the little-endian
    value of every group of four bytes is the word the port gave. *)
Theorem ata_pio_read_words (channelnum count : Z) (m : machine) :
  Z.land count 3 = 0 ->
  0 <= count ->
  let port := base_port (channel_at (ctl m) channelnum) + ATA_REG_DATA in
  exists words,
    ata_pio_read P channelnum count m
    = Some (flat_map word_bytes words,
            {| trace := rev (map (EvRead32 port) words) ++ trace m;
               ctl := ctl m |}) /\
    Z.of_nat (length words) = count / 4 /\
    Z.of_nat (length (flat_map word_bytes words)) = count /\
    Forall (fun w => le_value (word_bytes w) = w) words /\
    Forall (fun b => 0 <= b < 256) (flat_map word_bytes words).
Proof.
  intros Hal Hpos port.
  unfold ata_pio_read. rewrite Hal. cbn [Z.eqb].
  unfold bind, get_ctl. fold port.
  destruct (pio_words_words (Z.to_nat (count / 4)) port m)
    as (words & E & Hlen & Hr).
  exists words. split; [exact E |].
  assert (Hq : 0 <= count / 4) by (apply Z.div_pos; lia).
  assert (Hc : count = 4 * (count / 4)).
  { change 3 with (Z.ones 2) in Hal. rewrite Z.land_ones in Hal by lia.
    change (2 ^ 2) with 4 in Hal.
    pose proof (Z.div_mod count 4 ltac:(lia)). lia. }
  split; [lia |]. split; [| split].
  - assert (Hfl : forall ws : list Z,
               length (flat_map word_bytes ws) = (4 * length ws)%nat).
    { induction ws as [|w ws IHw]; [reflexivity |].
      cbn [flat_map]. rewrite length_app, IHw. cbn [word_bytes length]. lia. }
    rewrite Hfl. lia.
  - apply Forall_forall. intros w Hw. apply word_bytes_le.
    rewrite Forall_forall in Hr. apply Hr. exact Hw.
  - clear. induction words as [|w ws IHw]; [constructor |].
    cbn [flat_map]. apply Forall_app. split; [apply word_bytes_range | exact IHw].
Qed.

End Transfers.

(** Eight bytes are two words. *)
Lemma ata_pio_read_words_witness :
  exists words m',
    ata_pio_read (steady_device 0x58 0x04030201) 0 8 boot
    = Some (flat_map word_bytes words, m') /\
    Z.of_nat (length words) = 2.
Proof.
  destruct (ata_pio_read_words (steady_device 0x58 0x04030201) 0 8 boot
              eq_refl ltac:(lia))
    as (words & E & Hlen & _).
  exists words. eexists. split; [exact E | exact Hlen].
Defined.

(** ** Waiting for the device *)

Section Polling.

Context {K : kernel_abi}.
Variable P : platform.

(** The polls of [ata_wait]: reads of the alternate status register
    until one shows BUSY clear, [n] at most. *)
Lemma repeat_until_poll (channelnum : Z) (n : positive) :
  forall m : machine,
    let port := control_port (channel_at (ctl m) channelnum) in
    exists evs done,
      repeat_until n
        (st <- read_altstatus P channelnum ;;
         ret (negb (c_true (Z.land st ATA_STATUS_FLAG_BUSY)))) m
      = Some (done, {| trace := evs ++ trace m; ctl := ctl m |}) /\
      Forall (reads_port port) evs /\
      1 <= Z.of_nat (length evs) <= Z.pos n /\
      (done = true ->
       exists v rest,
         evs = EvRead8 port v :: rest /\ Z.land v ATA_STATUS_FLAG_BUSY = 0) /\
      (done = false -> Z.of_nat (length evs) = Z.pos n).
Proof.
  set (body := st <- read_altstatus P channelnum ;;
               ret (negb (c_true (Z.land st ATA_STATUS_FLAG_BUSY)))).
  assert (Hbody : forall m : machine,
             let port := control_port (channel_at (ctl m) channelnum) in
             exists v,
               body m = Some (negb (c_true (Z.land v ATA_STATUS_FLAG_BUSY)),
                              {| trace := EvRead8 port v :: trace m;
                                 ctl := ctl m |})).
  { intros m port. eexists. reflexivity. }
  assert (Hdone : forall v,
             negb (c_true (Z.land v ATA_STATUS_FLAG_BUSY)) = true ->
             Z.land v ATA_STATUS_FLAG_BUSY = 0).
  { intros v H. apply negb_true_iff in H. apply c_true_false_iff. exact H. }
  induction n as [n IH | n IH |]; intros m port; cbn [repeat_until].
  - (* 2n + 1 polls at most *)
    destruct (Hbody m) as (v & Ev). fold port in Ev.
    unfold bind at 1. rewrite Ev.
    destruct (negb (c_true (Z.land v ATA_STATUS_FLAG_BUSY))) eqn:Hv.
    + exists [EvRead8 port v], true. split; [reflexivity |].
      split; [repeat constructor; exists v; reflexivity |].
      split; [cbn [length]; lia |].
      split; [| discriminate].
      intros _. exists v, []. split; [reflexivity | apply Hdone; exact Hv].
    + set (m1 := {| trace := EvRead8 port v :: trace m; ctl := ctl m |}).
      destruct (IH m1) as (evs1 & done1 & E1 & Hr1 & Hl1 & Ht1 & Hf1).
      unfold bind at 1. rewrite E1.
      destruct done1.
      * exists (evs1 ++ [EvRead8 port v]), true.
        split; [cbn [ret trace ctl m1]; rewrite <- app_assoc; reflexivity |].
        split; [apply Forall_app; split;
                [exact Hr1 | repeat constructor; exists v; reflexivity] |].
        split; [rewrite length_app; cbn [length]; lia |].
        split; [| discriminate].
        intros _. destruct (Ht1 eq_refl) as (v1 & rest & -> & Hb).
        exists v1, (rest ++ [EvRead8 port v]). split; [reflexivity | exact Hb].
      * set (m2 := {| trace := evs1 ++ trace m1; ctl := ctl m1 |}).
        destruct (IH m2) as (evs2 & done2 & E2 & Hr2 & Hl2 & Ht2 & Hf2).
        rewrite E2.
        exists (evs2 ++ evs1 ++ [EvRead8 port v]), done2.
        split; [cbn [trace ctl m1 m2]; rewrite <- !app_assoc; reflexivity |].
        split; [repeat (apply Forall_app; split); try assumption;
                repeat constructor; exists v; reflexivity |].
        specialize (Hf1 eq_refl).
        split; [rewrite !length_app; cbn [length]; lia |].
        split.
        -- intros Hd. destruct (Ht2 Hd) as (v2 & rest & -> & Hb).
           exists v2, (rest ++ evs1 ++ [EvRead8 port v]).
           split; [reflexivity | exact Hb].
        -- intros Hd. specialize (Hf2 Hd).
           rewrite !length_app. cbn [length]. lia.
  - (* 2n polls at most *)
    destruct (IH m) as (evs1 & done1 & E1 & Hr1 & Hl1 & Ht1 & Hf1).
    fold port in Hr1, Ht1.
    unfold bind at 1. rewrite E1.
    destruct done1.
    + exists evs1, true. split; [reflexivity |]. split; [exact Hr1 |].
      split; [lia |]. split; [exact Ht1 | discriminate].
    + set (m1 := {| trace := evs1 ++ trace m; ctl := ctl m |}).
      destruct (IH m1) as (evs2 & done2 & E2 & Hr2 & Hl2 & Ht2 & Hf2).
      rewrite E2.
      exists (evs2 ++ evs1), done2.
      split; [cbn [trace ctl m1]; rewrite <- app_assoc; reflexivity |].
      split; [apply Forall_app; split; assumption |].
      specialize (Hf1 eq_refl).
      split; [rewrite length_app; lia |].
      split.
      * intros Hd. destruct (Ht2 Hd) as (v2 & rest & -> & Hb).
        exists v2, (rest ++ evs1). split; [reflexivity | exact Hb].
      * intros Hd. specialize (Hf2 Hd). rewrite length_app. lia.
  - (* the last poll *)
    destruct (Hbody m) as (v & Ev). fold port in Ev. rewrite Ev.
    exists [EvRead8 port v], (negb (c_true (Z.land v ATA_STATUS_FLAG_BUSY))).
    split; [reflexivity |].
    split; [repeat constructor; exists v; reflexivity |].
    split; [cbn [length]; lia |].
    split; [| intros _; reflexivity].
    intros Hd. exists v, []. split; [reflexivity | apply Hdone; exact Hd].
Qed.

(** X3.  [ata_wait] always returns.  It only reads the alternate status
    register of the channel: no port is written and the controller is
    left as it was.  It makes the four reads of the 400ns delay and then
    at least one poll, and when it returns either the last status read
    has BUSY clear or it has polled 0x80000000 times. *)
Theorem ata_wait_polls (channelnum : Z) (m : machine) :
  let port := control_port (channel_at (ctl m) channelnum) in
  exists evs,
    ata_wait P channelnum m
    = Some (tt, {| trace := evs ++ trace m; ctl := ctl m |}) /\
    Forall (reads_port port) evs /\
    5 <= Z.of_nat (length evs) <= 4 + 0x80000000 /\
    ((exists v rest,
         evs = EvRead8 port v :: rest /\ Z.land v ATA_STATUS_FLAG_BUSY = 0)
     \/ Z.of_nat (length evs) = 4 + 0x80000000).
Proof.
  intros port.
  unfold ata_wait.
  unfold bind at 1.
  assert (Hdelay : exists v1 v2 v3 v4,
             ata_delay400 P channelnum m
             = Some (tt, {| trace := [EvRead8 port v4; EvRead8 port v3;
                                      EvRead8 port v2; EvRead8 port v1]
                                     ++ trace m;
                            ctl := ctl m |})).
  { eexists _, _, _, _. reflexivity. }
  destruct Hdelay as (v1 & v2 & v3 & v4 & Ed). rewrite Ed.
  set (m4 := {| trace := _ ++ trace m; ctl := ctl m |}).
  destruct (repeat_until_poll channelnum 0x80000000%positive m4)
    as (evs & done & E & Hr & Hl & Ht & Hf).
  unfold bind at 1. rewrite E. unfold ret.
  exists (evs ++ [EvRead8 port v4; EvRead8 port v3;
                  EvRead8 port v2; EvRead8 port v1]).
  split; [cbn [trace ctl m4]; rewrite <- app_assoc; reflexivity |].
  split.
  { apply Forall_app. split; [exact Hr |].
    repeat constructor; eexists; reflexivity. }
  split; [rewrite length_app; cbn [length]; lia |].
  destruct done.
  - left. destruct (Ht eq_refl) as (v & rest & -> & Hb).
    exists v, (rest ++ [EvRead8 port v4; EvRead8 port v3;
                        EvRead8 port v2; EvRead8 port v1]).
    split; [reflexivity | exact Hb].
  - right. specialize (Hf eq_refl). rewrite length_app. cbn [length]. lia.
Qed.

End Polling.

(** ** The data path *)

Lemma words_read_app (new old : list event) :
  words_read (new ++ old) = words_read old ++ words_read new.
Proof.
  unfold words_read. rewrite flat_map_app, rev_app_distr. reflexivity.
Qed.

Lemma words_read_data (port : Z) (words : list Z) :
  words_read (rev (map (EvRead32 port) words)) = words.
Proof.
  unfold words_read.
  assert (H : forall evs : list Z,
             flat_map (fun e => match e with EvRead32 _ v => [v] | _ => [] end)
               (map (EvRead32 port) evs) = evs).
  { induction evs as [|w ws IH]; [reflexivity |].
    cbn [map flat_map app]. rewrite IH. reflexivity. }
  rewrite <- (rev_involutive words) at 2.
  rewrite <- (H (rev words)), map_rev. reflexivity.
Qed.

Lemma bytes_read_app (new old : list event) :
  bytes_read (new ++ old) = bytes_read old ++ bytes_read new.
Proof.
  unfold bytes_read. rewrite words_read_app, flat_map_app. reflexivity.
Qed.

Lemma bytes_read_none (evs : list event) :
  words_read evs = [] -> bytes_read evs = [].
Proof. intros H. unfold bytes_read. rewrite H. reflexivity. Qed.

Lemma words_read_writes (ws : list event) :
  forallb is_port_write ws = true -> words_read (rev ws) = [].
Proof.
  intros H. unfold words_read.
  assert (E : forall l : list event,
             (forall e, In e l -> is_port_write e = true) ->
             flat_map
               (fun e => match e with EvRead32 _ v => [v] | _ => [] end) l
             = []).
  { induction l as [|w l IH]; intros Hl; [reflexivity |].
    cbn [flat_map]. rewrite IH by (intros e He; apply Hl; right; exact He).
    specialize (Hl w (or_introl eq_refl)).
    destruct w; try discriminate Hl. reflexivity. }
  rewrite E; [reflexivity |].
  intros e He. apply in_rev in He.
  rewrite forallb_forall in H. apply H. exact He.
Qed.

Section DataPath.

Context {K : kernel_abi}.
Variable P : platform.

(** The IST on a good status, with the words it reads. *)
Lemma hdc_ist_words (d : ata_disk) (count : Z) (m : machine) :
  pending d count m ->
  let base := base_port (channel_at (ctl m) (channel d)) in
  let status :=
    to_u8 (bus_in8 P (trace m) (base + ATA_REG_COMMAND_STATUS)) in
  c_true (Z.land status
            (Z.lor ATA_STATUS_FLAG_ERROR ATA_STATUS_FLAG_DEVICE_FAILURE))
  = false ->
  exists words,
    hdc_ist P m
    = Some (tt,
            {| trace := EvWakeup
                        :: rev (map (EvRead32 (base + ATA_REG_DATA)) words)
                        ++ EvRead8 (base + ATA_REG_COMMAND_STATUS) status
                        :: trace m;
               ctl := with_buffer
                        (with_irp (with_active_disk (ctl m) None)
                           (with_error (the_irp (ctl m)) 0))
                        (flat_map word_bytes words) |}) /\
    length words = Z.to_nat (to_size_t (count * SECTOR_SIZE) / 4) /\
    length (flat_map word_bytes words)
    = Z.to_nat (to_size_t (count * SECTOR_SIZE)).
Proof.
  intros (Hd & Hcmd & Hsz) base status Hst.
  destruct (sector_bytes_aligned count) as [Hal Hwords].
  set (m1 := {| trace := EvRead8 (base + ATA_REG_COMMAND_STATUS) status
                           :: trace m;
                ctl := with_irp (with_active_disk (ctl m) None)
                         (with_error (the_irp (ctl m)) 0) |}).
  destruct (pio_words_words P
              (Z.to_nat (to_size_t (count * SECTOR_SIZE) / 4))
              (base + ATA_REG_DATA) m1)
    as (words & E & Hlen & _).
  exists words. split; [| split; [exact Hlen |]].
  - unfold hdc_ist, bind, get_ctl, ata_read, bus_read_8, bind, get_ctl.
    rewrite Hd. cbn [deref ret].
    fold base. fold status.
    cbn -[Z.land Z.lor Z.shiftl to_int to_u8 c_true Z.add to_size_t
          ata_pio_read Z.mul].
    rewrite Hst.
    cbn -[Z.land Z.lor Z.shiftl to_int to_u8 c_true Z.add to_size_t
          ata_pio_read Z.mul].
    rewrite Hcmd, Hsz.
    unfold ata_pio_read, bind, get_ctl. rewrite Hal.
    cbn -[Z.land Z.lor Z.shiftl to_int to_u8 c_true Z.add to_size_t
          pio_words Z.mul Z.div Z.to_nat word_bytes].
    change (channel_at (with_irp (with_active_disk (ctl m) None)
                          (with_error (the_irp (ctl m)) 0)) (channel d))
      with (channel_at (ctl m) (channel d)).
    fold base. fold m1. rewrite E.
    reflexivity.
  - assert (Hfl : forall ws : list Z,
               length (flat_map word_bytes ws) = (4 * length ws)%nat).
    { induction ws as [|w ws IHw]; [reflexivity |].
      cbn [flat_map]. rewrite length_app, IHw. cbn [word_bytes length]. lia. }
    rewrite Hfl, Hlen. exact Hwords.
Qed.

(** X4.  When the IST runs for a read of [count] sectors, at most the
    128 that the bounce buffer of [BUFFER_LENGTH] bytes holds, and the
    status register shows neither ERROR nor DEVICE_FAILURE, it reads
    [128 * count] words from the data port and nothing else, stores
    their [512 * count] bytes at the start of the bounce buffer and
    leaves the rest of the buffer, which keeps its size, as it was,
    records no error, clears the active disk and wakes the caller. *)
Theorem hdc_ist_transfer (d : ata_disk) (count : Z) (m : machine) :
  pending d count m ->
  0 <= count <= BUFFER_LENGTH_IN_SECTORS ->
  Z.of_nat (length (buffer (ctl m))) = BUFFER_LENGTH ->
  let base := base_port (channel_at (ctl m) (channel d)) in
  let status :=
    to_u8 (bus_in8 P (trace m) (base + ATA_REG_COMMAND_STATUS)) in
  Z.land status ATA_STATUS_FLAG_ERROR = 0 ->
  Z.land status ATA_STATUS_FLAG_DEVICE_FAILURE = 0 ->
  exists words m',
    hdc_ist P m = Some (tt, m') /\
    trace m'
    = EvWakeup
      :: rev (map (EvRead32 (base + ATA_REG_DATA)) words)
      ++ EvRead8 (base + ATA_REG_COMMAND_STATUS) status :: trace m /\
    Z.of_nat (length words) = 128 * count /\
    buffer (ctl m')
    = flat_map word_bytes words
      ++ skipn (Z.to_nat (512 * count)) (buffer (ctl m)) /\
    Z.of_nat (length (flat_map word_bytes words)) = 512 * count /\
    Z.of_nat (length (buffer (ctl m'))) = BUFFER_LENGTH /\
    irp_error (the_irp (ctl m')) = 0 /\
    active_disk (ctl m') = None /\
    same_ports (ctl m) (ctl m').
Proof.
  intros Hp Hc Hpage base status He Hf.
  assert (Hc' : 0 <= count <= 128 /\ BUFFER_LENGTH = 65536).
  { revert Hc. unfold BUFFER_LENGTH_IN_SECTORS, BUFFER_LENGTH, SECTOR_SIZE.
    change (65536 / 512) with 128. lia. }
  destruct Hc' as (Hc' & Hsz). rewrite Hsz in Hpage. rewrite Hsz.
  clear Hc. rename Hc' into Hc.
  assert (Hst : c_true (Z.land status
                          (Z.lor ATA_STATUS_FLAG_ERROR
                                 ATA_STATUS_FLAG_DEVICE_FAILURE)) = false).
  { apply c_true_false_iff. apply land_lor_zero. split; assumption. }
  destruct (hdc_ist_words d count m Hp Hst) as (words & E & Hlen & Hbytes).
  assert (Hsize : to_size_t (count * SECTOR_SIZE) = 512 * count).
  { unfold to_size_t, SECTOR_SIZE. rewrite to_u32_small by lia. lia. }
  rewrite Hsize in Hlen, Hbytes.
  eexists words, _. split; [exact E |].
  cbn [trace ctl with_buffer with_irp with_active_disk with_error buffer
       the_irp irp_error active_disk].
  split; [reflexivity |].
  split.
  { rewrite Hlen. rewrite Z2Nat.id by (apply Z.div_pos; lia).
    replace (512 * count) with ((128 * count) * 4) by lia.
    apply Z.div_mul. lia. }
  split; [unfold overlay; rewrite Hbytes; reflexivity |].
  split; [rewrite Hbytes; lia |].
  split.
  { unfold overlay. rewrite length_app, length_skipn. lia. }
  split; [reflexivity |]. split; [reflexivity |]. split; reflexivity.
Qed.

(** The sleep of a caller, with what was read meanwhile. *)
Lemma await_full (d : ata_disk) (count : Z) (n : nat) (m : machine) :
  pending d count m ->
  exists r m' evs,
    await P n m = Some (r, m') /\
    trace m' = evs ++ trace m /\
    match r with
    | SLP_INTR => ctl m' = ctl m /\ words_read evs = []
    | SLP_SUCCESS =>
        active_disk (ctl m') = None /\
        ((irp_error (the_irp (ctl m')) = 0 /\
          buffer (ctl m') = overlay (bytes_read evs) (buffer (ctl m)) /\
          length (bytes_read evs)
          = Z.to_nat (to_size_t (count * SECTOR_SIZE)))
         \/
         (irp_error (the_irp (ctl m')) <> 0 /\
          words_read evs = [] /\
          buffer (ctl m') = buffer (ctl m)))
    end.
Proof.
  revert m. induction n as [|n IH]; intros m Hp.
  - exists SLP_INTR, m, []. repeat split.
  - pose proof Hp as (Hd & Hcmd & Hsz).
    cbn [await]. unfold bind at 1. unfold deliver_irq. unfold bind at 1.
    rewrite (hdc_isr_spec P d m Hd).
    set (port := control_port (channel_at (ctl m) (channel d))).
    set (alt := to_u8 (bus_in8 P (trace m) port)).
    set (m1 := {| trace := EvRead8 port alt :: trace m; ctl := ctl m |}).
    assert (Hp1 : pending d count m1) by exact Hp.
    destruct (c_true (Z.land alt _)).
    + rewrite Z.eqb_refl. unfold bind at 1.
      set (base := base_port (channel_at (ctl m1) (channel d))).
      set (status :=
             to_u8 (bus_in8 P (trace m1) (base + ATA_REG_COMMAND_STATUS))).
      destruct (c_true (Z.land status
                          (Z.lor ATA_STATUS_FLAG_ERROR
                                 ATA_STATUS_FLAG_DEVICE_FAILURE))) eqn:Hst.
      * rewrite (hdc_ist_error P d m1 Hd Hst). cbn [ret].
        set (e := to_u8 (bus_in8 P _ (_ + ATA_REG_ERR))).
        exists SLP_SUCCESS.
        eexists. exists [EvWakeup; EvRead8 (base + ATA_REG_ERR) e;
                         EvRead8 (base + ATA_REG_COMMAND_STATUS) status;
                         EvRead8 port alt].
        split; [reflexivity |]. split; [reflexivity |].
        split; [reflexivity |]. right.
        split; [apply error_word_nonzero |]. split; reflexivity.
      * destruct (hdc_ist_words d count m1 Hp1 Hst)
          as (words & E & Hlen & Hbytes).
        fold base in E. fold status in E. rewrite E. cbn [ret].
        set (evs := EvWakeup
                    :: rev (map (EvRead32 (base + ATA_REG_DATA)) words)
                    ++ [EvRead8 (base + ATA_REG_COMMAND_STATUS) status;
                        EvRead8 port alt]).
        assert (Hwr : words_read evs = words).
        { unfold evs.
          change (EvWakeup :: ?l) with ([EvWakeup] ++ l).
          rewrite words_read_app, words_read_app, words_read_data.
          unfold words_read. cbn [flat_map rev app]. apply app_nil_r. }
        exists SLP_SUCCESS. eexists. exists evs.
        split; [reflexivity |].
        split; [unfold evs; cbn [trace m1 app]; rewrite <- app_assoc;
                reflexivity |].
        split; [reflexivity |]. left.
        unfold bytes_read. rewrite Hwr.
        split; [reflexivity |]. split; [reflexivity | exact Hbytes].
    + destruct (Z.eqb_spec 0 INT_CONTINUE) as [Heq | _].
      { exfalso. apply INT_CONTINUE_nonzero. symmetry. exact Heq. }
      cbn [ret].
      destruct (IH m1 Hp1) as (r & m' & evs & E & Htr & Hres).
      rewrite E.
      assert (Hwr : words_read (evs ++ [EvRead8 port alt]) = words_read evs).
      { rewrite words_read_app. reflexivity. }
      exists r, m', (evs ++ [EvRead8 port alt]).
      split; [reflexivity |].
      split; [rewrite Htr; cbn [trace m1]; rewrite <- app_assoc;
              reflexivity |].
      unfold bytes_read in *. rewrite Hwr. exact Hres.
Qed.

(** One request, with its outcome. *)
Lemma hdd_rw_full (d : ata_disk) (count blk : Z) (m : machine) :
  exists err m' evs,
    hdd_rw P d IO_READ count blk m = Some (err, m') /\
    trace m' = evs ++ trace m /\
    ((err = EINTR /\
      active_disk (ctl m') = Some d /\
      words_read evs = [] /\
      buffer (ctl m') = buffer (ctl m))
     \/
     (active_disk (ctl m') = None /\
      err = irp_error (the_irp (ctl m')) /\
      ((err = 0 /\
        buffer (ctl m') = overlay (bytes_read evs) (buffer (ctl m)) /\
        length (bytes_read evs) = Z.to_nat (to_size_t (count * SECTOR_SIZE)))
       \/
       (err <> 0 /\
        words_read evs = [] /\
        buffer (ctl m') = buffer (ctl m))))).
Proof.
  unfold hdd_rw.
  unfold bind at 1. unfold set_irp at 1. unfold bind at 1, get_ctl at 1.
  unfold set_ctl at 1.
  unfold bind at 1. unfold log at 1.
  unfold bind at 1. unfold bind at 1, get_ctl at 1. unfold ret at 1.
  cbn [trace ctl with_irp the_irp irp_cmd irp_blkno irp_blksz].
  unfold bind at 1. rewrite hdd_setup_io_read.
  cbn [trace ctl].
  set (c2 := with_active_disk _ (Some d)).
  unfold bind at 1. unfold sched_sleep. unfold bind at 1, log at 1.
  cbn [trace ctl].
  change (read_command_writes (with_irp (ctl m) ?i) d ?sub)
    with (read_command_writes (ctl m) d sub).
  set (ws := read_command_writes (ctl m) d (to_u64 blk, count)).
  set (m3 := {| trace := EvSleep :: rev ws ++ EvSchedLock :: trace m;
                ctl := c2 |}).
  change (EvSleep :: rev ws ++ EvSchedLock :: trace m) with (trace m3).
  assert (Hp : pending d count m3) by (repeat split).
  destruct (await_full d count (irq_budget P (trace m3)) m3 Hp)
    as (r & m4 & evs & E & Htr & Hres).
  rewrite E.
  set (all := (EvSchedUnlock :: evs) ++ EvSleep :: rev ws ++ [EvSchedLock]).
  assert (Hall : words_read all = words_read evs).
  { unfold all.
    rewrite words_read_app.
    change (EvSleep :: ?l) with ([EvSleep] ++ l).
    rewrite (words_read_app [EvSleep]), (words_read_app (rev ws)).
    rewrite (words_read_writes ws) by apply read_command_writes_are_writes.
    change (EvSchedUnlock :: evs) with ([EvSchedUnlock] ++ evs).
    rewrite (words_read_app [EvSchedUnlock]).
    cbn [words_read flat_map rev app]. rewrite app_nil_r. reflexivity. }
  assert (Htrace : EvSchedUnlock :: trace m4 = all ++ trace m).
  { unfold all. rewrite Htr. cbn [trace m3].
    rewrite <- !app_assoc. cbn [app]. rewrite <- !app_assoc. reflexivity. }
  destruct r.
  - unfold bind at 1, get_ctl, ret. unfold bind at 1, log. cbn [trace ctl].
    eexists _, _, all. split; [reflexivity |].
    split; [exact Htrace |].
    right. cbn [ctl]. destruct Hres as (Hact & Hres).
    split; [exact Hact |]. split; [reflexivity |].
    unfold bytes_read in *. rewrite Hall.
    destruct Hres as [(He & Hbuf & Hlen) | (He & Hw & Hbuf)].
    + left. split; [exact He |]. split; [exact Hbuf | exact Hlen].
    + right. split; [exact He |]. split; [exact Hw | exact Hbuf].
  - unfold ret at 1. unfold bind at 1, log. cbn [trace ctl]. unfold ret.
    eexists _, _, all. split; [reflexivity |].
    split; [exact Htrace |].
    left. cbn [ctl]. destruct Hres as (Hctl & Hw).
    split; [reflexivity |]. rewrite Hctl, Hall.
    split; [reflexivity |]. split; [exact Hw | reflexivity].
Qed.

End DataPath.

Section Requests.

Context {K : kernel_abi}.
Variable P : platform.

(** X5.  What a request has done when it returns.  If the IST runs
    during the caller's sleep, the request returns right after it, with
    the error the IST recorded.  Whenever a request for at most 128
    sectors returns, with the bounce buffer the one page [page_alloc]
    gave, it has written exactly one read command to the disk and the
    buffer is still one page.  If a signal ended the caller's sleep, it
    returns EINTR and the request stays in flight: the disk is still the
    controller's active disk and no data has been read.  Otherwise the
    IST has run: the active disk is NULL and the value returned is the
    error the IST recorded, which is 0 exactly when the [512 * count]
    bytes of the request were read from the data port into the start of
    the bounce buffer; with an error nothing is read and the buffer is
    untouched. *)
Theorem hdd_rw_outcome (d : ata_disk) (count blk : Z) (m : machine) :
  0 <= count <= BUFFER_LENGTH_IN_SECTORS ->
  Z.of_nat (length (buffer (ctl m))) = BUFFER_LENGTH ->
  (forall ms mi : machine,
      ist_runs_in P d (irq_budget P (trace (asleep d count blk m)))
        (asleep d count blk m) ms ->
      hdc_ist P ms = Some (tt, mi) ->
      hdd_rw P d IO_READ count blk m
      = Some (irp_error (the_irp (ctl mi)),
              {| trace := EvSchedUnlock :: trace mi; ctl := ctl mi |})) /\
  (forall (err : Z) (m' : machine),
      hdd_rw P d IO_READ count blk m = Some (err, m') ->
      exists evs,
        trace m' = evs ++ trace m /\
        bus_writes evs = read_command_writes (ctl m) d (to_u64 blk, count) /\
        Z.of_nat (length (buffer (ctl m'))) = BUFFER_LENGTH /\
        ((err = EINTR /\
          active_disk (ctl m') = Some d /\
          bytes_read evs = [] /\
          buffer (ctl m') = buffer (ctl m))
         \/
         (active_disk (ctl m') = None /\
          err = irp_error (the_irp (ctl m')) /\
          ((err = 0 /\
            Z.of_nat (length (bytes_read evs)) = 512 * count /\
            buffer (ctl m')
            = bytes_read evs
              ++ skipn (Z.to_nat (512 * count)) (buffer (ctl m)))
           \/
           (err <> 0 /\
            bytes_read evs = [] /\
            buffer (ctl m') = buffer (ctl m)))))).
Proof.
  unfold BUFFER_LENGTH_IN_SECTORS, BUFFER_LENGTH, SECTOR_SIZE.
  change (65536 / 512) with 128. intros Hc Hpage.
  split; [intros ms mi Hruns Hist; exact (hdd_rw_by_ist P d count blk m ms mi Hruns Hist) |].
  intros err m' E.
  destruct (hdd_rw_full P d count blk m)
    as (err1 & m1 & evs & E1 & Htr & Hres).
  destruct (hdd_rw_spec P d count blk m)
    as (err0 & m0 & evs0 & E0 & Htr0 & Hw & _).
  rewrite E in E1. injection E1 as <- <-.
  rewrite E in E0. injection E0 as <- <-.
  assert (evs0 = evs).
  { apply (app_inv_tail (trace m)). rewrite <- Htr0. exact Htr. }
  subst evs0.
  exists evs. split; [exact Htr |]. split; [exact Hw |].
  assert (Hsize : to_size_t (count * SECTOR_SIZE) = 512 * count).
  { unfold to_size_t, SECTOR_SIZE. rewrite to_u32_small by lia. lia. }
  destruct Hres as [(He & Ha & Hwr & Hb) | (Ha & He & Hres)].
  - split; [rewrite Hb; exact Hpage |].
    left. split; [exact He |]. split; [exact Ha |].
    split; [apply bytes_read_none; exact Hwr | exact Hb].
  - destruct Hres as [(Hz & Hb & Hl) | (Hnz & Hwr & Hb)].
    + rewrite Hsize in Hl. split.
      * rewrite Hb. unfold overlay.
        rewrite length_app, length_skipn, Hl. lia.
      * right. split; [exact Ha |]. split; [exact He |].
        left. split; [exact Hz |].
        split; [rewrite Hl; lia |].
        rewrite Hb. unfold overlay. rewrite Hl. reflexivity.
    + split; [rewrite Hb; exact Hpage |].
      right. split; [exact Ha |]. split; [exact He |].
      right. split; [exact Hnz |].
      split; [apply bytes_read_none; exact Hwr | exact Hb].
Qed.

Lemma hdd_read_loop_full (d : ata_disk) (fuel : nat) :
  forall (n total blk : Z) (kdata : list Z) (m : machine),
    0 <= n -> (Z.to_nat n <= fuel)%nat ->
    0 <= total -> total + 512 * n < 2 ^ 32 ->
    exists r m' evs,
      hdd_read_loop P fuel d n total blk kdata m = Some (r, m') /\
      trace m' = evs ++ trace m /\
      r_data r = kdata ++ bytes_read evs /\
      (0 < n -> r_ret r = 0 -> active_disk (ctl m') = None).
Proof.
  induction fuel as [|fuel IH]; intros n total blk kdata m Hn Hfuel Ht Hfit;
    rewrite hdd_read_loop_unfold.
  - assert (n = 0) by lia. subst n. cbn [Z.ltb Z.compare].
    eexists _, m, []. split; [reflexivity |]. split; [reflexivity |].
    split; [cbn [r_data]; symmetry; apply app_nil_r | lia].
  - destruct (Z.ltb_spec 0 n) as [Hpos | Hzero].
    2:{ eexists _, m, []. split; [reflexivity |]. split; [reflexivity |].
        split; [cbn [r_data]; symmetry; apply app_nil_r | lia]. }
    set (tsc := Z.min n BUFFER_LENGTH_IN_SECTORS).
    assert (Htsc : 0 < tsc <= 128 /\ tsc <= n).
    { unfold tsc, BUFFER_LENGTH_IN_SECTORS, BUFFER_LENGTH, SECTOR_SIZE.
      change (65536 / 512) with 128. lia. }
    assert (Hbytes : to_size_t (SECTOR_SIZE * tsc) = 512 * tsc).
    { unfold to_size_t, SECTOR_SIZE. apply to_u32_small. lia. }
    rewrite Hbytes.
    assert (Hn' : to_size_t (n - tsc) = n - tsc).
    { unfold to_size_t. apply to_u32_small. lia. }
    assert (Ht' : to_size_t (total + 512 * tsc) = total + 512 * tsc).
    { unfold to_size_t. apply to_u32_small. lia. }
    rewrite Hn', Ht'.
    destruct (hdd_rw_full P d tsc blk m) as (err & m1 & evs1 & E1 & Htr1 & Hres1).
    unfold bind at 1. rewrite E1.
    destruct (c_true err) eqn:Herr.
    + apply c_true_iff in Herr.
      eexists _, m1, evs1. split; [reflexivity |]. split; [exact Htr1 |].
      cbn [r_ret r_data].
      split.
      * assert (Hnone : words_read evs1 = []).
        { destruct Hres1 as [(_ & _ & Hw & _) | (_ & _ & [(Hz & _) | (_ & Hw & _)])];
            [exact Hw | contradiction | exact Hw]. }
        rewrite (bytes_read_none evs1 Hnone). symmetry. apply app_nil_r.
      * intros _ H0. exfalso. apply EIO_nonzero. exact H0.
    + apply c_true_false_iff in Herr.
      assert (Hok : active_disk (ctl m1) = None /\
                    firstn (Z.to_nat (512 * tsc)) (buffer (ctl m1))
                    = bytes_read evs1).
      { destruct Hres1 as [(He & _) | (Ha & _ & [(_ & Hb & Hl) | (Hnz & _)])].
        - exfalso. apply EINTR_nonzero. congruence.
        - split; [exact Ha |]. rewrite Hb.
          replace (Z.to_nat (512 * tsc)) with (length (bytes_read evs1)).
          + apply firstn_overlay.
          + rewrite Hl. f_equal. unfold to_size_t, SECTOR_SIZE.
            rewrite to_u32_small by lia. lia.
        - contradiction. }
      destruct Hok as [Hact Hfirst].
      unfold bind at 1, get_ctl at 1. rewrite Hfirst.
      destruct (IH (n - tsc) (total + 512 * tsc) (to_int (blk + tsc))
                  (kdata ++ bytes_read evs1) m1)
        as (r & m' & evs2 & E2 & Htr2 & Hdata & Hnone); try lia.
      rewrite E2.
      exists r, m', (evs2 ++ evs1).
      split; [reflexivity |].
      split; [rewrite Htr2, Htr1; apply app_assoc |].
      split; [rewrite Hdata, bytes_read_app; symmetry; apply app_assoc |].
      intros _ Hret.
      destruct (Z.eq_dec (n - tsc) 0) as [Hz | Hnz].
      * rewrite Hz in E2. rewrite hdd_read_loop_unfold in E2.
        cbn [Z.ltb Z.compare] in E2. unfold ret in E2.
        injection E2 as _ <-. exact Hact.
      * apply Hnone; [lia | exact Hret].
Qed.

(** X6.  A call of [hdd_read] that passes the two guards and whose
    requests all succeed returns 0.  Whenever [hdd_read] returns, the
    bytes it has copied to the caller are exactly the bytes of the words
    read from the data port during the call, in the order read, each
    word low byte first, whether the call succeeded or failed: a request
    that fails adds none.  [*nbyte] on return from a call that got past
    the two guards is their number.  A call that returns 0 has read 128
    words for each of the [nbyte / 512] sectors and, if it issued a
    request at all, leaves no request in flight. *)
Theorem hdd_read_data (dev : ata_device_handle) (buf nbyte blkno : Z)
    (m : machine) :
  0 <= nbyte < 2 ^ 32 ->
  (fails_bounds_check dev blkno nbyte = false ->
   kmem_map P buf nbyte <> None ->
   forall mf : machine,
     requests_succeed P (disk_of dev) (nbyte / 512)
       (resolved_blkno dev blkno) m mf ->
     exists r,
       hdd_read P dev buf nbyte blkno m = Some (r, mf) /\ r_ret r = 0) /\
  (forall (r : read_result) (m' : machine),
      hdd_read P dev buf nbyte blkno m = Some (r, m') ->
      exists evs,
        trace m' = evs ++ trace m /\
        r_data r = bytes_read evs /\
        (r_ret r <> EFAULT ->
         fails_bounds_check dev blkno nbyte = false ->
         r_nbyte r = Z.of_nat (length (bytes_read evs))) /\
        (r_ret r = 0 ->
         Z.of_nat (length (words_read evs)) = 128 * (nbyte / 512) /\
         (512 <= nbyte -> active_disk (ctl m') = None))).
Proof.
  intros Hnb.
  split.
  { intros Hpass Hmap mf Hgo.
    exact (hdd_read_succeeds P dev buf nbyte blkno m mf Hnb Hpass Hmap Hgo). }
  intros r m' E.
  assert (Hn : 0 <= nbyte / 512 /\ 512 * (nbyte / 512) <= nbyte).
  { split; [apply Z.div_pos; lia | apply Z.mul_div_le; lia]. }
  destruct (hdd_read_run P dev buf nbyte blkno m Hnb)
    as (r1 & m1 & evs & subs & E1 & Htr & _ & _ & _ & Hcases).
  rewrite E in E1. injection E1 as <- <-.
  assert (Hfl : forall ws : list Z,
             Z.of_nat (length (flat_map word_bytes ws))
             = 4 * Z.of_nat (length ws)).
  { induction ws as [|w ws IHw]; [reflexivity |].
    cbn [flat_map]. rewrite length_app, Nat2Z.inj_add, IHw.
    cbn [word_bytes length]. lia. }
  assert (Hfull :
    fails_bounds_check dev blkno nbyte = false ->
    kmem_map P buf nbyte <> None ->
    r_data r = bytes_read evs /\
    (0 < nbyte / 512 -> r_ret r = 0 -> active_disk (ctl m') = None)).
  { intros Hpass Hmap. revert E. unfold hdd_read.
    unfold fails_bounds_check in Hpass. change SECTOR_SIZE with 512 in *.
    destruct (adjust_blkno dev blkno) as [[d blk] limit].
    rewrite Hpass.
    destruct (kmem_map P buf nbyte) as [kbuf |]; [| contradiction].
    intros E.
    destruct (hdd_read_loop_full d (Z.to_nat (nbyte / 512))
                (nbyte / 512) 0 blk [] m)
      as (r0 & m0 & evs0 & E0 & Htr0 & Hdata & Hact); try lia.
    rewrite E in E0. injection E0 as <- <-.
    assert (evs0 = evs).
    { apply (app_inv_tail (trace m)). rewrite <- Htr0. exact Htr. }
    subst evs0. split; [exact Hdata | exact Hact]. }
  exists evs. split; [exact Htr |].
  destruct Hcases as [(Hf & Hr & Hm & _)
                     | [(Hf & Hmap & Hr & Hm & _)
                       | (Hf & Hmap & Hlen & Hres)]].
  - subst m'. assert (evs = []).
    { apply (app_inv_tail (trace m)). symmetry. exact Htr. }
    subst evs r. cbn [r_ret r_data r_nbyte].
    split; [reflexivity |].
    split; [intros _ Hf'; rewrite Hf in Hf'; discriminate Hf' |].
    intros H0. exfalso. apply EIO_nonzero. exact H0.
  - subst m'. assert (evs = []).
    { apply (app_inv_tail (trace m)). symmetry. exact Htr. }
    subst evs r. cbn [r_ret r_data r_nbyte].
    split; [reflexivity |].
    split; [intros Hne; contradiction |].
    intros H0. exfalso. apply EFAULT_nonzero. exact H0.
  - destruct (Hfull Hf Hmap) as (Hdata & Hact).
    split; [exact Hdata |].
    split; [intros _ _; rewrite <- Hdata; symmetry; exact Hlen |].
    intros Hret.
    destruct Hres as [(_ & Hnbyte & _) | (Heio & _)].
    + split.
      * rewrite Hdata in Hlen. unfold bytes_read in Hlen.
        rewrite Hfl in Hlen. lia.
      * intros Hbig. apply Hact; [| exact Hret].
        apply Z.div_str_pos. lia.
    + exfalso. apply EIO_nonzero. congruence.
Qed.

End Requests.

(** One sector from a ready disk into the page: the IST runs at the
    first interrupt, the request returns 0 and the buffer is still one
    page. *)
Lemma hdd_rw_outcome_witness :
  exists m',
    hdd_rw (steady_device 0x58 7) (plain_disk 1000) IO_READ 1 7
      (with_page boot)
    = Some (0, m') /\
    Z.of_nat (length (buffer (ctl m'))) = BUFFER_LENGTH /\
    active_disk (ctl m') = None.
Proof.
  destruct (hdd_rw_outcome (steady_device 0x58 7) (plain_disk 1000) 1 7
              (with_page boot))
    as (Hist & Hret).
  - vm_compute. split; discriminate.
  - vm_compute. reflexivity.
  - destruct (hdc_ist_data (steady_device 0x58 7) (plain_disk 1000) 1
                (after_isr (steady_device 0x58 7) (plain_disk 1000)
                   (asleep (plain_disk 1000) 1 7 (with_page boot))))
      as (data & evs0 & Ei & _).
    + repeat split.
    + reflexivity.
    + pose proof (Hist _ _
                    (ist_at_once (steady_device 0x58 7) (plain_disk 1000) 0
                       (asleep (plain_disk 1000) 1 7 (with_page boot))
                       eq_refl)
                    Ei) as E.
      cbn [ctl the_irp irp_error with_buffer with_irp with_error] in E.
      destruct (Hret _ _ E) as (evs & _ & _ & Hpage & Hres).
      eexists. split; [exact E |]. split; [exact Hpage |].
      destruct Hres as [(He & _) | (Ha & _)]; [| exact Ha].
      exfalso. vm_compute in He. discriminate He.
Defined.

(** One sector from a device that answers 0x04030201: the call returns
    0 with the 512 bytes of the 128 words it read. *)
Lemma hdd_read_data_witness :
  exists r m',
    hdd_read (steady_device 0x58 0x04030201)
      (ATA_DEVICE_WHOLEDISK (plain_disk 1000)) 0 512 7 boot
    = Some (r, m') /\
    r_ret r = 0 /\
    r_data r = bytes_read (trace m') /\
    Z.of_nat (length (words_read (trace m'))) = 128 /\
    firstn 4 (r_data r) = [1; 2; 3; 4].
Proof.
  destruct (hdd_read_data (steady_device 0x58 0x04030201)
              (ATA_DEVICE_WHOLEDISK (plain_disk 1000)) 0 512 7 boot
              ltac:(lia))
    as (Hrun & Hdata).
  destruct (steady_requests_succeed 0x04030201 (plain_disk 1000) 1 1 7 boot
              ltac:(lia))
    as (mf & Hgo).
  destruct (Hrun eq_refl ltac:(discriminate) mf Hgo) as (r & E & Hret).
  destruct (Hdata r mf E) as (evs & Htr & Hbytes & _ & Hwords).
  exists r, mf. split; [exact E |]. split; [exact Hret |].
  cbn [trace boot] in Htr. rewrite app_nil_r in Htr. subst evs.
  split; [exact Hbytes |].
  split; [exact (proj1 (Hwords Hret)) |].
  vm_compute in E. injection E as <- _. reflexivity.
Defined.

(** ** Where a read goes *)

(** Every request of the loop has between 1 and 128 sectors, and the
    requests never ask for more than the sectors to go. *)
Lemma issues_sizes (blk n : Z) (subs : list (Z * Z)) :
  issues blk n subs ->
  Forall (fun sub => 1 <= snd sub <= 128) subs /\ sum_sectors subs <= Z.max n 0.
Proof.
  induction 1 as [blk n | blk n rest Hpos Hrest IH].
  - split; [constructor | cbn; lia].
  - revert Hrest IH.
    unfold BUFFER_LENGTH_IN_SECTORS, BUFFER_LENGTH, SECTOR_SIZE.
    change (65536 / 512) with 128. intros Hrest (Hall & Hsum).
    split; [constructor; [cbn [snd]; lia | exact Hall] |].
    change (sum_sectors ((to_u64 blk, Z.min n 128) :: rest))
      with (Z.min n 128 + sum_sectors rest).
    lia.
Qed.

(** As long as block numbers stay below 2^31, the requests follow one
    another without gap or overlap, 128 sectors apart, inside the range
    asked for. *)
Lemma issues_contiguous (blk n : Z) (subs : list (Z * Z)) :
  issues blk n subs ->
  0 <= blk -> blk + n < 2 ^ 31 ->
  forall (k : nat) (lba c : Z),
    nth_error subs k = Some (lba, c) ->
    lba = blk + 128 * Z.of_nat k /\ lba + c <= blk + n.
Proof.
  induction 1 as [blk n | blk n rest Hpos Hrest IH]; intros Hb Hfit k lba c Hk.
  - destruct k; discriminate Hk.
  - revert Hrest IH Hk.
    unfold BUFFER_LENGTH_IN_SECTORS, BUFFER_LENGTH, SECTOR_SIZE.
    change (65536 / 512) with 128. intros Hrest IH Hk.
    destruct k as [|k].
    + cbn in Hk. injection Hk as <- <-.
      unfold to_u64. rewrite Z.mod_small by lia. lia.
    + cbn [nth_error] in Hk.
      destruct rest as [|x rest']; [destruct k; discriminate Hk |].
      (* a further request exists, so this one was a full one *)
      assert (Hfull : 128 < n).
      { inversion Hrest; subst. lia. }
      rewrite Z.min_r in IH, Hrest by lia.
      rewrite to_int_small in IH by lia.
      destruct (IH ltac:(lia) ltac:(lia) k lba c Hk) as (Hl & Hc).
      split; lia.
Qed.

Section Reach.

Context {K : kernel_abi}.
Variable P : platform.

(** X7.  Whatever the outcome of a call, every command it issues asks
    for at least 1 and at most 128 sectors, so the [512 * count] bytes
    the IST stores for it fit the bounce buffer of [BUFFER_LENGTH]
    bytes; and all commands together never ask for more than
    [nbyte / 512] sectors. *)
Theorem hdd_read_request_sizes (dev : ata_device_handle)
    (buf nbyte blkno : Z) (m : machine) :
  0 <= nbyte < 2 ^ 32 ->
  exists r m' evs subs,
    hdd_read P dev buf nbyte blkno m = Some (r, m') /\
    trace m' = evs ++ trace m /\
    bus_writes evs
    = flat_map (read_command_writes (ctl m) (disk_of dev)) subs /\
    Forall (fun sub => 1 <= snd sub /\ 512 * snd sub <= BUFFER_LENGTH) subs /\
    sum_sectors subs <= nbyte / 512.
Proof.
  intros Hnb.
  destruct (hdd_read_run P dev buf nbyte blkno m Hnb)
    as (r & m' & evs & subs & E & Htr & _ & Hw & Hiss & _).
  exists r, m', evs, subs.
  split; [exact E |]. split; [exact Htr |]. split; [exact Hw |].
  destruct (issues_sizes _ _ _ Hiss) as (Hall & Hsum).
  assert (Hn : 0 <= nbyte / 512) by (apply Z.div_pos; lia).
  split; [| lia].
  apply Forall_forall. intros sub Hin.
  rewrite Forall_forall in Hall. specialize (Hall sub Hin).
  unfold BUFFER_LENGTH. lia.
Qed.

(** X8.  A read whose range, after [adjust_blkno], ends below block
    2^31 goes out as commands that follow one another without gap or
    overlap: the k-th starts 128 * k sectors after the block number
    [adjust_blkno] hands back, and none reaches beyond the
    [nbyte / 512] sectors asked for.  All of them stay strictly below
    the limit [adjust_blkno] hands back: the sector just before the
    limit is never read. *)
Theorem hdd_read_contiguous (dev : ata_device_handle)
    (buf nbyte blkno : Z) (m : machine) :
  0 <= nbyte < 2 ^ 32 ->
  resolved_blkno dev blkno + nbyte / 512 < 2 ^ 31 ->
  exists r m' evs subs,
    hdd_read P dev buf nbyte blkno m = Some (r, m') /\
    trace m' = evs ++ trace m /\
    bus_writes evs
    = flat_map (read_command_writes (ctl m) (disk_of dev)) subs /\
    forall (k : nat) (lba c : Z),
      nth_error subs k = Some (lba, c) ->
      lba = resolved_blkno dev blkno + 128 * Z.of_nat k /\
      lba + c <= resolved_blkno dev blkno + nbyte / 512 /\
      lba + c < sector_limit dev.
Proof.
  intros Hnb Hfit.
  assert (Hn : 0 <= nbyte / 512) by (apply Z.div_pos; lia).
  destruct (hdd_read_run P dev buf nbyte blkno m Hnb)
    as (r & m' & evs & subs & E & Htr & _ & Hw & Hiss & Hcases).
  exists r, m', evs, subs.
  split; [exact E |]. split; [exact Htr |]. split; [exact Hw |].
  intros k lba c Hk.
  destruct Hcases as [(_ & _ & _ & Hnil) | [(_ & _ & _ & _ & Hnil) | (Hpass & _)]].
  - subst subs. destruct k; discriminate Hk.
  - subst subs. destruct k; discriminate Hk.
  - assert (Hchk : 0 <= resolved_blkno dev blkno /\
                   resolved_blkno dev blkno + nbyte / 512 < sector_limit dev).
    { revert Hpass Hfit. unfold fails_bounds_check, resolved_blkno, sector_limit.
      change SECTOR_SIZE with 512.
      assert (Hl : snd (adjust_blkno dev 0) = snd (adjust_blkno dev blkno))
        by (destruct dev; reflexivity).
      rewrite Hl.
      destruct (adjust_blkno dev blkno) as [[d blk] limit]. cbn [fst snd].
      intros Hpass Hfit. apply orb_false_elim in Hpass.
      destruct Hpass as [H0 H1]. apply Z.ltb_ge in H0. apply Z.leb_gt in H1.
      unfold to_size_t in H1. rewrite to_u32_small in H1 by lia. lia. }
    destruct (issues_contiguous _ _ _ Hiss ltac:(lia) Hfit k lba c Hk)
      as (Hl & Hc).
    split; [exact Hl |]. split; [exact Hc | lia].
Qed.

End Reach.

(** Two sectors from block 5: one command, at block 5. *)
Lemma hdd_read_contiguous_witness :
  exists r m' evs subs,
    hdd_read (steady_device 0x58 0)
      (ATA_DEVICE_WHOLEDISK (plain_disk 1000)) 0 1024 5 boot
    = Some (r, m') /\
    trace m' = evs ++ trace boot /\
    bus_writes evs
    = flat_map (read_command_writes (ctl boot) (plain_disk 1000)) subs /\
    forall (k : nat) (lba c : Z),
      nth_error subs k = Some (lba, c) ->
      lba = 5 + 128 * Z.of_nat k /\ lba + c < 1000.
Proof.
  destruct (hdd_read_contiguous (steady_device 0x58 0)
              (ATA_DEVICE_WHOLEDISK (plain_disk 1000)) 0 1024 5 boot
              ltac:(lia) ltac:(vm_compute; reflexivity))
    as (r & m' & evs & subs & E & Htr & Hw & Hall).
  exists r, m', evs, subs.
  split; [exact E |]. split; [exact Htr |]. split; [exact Hw |].
  intros k lba c Hk. destruct (Hall k lba c Hk) as (Hl & _ & Hlim).
  split; [exact Hl | exact Hlim].
Defined.

Lemma hdd_read_request_sizes_witness :
  exists r m' evs subs,
    hdd_read (steady_device 0x58 0)
      (ATA_DEVICE_WHOLEDISK (plain_disk 1000)) 0 1024 5 boot
    = Some (r, m') /\
    trace m' = evs ++ trace boot /\
    bus_writes evs
    = flat_map (read_command_writes (ctl boot) (plain_disk 1000)) subs /\
    sum_sectors subs <= 2.
Proof.
  destruct (hdd_read_request_sizes (steady_device 0x58 0)
              (ATA_DEVICE_WHOLEDISK (plain_disk 1000)) 0 1024 5 boot
              ltac:(lia))
    as (r & m' & evs & subs & E & Htr & Hw & _ & Hsum).
  exists r, m', evs, subs.
  split; [exact E |]. split; [exact Htr |]. split; [exact Hw | exact Hsum].
Defined.

(** One sector in flight on a ready disk: 128 words come in, and the
    buffer is still one page. *)
Lemma hdc_ist_transfer_witness :
  exists words m',
    hdc_ist (steady_device 0x58 7) (with_page (waiting (plain_disk 1000) 1))
    = Some (tt, m') /\
    Z.of_nat (length words) = 128 /\
    Z.of_nat (length (flat_map word_bytes words)) = 512 /\
    Z.of_nat (length (buffer (ctl m'))) = BUFFER_LENGTH /\
    irp_error (the_irp (ctl m')) = 0 /\
    active_disk (ctl m') = None.
Proof.
  destruct (hdc_ist_transfer (steady_device 0x58 7) (plain_disk 1000) 1
              (with_page (waiting (plain_disk 1000) 1)))
    as (words & m' & E & _ & Hlen & _ & Hbytes & Hpage & He & Ha & _).
  - repeat split.
  - vm_compute. split; discriminate.
  - vm_compute. reflexivity.
  - reflexivity.
  - reflexivity.
  - exists words, m'.
    split; [exact E |]. split; [exact Hlen |]. split; [exact Hbytes |].
    split; [exact Hpage |]. split; [exact He | exact Ha].
Defined.

(** ** Probing *)

Lemma runs_bind {A B : Type} (x : M A) (f : A -> M B) (m : machine)
    (Q1 : A -> list event -> ata_controller -> Prop)
    (Q : B -> list event -> ata_controller -> Prop) :
  runs x m Q1 ->
  (forall a evs c',
      Q1 a evs c' ->
      runs (f a) {| trace := evs ++ trace m; ctl := c' |}
        (fun b evs2 c2 => Q b (evs2 ++ evs) c2)) ->
  runs (bind x f) m Q.
Proof.
  intros (a & evs & c' & E & H1) Hf.
  destruct (Hf a evs c' H1) as (b & evs2 & c2 & E2 & H2).
  exists b, (evs2 ++ evs), c2. split; [| exact H2].
  unfold bind. rewrite E, E2. cbn [trace]. rewrite app_assoc. reflexivity.
Qed.

Lemma runs_ret {A : Type} (a : A) (m : machine)
    (Q : A -> list event -> ata_controller -> Prop) :
  Q a [] (ctl m) -> runs (ret a) m Q.
Proof.
  intros H. exists a, [], (ctl m). split; [destruct m; reflexivity | exact H].
Qed.

Lemma runs_get_ctl (m : machine) :
  runs get_ctl m (fun c evs c' => c = ctl m /\ evs = [] /\ c' = ctl m).
Proof.
  exists (ctl m), [], (ctl m).
  split; [destruct m; reflexivity | repeat split].
Qed.

Lemma runs_ata_write (channelnum reg val : Z) (m : machine) :
  runs (ata_write channelnum reg val) m
    (fun _ evs c' =>
       evs = [EvWrite8 (base_port (channel_at (ctl m) channelnum) + reg)
                       (to_u8 val)] /\
       c' = ctl m).
Proof. eexists tt, [_], _. split; [reflexivity | split; reflexivity]. Qed.

Lemma runs_write_control (channelnum val : Z) (m : machine) :
  runs (write_control channelnum val) m
    (fun _ evs c' =>
       evs = [EvWrite8 (control_port (channel_at (ctl m) channelnum))
                       (to_u8 val)] /\
       c' = ctl m).
Proof. eexists tt, [_], _. split; [reflexivity | split; reflexivity]. Qed.

Lemma reads_port_quiet (port : Z) (evs : list event) :
  Forall (reads_port port) evs -> bus_writes evs = [] /\ words_read evs = [].
Proof.
  intros H. unfold bus_writes, words_read.
  induction H as [|e evs (v & ->) _ (IHw & IHr)]; [split; reflexivity |].
  cbn [filter is_port_write flat_map app]. split; assumption.
Qed.

Section Setup.

Context {K : kernel_abi}.
Variable P : platform.

Lemma runs_ata_read (channelnum reg : Z) (m : machine) :
  runs (ata_read P channelnum reg) m
    (fun v evs c' =>
       v = to_u8 (bus_in8 P (trace m)
                    (base_port (channel_at (ctl m) channelnum) + reg)) /\
       evs = [EvRead8 (base_port (channel_at (ctl m) channelnum) + reg) v] /\
       c' = ctl m).
Proof.
  eexists _, [_], _. split; [reflexivity |]. repeat split.
Qed.

Lemma runs_read_altstatus (channelnum : Z) (m : machine) :
  runs (read_altstatus P channelnum) m
    (fun v evs c' =>
       v = to_u8 (bus_in8 P (trace m)
                    (control_port (channel_at (ctl m) channelnum))) /\
       evs = [EvRead8 (control_port (channel_at (ctl m) channelnum)) v] /\
       c' = ctl m).
Proof.
  eexists _, [_], _. split; [reflexivity |]. repeat split.
Qed.

Lemma runs_ata_delay400 (channelnum : Z) (m : machine) :
  runs (ata_delay400 P channelnum) m
    (fun _ evs c' =>
       Forall (reads_port (control_port (channel_at (ctl m) channelnum))) evs /\
       c' = ctl m).
Proof.
  eexists tt, [_; _; _; _], _. split; [reflexivity |].
  split; [| reflexivity].
  repeat constructor; eexists; reflexivity.
Qed.

Lemma runs_ata_wait (channelnum : Z) (m : machine) :
  runs (ata_wait P channelnum) m
    (fun _ evs c' =>
       Forall (reads_port (control_port (channel_at (ctl m) channelnum))) evs /\
       c' = ctl m).
Proof.
  unfold ata_wait.
  eapply runs_bind; [apply runs_ata_delay400 |].
  intros _ evs1 c1 (H1 & ->).
  apply runs_bind
    with (Q1 := fun (_ : bool) evs c' =>
                  Forall (reads_port
                            (control_port (channel_at (ctl m) channelnum)))
                    evs /\
                  c' = ctl m).
  - destruct (repeat_until_poll P channelnum 0x80000000%positive
                {| trace := evs1 ++ trace m; ctl := ctl m |})
      as (evs & done & E & Hr & _).
    exists done, evs, (ctl m). split; [exact E |].
    split; [exact Hr | reflexivity].
  - intros done evs2 c2 (H2 & ->). apply runs_ret.
    split; [| reflexivity].
    cbn [app]. apply Forall_app. split; assumption.
Qed.

Lemma runs_ata_pio_read (channelnum count : Z) (m : machine) :
  Z.land count 3 = 0 ->
  runs (ata_pio_read P channelnum count) m
    (fun data evs c' =>
       exists words,
         data = flat_map word_bytes words /\
         evs = rev (map (EvRead32 (base_port (channel_at (ctl m) channelnum)
                                   + ATA_REG_DATA)) words) /\
         length words = Z.to_nat (count / 4) /\
         Forall (fun w => 0 <= w < 2 ^ 32) words /\
         c' = ctl m).
Proof.
  intros Hal. unfold ata_pio_read. rewrite Hal. cbn [Z.eqb].
  destruct (pio_words_words P (Z.to_nat (count / 4))
              (base_port (channel_at (ctl m) channelnum) + ATA_REG_DATA) m)
    as (words & E & Hlen & Hr).
  eexists _, _, _. split; [unfold bind, get_ctl; exact E |].
  exists words. repeat split; assumption.
Qed.

Lemma runs_hdd_setup_io_read (d : ata_disk) (lba count : Z) (m : machine) :
  runs (hdd_setup_io d IO_READ lba count) m
    (fun _ evs c' =>
       evs = rev (read_command_writes (ctl m) d (lba, count)) /\
       c' = with_active_disk (ctl m) (Some d)).
Proof.
  eexists tt, _, _. split; [apply hdd_setup_io_read |].
  split; reflexivity.
Qed.

(** A polled read, event by event: the command, the wait, the status
    read that decides, and then either the error register or the data. *)
Lemma runs_read_during_setup (d : ata_disk) (lba count : Z) (m : machine) :
  let base := base_port (channel_at (ctl m) (channel d)) in
  let command := rev (read_command_writes (ctl m) d (lba, count)) in
  runs (read_during_setup P d lba count) m
    (fun r evs c' =>
       c' = with_active_disk (ctl m) (Some d) /\
       exists tail status waits,
         evs = tail ++ EvRead8 (base + ATA_REG_COMMAND_STATUS) status
                       :: waits ++ command /\
         Forall (reads_port (control_port (channel_at (ctl m) (channel d))))
           waits /\
         status = to_u8 (bus_in8 P (waits ++ command ++ trace m)
                           (base + ATA_REG_COMMAND_STATUS)) /\
         if c_true (Z.land status failure_flags)
         then r = (EIO, []) /\
              exists e, tail = [EvRead8 (base + ATA_REG_ERR) e]
         else exists words,
                r = (0, flat_map word_bytes words) /\
                tail = rev (map (EvRead32 (base + ATA_REG_DATA)) words) /\
                length words
                = Z.to_nat (to_size_t (count * SECTOR_SIZE) / 4) /\
                Forall (fun w => 0 <= w < 2 ^ 32) words).
Proof.
  intros base command. unfold read_during_setup.
  eapply runs_bind; [apply runs_hdd_setup_io_read |].
  intros _ evs1 c1 (-> & ->). fold command.
  eapply runs_bind; [apply runs_ata_wait |].
  intros _ waits c2 (Hw & ->). cbn [ctl trace] in *.
  change (channel_at (with_active_disk (ctl m) (Some d)) (channel d))
    with (channel_at (ctl m) (channel d)) in Hw.
  eapply runs_bind; [apply runs_ata_read |].
  intros status evs3 c3 (Hst & -> & ->). cbn [ctl trace] in *.
  change (channel_at (with_active_disk (ctl m) (Some d)) (channel d))
    with (channel_at (ctl m) (channel d)) in *.
  fold base in Hst |- *.
  fold failure_flags.
  destruct (c_true (Z.land status failure_flags)) eqn:Hfail.
  - eapply runs_bind; [apply runs_ata_read |].
    intros e evs4 c4 (_ & -> & ->). cbn [ctl trace] in *.
    change (channel_at (with_active_disk (ctl m) (Some d)) (channel d))
      with (channel_at (ctl m) (channel d)).
    fold base.
    apply runs_ret. split; [reflexivity |].
    exists [EvRead8 (base + ATA_REG_ERR) e], status, waits.
    split; [reflexivity |]. split; [exact Hw |].
    split; [exact Hst |].
    rewrite Hfail. split; [reflexivity | exists e; reflexivity].
  - eapply runs_bind;
      [apply runs_ata_pio_read; apply sector_bytes_aligned |].
    intros data evs4 c4 (words & -> & -> & Hlen & Hr & ->).
    cbn [ctl trace] in *.
    change (channel_at (with_active_disk (ctl m) (Some d)) (channel d))
      with (channel_at (ctl m) (channel d)).
    fold base.
    apply runs_ret. split; [reflexivity |].
    exists (rev (map (EvRead32 (base + ATA_REG_DATA)) words)), status, waits.
    split; [cbn [app]; rewrite <- !app_assoc; reflexivity |].
    split; [exact Hw |].
    split; [exact Hst |].
    rewrite Hfail. exists words. repeat split; assumption.
Qed.

End Setup.

Lemma filter_none {A : Type} (f : A -> bool) (l : list A) :
  (forall x, In x l -> f x = false) -> filter f l = [].
Proof.
  induction l as [|a l IH]; intros H; [reflexivity |].
  cbn [filter]. rewrite (H a (or_introl eq_refl)).
  apply IH. intros x Hx. apply H. right. exact Hx.
Qed.

Lemma bus_writes_data (port : Z) (words : list Z) :
  bus_writes (rev (map (EvRead32 port) words)) = [].
Proof.
  apply bus_writes_quiet. apply filter_none.
  intros x Hx. apply in_rev in Hx. apply in_map_iff in Hx.
  destruct Hx as (w & <- & _). reflexivity.
Qed.

Lemma flat_map_word_bytes_length (ws : list Z) :
  length (flat_map word_bytes ws) = (4 * length ws)%nat.
Proof.
  induction ws as [|w ws IHw]; [reflexivity |].
  cbn [flat_map]. rewrite length_app, IHw. cbn [word_bytes length]. lia.
Qed.

Lemma flat_map_word_bytes_range (ws : list Z) :
  Forall (fun b => 0 <= b < 256) (flat_map word_bytes ws).
Proof.
  induction ws as [|w ws IHw]; [constructor |].
  cbn [flat_map]. apply Forall_app. split; [apply word_bytes_range | exact IHw].
Qed.

(** What a polled read leaves in the log, seen through the observers. *)
Lemma polled_read_log (tail waits command : list event) (e : event)
    (port : Z) :
  is_port_write e = false ->
  words_read [e] = [] ->
  Forall (reads_port port) waits ->
  forallb is_port_write command = true ->
  bus_writes (tail ++ e :: waits ++ rev command)
  = command ++ bus_writes tail /\
  words_read (tail ++ e :: waits ++ rev command) = words_read tail.
Proof.
  intros He Hew Hw Hc.
  destruct (reads_port_quiet port waits Hw) as (Hww & Hwr).
  change (e :: waits ++ rev command) with ([e] ++ waits ++ rev command).
  rewrite !bus_writes_app, !words_read_app.
  rewrite Hww, Hwr, Hew, (bus_writes_rev_writes command Hc),
    (words_read_writes command Hc).
  split; [| reflexivity].
  rewrite !app_nil_r.
  replace (bus_writes [e]) with (@nil event);
    [rewrite app_nil_r; reflexivity |].
  unfold bus_writes. cbn [filter]. rewrite He. reflexivity.
Qed.

Section PolledRead.

Context {K : kernel_abi}.
Variable P : platform.

(** A polled read, as the observers of the log see it. *)
Lemma read_during_setup_summary (d : ata_disk) (lba count : Z)
    (m : machine) :
  runs (read_during_setup P d lba count) m
    (fun r evs c' =>
       c' = with_active_disk (ctl m) (Some d) /\
       bus_writes evs = read_command_writes (ctl m) d (lba, count) /\
       snd r = bytes_read evs /\
       Forall (fun b => 0 <= b < 256) (snd r) /\
       ((fst r = EIO /\ snd r = [])
        \/
        (fst r = 0 /\
         length (snd r) = Z.to_nat (to_size_t (count * SECTOR_SIZE))))).
Proof.
  destruct (runs_read_during_setup P d lba count m)
    as (r & evs & c' & E & -> & tail & status & waits & Hevs & Hw & _ & Hr).
  exists r, evs, (with_active_disk (ctl m) (Some d)). split; [exact E |].
  split; [reflexivity |].
  assert (Hlog : bus_writes evs
                 = read_command_writes (ctl m) d (lba, count)
                   ++ bus_writes tail /\
                 words_read evs = words_read tail).
  { rewrite Hevs. apply polled_read_log
      with (port := control_port (channel_at (ctl m) (channel d)));
      [reflexivity | reflexivity | exact Hw
      | apply read_command_writes_are_writes]. }
  destruct Hlog as (Hbw & Hwr). unfold bytes_read. rewrite Hbw, Hwr.
  destruct (c_true (Z.land status failure_flags)).
  - destruct Hr as (-> & e & ->). cbn [fst snd].
    split; [apply app_nil_r |]. split; [reflexivity |].
    split; [constructor |]. left. split; reflexivity.
  - destruct Hr as (words & -> & -> & Hlen & _). cbn [fst snd].
    rewrite bus_writes_data, words_read_data.
    split; [apply app_nil_r |]. split; [reflexivity |].
    split; [apply flat_map_word_bytes_range |].
    right. split; [reflexivity |].
    rewrite flat_map_word_bytes_length, Hlen.
    apply sector_bytes_aligned.
Qed.

(** X9.  [read_during_setup] always returns.  It sends one READ command
    for [count] sectors at [lba], polls the alternate status register,
    and then reads the status register once.  If that status shows
    ERROR or DEVICE_FAILURE it reads the error register, returns [EIO]
    and no data port is read; otherwise it returns 0 with the
    [512 * count] bytes of the words it reads from the data port.
    Either way the disk is left as the controller's active disk, and
    the request record and the bounce buffer are not touched. *)
Theorem read_during_setup_polled (d : ata_disk) (lba count : Z)
    (m : machine) :
  0 <= count < 2 ^ 23 ->
  let base := base_port (channel_at (ctl m) (channel d)) in
  let command := read_command_writes (ctl m) d (lba, count) in
  exists err data evs,
    read_during_setup P d lba count m
    = Some ((err, data),
            {| trace := evs ++ trace m;
               ctl := with_active_disk (ctl m) (Some d) |}) /\
    bus_writes evs = command /\
    data = bytes_read evs /\
    Forall (fun b => 0 <= b < 256) data /\
    exists tail status waits,
      evs = tail ++ EvRead8 (base + ATA_REG_COMMAND_STATUS) status
                    :: waits ++ rev command /\
      Forall (reads_port (control_port (channel_at (ctl m) (channel d))))
        waits /\
      ((Z.land status failure_flags <> 0 /\ err = EIO /\ data = [] /\
        exists e, tail = [EvRead8 (base + ATA_REG_ERR) e])
       \/
       (Z.land status failure_flags = 0 /\ err = 0 /\
        Z.of_nat (length data) = 512 * count /\
        tail = rev (map (EvRead32 (base + ATA_REG_DATA)) (words_read evs)))).
Proof.
  intros Hc base command.
  destruct (runs_read_during_setup P d lba count m)
    as (r & evs & c' & E & -> & tail & status & waits & Hevs & Hw & _ & Hr).
  fold base in Hevs, Hr. fold command in Hevs.
  assert (Hcmd : forallb is_port_write command = true)
    by apply read_command_writes_are_writes.
  assert (Hlog : bus_writes evs = command ++ bus_writes tail /\
                 words_read evs = words_read tail).
  { rewrite Hevs. apply polled_read_log
      with (port := control_port (channel_at (ctl m) (channel d)));
      [reflexivity | reflexivity | exact Hw | exact Hcmd]. }
  destruct Hlog as (Hbw & Hwr).
  destruct (c_true (Z.land status failure_flags)) eqn:Hfail.
  - destruct Hr as (-> & e & ->).
    exists EIO, [], evs. split; [exact E |].
    split; [rewrite Hbw; apply app_nil_r |].
    split; [unfold bytes_read; rewrite Hwr; reflexivity |].
    split; [constructor |].
    exists [EvRead8 (base + ATA_REG_ERR) e], status, waits.
    split; [exact Hevs |]. split; [exact Hw |].
    left. apply c_true_iff in Hfail.
    split; [exact Hfail |]. split; [reflexivity |]. split; [reflexivity |].
    exists e. reflexivity.
  - destruct Hr as (words & -> & -> & Hlen & Hrange).
    rewrite words_read_data in Hwr. rewrite bus_writes_data in Hbw.
    exists 0, (flat_map word_bytes words), evs. split; [exact E |].
    split; [rewrite Hbw; apply app_nil_r |].
    split; [unfold bytes_read; rewrite Hwr; reflexivity |].
    split; [apply flat_map_word_bytes_range |].
    exists (rev (map (EvRead32 (base + ATA_REG_DATA)) words)), status, waits.
    split; [exact Hevs |]. split; [exact Hw |].
    right. apply c_true_false_iff in Hfail.
    split; [exact Hfail |]. split; [reflexivity |].
    split; [| rewrite Hwr; reflexivity].
    rewrite flat_map_word_bytes_length, Hlen.
    destruct (sector_bytes_aligned count) as (_ & Hal). rewrite Hal.
    unfold to_size_t, SECTOR_SIZE. rewrite to_u32_small by lia. lia.
Qed.

End PolledRead.

(** One sector from a ready disk: 512 bytes and no error. *)
Lemma read_during_setup_polled_witness :
  exists err data m',
    read_during_setup (steady_device 0x58 7) (plain_disk 1000) 0 1 boot
    = Some ((err, data), m') /\
    bus_writes (trace m')
    = read_command_writes hd0 (plain_disk 1000) (0, 1) /\
    data = bytes_read (trace m').
Proof.
  destruct (read_during_setup_polled (steady_device 0x58 7)
              (plain_disk 1000) 0 1 boot ltac:(lia))
    as (err & data & evs & E & Hw & Hd & _).
  exists err, data. eexists. split; [exact E |].
  cbn [trace boot]. rewrite app_nil_r. split; [exact Hw | exact Hd].
Defined.

(** ** The partitions of a disk *)

Lemma le_value_range (bs : list Z) :
  Forall (fun b => 0 <= b < 256) bs ->
  0 <= le_value bs < 256 ^ Z.of_nat (length bs).
Proof.
  induction 1 as [|b bs Hb _ IH]; [cbn; lia |].
  cbn [le_value length]. rewrite Nat2Z.inj_succ, Z.pow_succ_r by lia. lia.
Qed.

Lemma load_u32_range (buf : list Z) (off : nat) :
  Forall (fun b => 0 <= b < 256) buf -> 0 <= load_u32 buf off < 2 ^ 32.
Proof.
  intros H. unfold load_u32, memcpy_bytes.
  set (bs := firstn 4 (skipn off buf)).
  assert (Hbs : Forall (fun b => 0 <= b < 256) bs).
  { apply Forall_forall. intros x Hx. rewrite Forall_forall in H. apply H.
    rewrite <- (firstn_skipn off buf). apply in_or_app. right.
    rewrite <- (firstn_skipn 4 (skipn off buf)). apply in_or_app. left.
    exact Hx. }
  assert (Hlen : (length bs <= 4)%nat) by apply firstn_le_length.
  pose proof (le_value_range bs Hbs) as Hv.
  assert (256 ^ Z.of_nat (length bs) <= 256 ^ 4)
    by (apply Z.pow_le_mono_r; lia).
  change (2 ^ 32) with (256 ^ 4). lia.
Qed.

Lemma nth_byte_range (buf : list Z) (i : nat) :
  Forall (fun b => 0 <= b < 256) buf -> 0 <= nth i buf 0 < 256.
Proof.
  intros H. destruct (Nat.lt_ge_cases i (length buf)) as [Hi | Hi].
  - rewrite Forall_forall in H. apply H. apply nth_In. exact Hi.
  - rewrite nth_overflow by exact Hi. lia.
Qed.

Lemma append_inj_l (s a b : string) :
  String.append s a = String.append s b -> a = b.
Proof.
  induction s as [|c s IH]; cbn [String.append]; intros H; [exact H |].
  injection H as H. apply IH. exact H.
Qed.

(** The four names a disk's partitions can get differ from one another. *)
Lemma partition_devname_distinct {K : kernel_abi} (devname : string)
    (i j : Z) :
  0 <= i < 4 -> 0 <= j < 4 -> i <> j ->
  partition_devname devname i <> partition_devname devname j.
Proof.
  intros Hi Hj Hne H. unfold partition_devname in H.
  apply append_inj_l in H.
  assert (Ci : i = 0 \/ i = 1 \/ i = 2 \/ i = 3) by lia.
  assert (Cj : j = 0 \/ j = 1 \/ j = 2 \/ j = 3) by lia.
  destruct Ci as [-> | [-> | [-> | ->]]];
    destruct Cj as [-> | [-> | [-> | ->]]];
    first [ contradiction Hne; reflexivity | vm_compute in H; discriminate H ].
Qed.

(** What a slot gives when it gives a partition. *)
Lemma scan_slot_Some {K : kernel_abi} (d : ata_disk) (sector0 : list Z)
    (k : Z) (p : ata_partition) :
  scan_slot d sector0 k = Some p ->
  part_disk p = d /\
  part_devname p = partition_devname (disk_devname d) k /\
  system_id p <> 0 /\ start_lba p <> 0 /\ part_sector_count p <> 0 /\
  (Forall (fun b => 0 <= b < 256) sector0 ->
   0 <= system_id p < 256 /\ 0 <= start_lba p < 2 ^ 32 /\
   0 <= part_sector_count p < 2 ^ 32).
Proof.
  unfold scan_slot.
  set (off := Z.to_nat (0x1be + k * 16)).
  destruct (load_u32 sector0 (off + 8) =? 0) eqn:E1; [discriminate |].
  destruct (load_u32 sector0 (off + 12) =? 0) eqn:E2; [discriminate |].
  destruct (nth (off + 4) sector0 0 =? 0) eqn:E3; [discriminate |].
  cbn [orb]. intros H. injection H as <-.
  cbn [part_disk part_devname system_id start_lba part_sector_count].
  apply Z.eqb_neq in E1, E2, E3.
  repeat (split; [first [reflexivity | assumption] |]).
  intros Hb.
  split; [apply nth_byte_range; exact Hb |].
  split; apply load_u32_range; exact Hb.
Qed.

(** The loop over the four slots keeps to the table: what every
    partition it makes carries. *)
Lemma scan_slots_sound {K : kernel_abi} (d : ata_disk)
    (sector0 : list Z) :
  Forall (fun b => 0 <= b < 256) sector0 ->
  let parts := scan_slots 4 0 d sector0 [] in
  (length parts <= 4)%nat /\
  Forall (fun p => part_disk p = d /\
                   0 < system_id p < 256 /\
                   0 < start_lba p < 2 ^ 32 /\
                   0 < part_sector_count p < 2 ^ 32) parts /\
  NoDup (map part_devname parts).
Proof.
  intros Hb parts. subst parts.
  cbn [scan_slots]. change (0 + 1) with 1. change (1 + 1) with 2.
  change (2 + 1) with 3.
  pose proof (scan_slot_Some d sector0 0) as H0.
  pose proof (scan_slot_Some d sector0 1) as H1.
  pose proof (scan_slot_Some d sector0 2) as H2.
  pose proof (scan_slot_Some d sector0 3) as H3.
  pose proof (partition_devname_distinct (disk_devname d) 0 1) as D01.
  pose proof (partition_devname_distinct (disk_devname d) 0 2) as D02.
  pose proof (partition_devname_distinct (disk_devname d) 0 3) as D03.
  pose proof (partition_devname_distinct (disk_devname d) 1 2) as D12.
  pose proof (partition_devname_distinct (disk_devname d) 1 3) as D13.
  pose proof (partition_devname_distinct (disk_devname d) 2 3) as D23.
  specialize (D01 ltac:(lia) ltac:(lia) ltac:(lia)).
  specialize (D02 ltac:(lia) ltac:(lia) ltac:(lia)).
  specialize (D03 ltac:(lia) ltac:(lia) ltac:(lia)).
  specialize (D12 ltac:(lia) ltac:(lia) ltac:(lia)).
  specialize (D13 ltac:(lia) ltac:(lia) ltac:(lia)).
  specialize (D23 ltac:(lia) ltac:(lia) ltac:(lia)).
  assert (Hok : forall k p,
             (forall q, Some p = Some q ->
                part_disk q = d /\
                part_devname q = partition_devname (disk_devname d) k /\
                system_id q <> 0 /\ start_lba q <> 0 /\
                part_sector_count q <> 0 /\
                (Forall (fun b => 0 <= b < 256) sector0 ->
                 0 <= system_id q < 256 /\ 0 <= start_lba q < 2 ^ 32 /\
                 0 <= part_sector_count q < 2 ^ 32)) ->
             part_devname p = partition_devname (disk_devname d) k /\
             (part_disk p = d /\ 0 < system_id p < 256 /\
              0 < start_lba p < 2 ^ 32 /\ 0 < part_sector_count p < 2 ^ 32)).
  { intros k p H. destruct (H p eq_refl) as (Hd & Hn & Hi & Hs & Hc & Hr).
    destruct (Hr Hb) as (Ri & Rs & Rc).
    split; [exact Hn |]. split; [exact Hd |]. lia. }
  destruct (scan_slot d sector0 0) as [p0 |];
    [apply Hok in H0; destruct H0 as (N0 & F0) | clear H0];
    (destruct (scan_slot d sector0 1) as [p1 |];
     [apply Hok in H1; destruct H1 as (N1 & F1) | clear H1]);
    (destruct (scan_slot d sector0 2) as [p2 |];
     [apply Hok in H2; destruct H2 as (N2 & F2) | clear H2]);
    (destruct (scan_slot d sector0 3) as [p3 |];
     [apply Hok in H3; destruct H3 as (N3 & F3) | clear H3]);
    cbn [app length map];
    (split; [lia |]);
    (split; [repeat (apply Forall_cons; [assumption |]); apply Forall_nil |]);
    rewrite ?N0, ?N1, ?N2, ?N3;
    repeat (apply NoDup_cons; [cbn [In]; intuition congruence |]);
    apply NoDup_nil.
Qed.

(** X10.  The partitions the scanner makes of a sector: four at most;
    each belongs to the disk scanned and has a system id, a first sector
    and a sector count that are not zero, within the range of their
    fields; and no two of them have the same device name. *)
Theorem scan_partition_table_entries {K : kernel_abi} (d : ata_disk)
    (sector0 : list Z) :
  Forall (fun b => 0 <= b < 256) sector0 ->
  let parts := scan_partition_table d sector0 in
  (length parts <= 4)%nat /\
  Forall (fun p => part_disk p = d /\
                   0 < system_id p < 256 /\
                   0 < start_lba p < 2 ^ 32 /\
                   0 < part_sector_count p < 2 ^ 32) parts /\
  NoDup (map part_devname parts).
Proof.
  intros Hb parts. subst parts. unfold scan_partition_table.
  destruct (0xaa55 =? load_u16 sector0 (Z.to_nat (SECTOR_SIZE - 2))).
  - (* a boot sector: the four slots *)
    exact (scan_slots_sound d sector0 Hb).
  - (* no signature, no partition *)
    split; [cbn [length]; lia |]. split; constructor.
Qed.

(** The boot sector with one partition gives one partition, of the
    disk, with fields in range. *)
Lemma scan_partition_table_entries_witness :
  (length (scan_partition_table (plain_disk 5000000) sector0_one_partition)
   <= 4)%nat /\
  NoDup (map part_devname
           (scan_partition_table (plain_disk 5000000) sector0_one_partition)).
Proof.
  assert (Hb : Forall (fun b => 0 <= b < 256) sector0_one_partition).
  { apply Forall_forall. intros x Hx.
    assert (Hin : In x (0 :: 0x83 :: 0x08 :: 0x40 :: 0x42 :: 0x0F
                          :: 0x55 :: 0xAA :: nil)).
    { unfold sector0_one_partition in Hx.
      repeat (apply in_app_or in Hx; destruct Hx as [Hx | Hx]);
        try (apply repeat_spec in Hx; subst x; left; reflexivity);
        cbn [In] in Hx |- *; intuition auto. }
    cbn [In] in Hin. intuition (subst; lia). }
  destruct (scan_partition_table_entries (plain_disk 5000000)
              sector0_one_partition Hb) as (Hlen & _ & Hnd).
  split; [exact Hlen | exact Hnd].
Defined.

(** ** Probing a disk *)

Lemma bus_writes_reads (port : Z) (v : Z) : bus_writes [EvRead8 port v] = [].
Proof. reflexivity. Qed.

Lemma words_read_one_read (port : Z) (v : Z) :
  words_read [EvRead8 port v] = [].
Proof. reflexivity. Qed.

Lemma bus_writes_one_write (port : Z) (v : Z) :
  bus_writes [EvWrite8 port v] = [EvWrite8 port v].
Proof. reflexivity. Qed.

Lemma words_read_one_write (port : Z) (v : Z) :
  words_read [EvWrite8 port v] = [].
Proof. reflexivity. Qed.

Lemma bus_writes_nil : bus_writes [] = [].
Proof. reflexivity. Qed.

Lemma words_read_nil : words_read [] = [].
Proof. reflexivity. Qed.

(** Read the port writes and the data words off a log put together
    from pieces. *)
Ltac observe :=
  unfold bytes_read;
  rewrite ?bus_writes_app, ?words_read_app;
  rewrite ?bus_writes_one_write, ?bus_writes_reads, ?words_read_one_write,
    ?words_read_one_read, ?bus_writes_nil, ?words_read_nil,
    ?bus_writes_data, ?words_read_data;
  repeat match goal with
         | H : bus_writes ?e = _ |- context [bus_writes ?e] => rewrite H
         | H : words_read ?e = _ |- context [words_read ?e] => rewrite H
         end;
  cbn [app flat_map].

Section Discovery.

Context {K : kernel_abi}.
Variable P : platform.

(** Reading the partition table: one polled read of sector 0, and the
    scan of what it gave. *)
Lemma runs_setup_partitions (d : ata_disk) (m : machine) :
  runs (setup_partitions P d) m
    (fun parts evs c' =>
       c' = with_active_disk (ctl m) (Some d) /\
       bus_writes evs = read_command_writes (ctl m) d (0, 1) /\
       Forall (fun b => 0 <= b < 256) (bytes_read evs) /\
       ((parts = [] /\ bytes_read evs = [])
        \/
        (parts = scan_partition_table d (bytes_read evs) /\
         length (bytes_read evs) = 512%nat))).
Proof.
  unfold setup_partitions.
  apply runs_bind
    with (Q1 := fun (r : Z * list Z) evs c' =>
                  c' = with_active_disk (ctl m) (Some d) /\
                  bus_writes evs = read_command_writes (ctl m) d (0, 1) /\
                  snd r = bytes_read evs /\
                  Forall (fun b => 0 <= b < 256) (snd r) /\
                  ((fst r = EIO /\ snd r = [])
                   \/ (fst r = 0 /\ Z.of_nat (length (snd r)) = 512 * 1))).
  - destruct (read_during_setup_summary P d 0 1 m)
      as (r & evs & c' & E & Hc & Hw & Hd & Hb & Hcase).
    exists r, evs, c'. split; [exact E |].
    split; [exact Hc |]. split; [exact Hw |]. split; [exact Hd |].
    split; [exact Hb |].
    destruct Hcase as [Hfail | (He & Hlen)]; [left; exact Hfail | right].
    split; [exact He |]. rewrite Hlen. reflexivity.
  - intros [err data] evs c' (-> & Hw & Hd & Hb & Hcase). cbn [fst snd] in *.
    destruct Hcase as [(-> & ->) | (-> & Hlen)].
    + assert (Herr : c_true EIO = true) by (apply c_true_iff, EIO_nonzero).
      rewrite Herr. apply runs_ret. cbn [app].
      rewrite <- Hd.
      split; [reflexivity |]. split; [exact Hw |].
      split; [constructor |]. left. split; reflexivity.
    + change (c_true 0) with false. cbv iota. apply runs_ret. cbn [app].
      rewrite <- Hd.
      split; [reflexivity |]. split; [exact Hw |].
      split; [exact Hb |]. right. split; [reflexivity | lia].
Qed.

(** The probe of one disk, as the observers of the log see it. *)
Lemma runs_setup_disk (disknum : Z) (m : machine) :
  runs (setup_disk P disknum) m
    (fun r evs c' =>
       match r with
       | None =>
           c' = ctl m /\
           bus_writes evs = identify_writes (ctl m) disknum /\
           (bytes_read evs = [] \/ length (bytes_read evs) = 512%nat)
       | Some (d, parts) =>
           c' = with_active_disk (ctl m) (Some d) /\
           bus_writes evs
           = identify_writes (ctl m) disknum
             ++ read_command_writes (ctl m) d (0, 1) /\
           channel d = Z.shiftr disknum 1 /\
           slave d = Z.land disknum 1 /\
           lba_supported d = true /\
           dma_supported d = true /\
           disk_devname d
           = String.append (String.substring 0 3 (ctl_devname (ctl m)))
               (String.String (char_of 100)
                  (String.String (char_of (zero_char + disknum))
                     String.EmptyString)) /\
           length (identification_space d) = 512%nat /\
           Forall (fun b => 0 <= b < 256) (bytes_read evs) /\
           ((parts = [] /\ bytes_read evs = identification_space d)
            \/
            exists sector0,
              length sector0 = 512%nat /\
              bytes_read evs = identification_space d ++ sector0 /\
              parts = scan_partition_table d sector0)
       end).
Proof.
  unfold setup_disk.
  set (ch := Z.shiftr disknum 1).
  set (base := base_port (channel_at (ctl m) ch)).
  eapply runs_bind; [apply runs_get_ctl |].
  intros c e0 c0 (-> & -> & ->). cbn [ctl trace].
  eapply runs_bind; [apply runs_ata_write |].
  intros _ e1 c1 (-> & ->). cbn [ctl trace].
  eapply runs_bind; [apply runs_ata_delay400 |].
  intros _ e2 c2 (H2 & ->). cbn [ctl trace] in *.
  eapply runs_bind; [apply runs_ata_write |].
  intros _ e3 c3 (-> & ->). cbn [ctl trace].
  eapply runs_bind; [apply runs_ata_write |].
  intros _ e4 c4 (-> & ->). cbn [ctl trace].
  eapply runs_bind; [apply runs_ata_write |].
  intros _ e5 c5 (-> & ->). cbn [ctl trace].
  eapply runs_bind; [apply runs_ata_write |].
  intros _ e6 c6 (-> & ->). cbn [ctl trace].
  eapply runs_bind; [apply runs_ata_write |].
  intros _ e7 c7 (-> & ->). cbn [ctl trace].
  eapply runs_bind; [apply runs_ata_delay400 |].
  intros _ e8 c8 (H8 & ->). cbn [ctl trace] in *.
  eapply runs_bind; [apply runs_ata_read |].
  intros st e9 c9 (_ & -> & ->). cbn [ctl trace] in *.
  fold base in H2, H8 |- *.
  destruct (reads_port_quiet _ _ H2) as (W2 & R2).
  destruct (reads_port_quiet _ _ H8) as (W8 & R8).
  destruct (st =? 0).
  { apply runs_ret. split; [reflexivity |].
    split; [observe; reflexivity | left; observe; reflexivity]. }
  eapply runs_bind; [apply runs_ata_wait |].
  intros _ e10 c10 (H10 & ->). cbn [ctl trace] in *.
  destruct (reads_port_quiet _ _ H10) as (W10 & R10).
  eapply runs_bind; [apply runs_read_altstatus |].
  intros alt e11 c11 (_ & -> & ->). cbn [ctl trace] in *.
  destruct (c_true (Z.land alt ATA_STATUS_FLAG_ERROR)).
  { apply runs_ret. split; [reflexivity |].
    split; [observe; reflexivity | left; observe; reflexivity]. }
  eapply runs_bind; [apply runs_ata_pio_read; reflexivity |].
  intros ids e12 c12 (words & -> & -> & Hlen & Hr & ->). cbn [ctl trace] in *.
  fold base.
  change (Z.to_nat (512 / 4)) with 128%nat in Hlen.
  assert (Hids : length (flat_map word_bytes words) = 512%nat)
    by (rewrite flat_map_word_bytes_length, Hlen; reflexivity).
  set (ids := flat_map word_bytes words) in *.
  destruct (c_true (Z.land (nth 99 ids 0) 2)) eqn:Hlba; cbn [negb];
    [| apply runs_ret; split; [reflexivity |];
       split; [observe; reflexivity |];
       right; observe; rewrite app_nil_r; exact Hids].
  destruct (c_true (Z.land (nth 99 ids 0) 1)) eqn:Hdma; cbn [negb];
    [| apply runs_ret; split; [reflexivity |];
       split; [observe; reflexivity |];
       right; observe; rewrite app_nil_r; exact Hids].
  match goal with
  | |- runs (bind (setup_partitions P ?disk) _) _ _ => set (d := disk)
  end.
  eapply runs_bind; [apply runs_setup_partitions |].
  intros parts e13 c13 (-> & W13 & B13 & Hparts). cbn [ctl trace] in *.
  apply runs_ret.
  split; [reflexivity |].
  assert (Hbytes : bytes_read
                     ((([] ++ e13) ++
                       rev (map (EvRead32 (base + ATA_REG_DATA)) words)) ++
                      [EvRead8 (control_port (channel_at (ctl m) ch)) alt])
                   = ids ++ bytes_read e13).
  { unfold bytes_read. rewrite !words_read_app, words_read_one_read,
      words_read_data, words_read_nil. cbn [app].
    rewrite app_nil_r, flat_map_app. reflexivity. }
  split; [observe; reflexivity |].
  split; [reflexivity |]. split; [reflexivity |].
  split; [reflexivity |]. split; [reflexivity |].
  split; [reflexivity |]. split; [exact Hids |].
  assert (Hall : bytes_read
                   (((((((((((((([] ++ e13) ++
                     rev (map (EvRead32 (base + ATA_REG_DATA)) words)) ++
                     [EvRead8 (control_port (channel_at (ctl m) ch)) alt]) ++
                     e10) ++
                     [EvRead8 (base + ATA_REG_COMMAND_STATUS) st]) ++ e8) ++
                     [EvWrite8 (base + ATA_REG_COMMAND_STATUS) (to_u8 236)]) ++
                     [EvWrite8 (base + ATA_REG_LBA_HIGH) (to_u8 0)]) ++
                     [EvWrite8 (base + ATA_REG_LBA_MID) (to_u8 0)]) ++
                     [EvWrite8 (base + ATA_REG_LBA_LOW) (to_u8 0)]) ++
                     [EvWrite8 (base + ATA_REG_SECTOR_COUNT) (to_u8 0)]) ++
                     e2) ++
                     [EvWrite8 (base + ATA_REG_DISK_SELECT)
                        (to_u8 (Z.lor 160 (Z.shiftl (Z.land disknum 1) 4)))])
                    ++ [])
                 = ids ++ bytes_read e13).
  { rewrite <- Hbytes. unfold bytes_read. f_equal.
    rewrite !words_read_app, R2, R8, R10.
    rewrite !words_read_one_write, !words_read_one_read, !words_read_nil.
    cbn [app]. rewrite !app_nil_r. reflexivity. }
  rewrite Hall.
  split.
  { apply Forall_app. split; [apply flat_map_word_bytes_range | exact B13]. }
  destruct Hparts as [(-> & Hnone) | (-> & Hsome)].
  - left. split; [reflexivity |]. rewrite Hnone. apply app_nil_r.
  - right. exists (bytes_read e13).
    split; [exact Hsome |]. split; reflexivity.
Qed.


(** X11.  The probe of a disk always returns, and what it writes to the
    ports is fixed by its outcome.  A disk that is dropped gets the six
    writes of IDENTIFY and nothing more, and the controller is left as
    it was.  A disk that is admitted gets the same six writes and then
    one READ command for sector 0, its partition table; it is left as
    the controller's active disk, and nothing else of the controller is
    changed. *)
Theorem setup_disk_bus_traffic (disknum : Z) (m : machine) :
  exists r evs c',
    setup_disk P disknum m
    = Some (r, {| trace := evs ++ trace m; ctl := c' |}) /\
    match r with
    | None =>
        c' = ctl m /\
        bus_writes evs = identify_writes (ctl m) disknum
    | Some (d, _) =>
        c' = with_active_disk (ctl m) (Some d) /\
        bus_writes evs
        = identify_writes (ctl m) disknum
          ++ read_command_writes (ctl m) d (0, 1)
    end.
Proof.
  destruct (runs_setup_disk disknum m) as (r & evs & c' & E & H).
  exists r, evs, c'. split; [exact E |].
  destruct r as [[d parts] |].
  - destruct H as (Hc & Hw & _). split; assumption.
  - destruct H as (Hc & Hw & _). split; assumption.
Qed.

(** X12.  A disk that the probe admits: it sits on channel
    [disknum >> 1] as device [disknum & 1], it supports LBA and DMA,
    it is named after the first three characters of the controller's
    name, "d" and the digit of [disknum], and its identification space
    is the first 512 bytes read from the data port.  Its partitions are
    none, or those the scanner makes of the next 512 bytes read; there
    are four at most, each belongs to this disk and has a first sector
    and a sector count between 1 and 2^32 - 1, and no two have the same
    device name. *)
Theorem setup_disk_admitted (disknum : Z) (m : machine) :
  exists r evs c',
    setup_disk P disknum m
    = Some (r, {| trace := evs ++ trace m; ctl := c' |}) /\
    forall d parts,
      r = Some (d, parts) ->
      channel d = Z.shiftr disknum 1 /\
      slave d = Z.land disknum 1 /\
      lba_supported d = true /\
      dma_supported d = true /\
      disk_devname d
      = String.append (String.substring 0 3 (ctl_devname (ctl m)))
          (String.String (char_of 100)
             (String.String (char_of (zero_char + disknum))
                String.EmptyString)) /\
      identification_space d = firstn 512 (bytes_read evs) /\
      (parts = [] \/
       parts = scan_partition_table d (skipn 512 (bytes_read evs))) /\
      (length parts <= 4)%nat /\
      Forall (fun p => part_disk p = d /\
                       0 < start_lba p < 2 ^ 32 /\
                       0 < part_sector_count p < 2 ^ 32) parts /\
      NoDup (map part_devname parts).
Proof.
  destruct (runs_setup_disk disknum m) as (r & evs & c' & E & H).
  exists r, evs, c'. split; [exact E |].
  intros d parts ->.
  destruct H as (_ & _ & Hch & Hsl & Hlba & Hdma & Hname & Hlen & Hb & Hp).
  do 5 (split; [assumption |]).
  assert (Hparts :
            exists sector0,
              Forall (fun b => 0 <= b < 256) sector0 /\
              bytes_read evs = identification_space d ++ sector0 /\
              (parts = [] \/ parts = scan_partition_table d sector0)).
  { destruct Hp as [(-> & Hnone) | (sector0 & Hl0 & Hsome & ->)].
    - exists []. split; [constructor |].
      split; [rewrite app_nil_r; exact Hnone | left; reflexivity].
    - exists sector0. rewrite Hsome in Hb. apply Forall_app in Hb.
      split; [apply Hb |]. split; [exact Hsome | right; reflexivity]. }
  destruct Hparts as (sector0 & Hb0 & Hbytes & Hscan).
  rewrite Hbytes.
  rewrite <- Hlen at 1. rewrite firstn_app, Nat.sub_diag, firstn_all.
  cbn [firstn]. rewrite app_nil_r.
  split; [reflexivity |].
  rewrite <- Hlen. rewrite skipn_app, Nat.sub_diag, skipn_all.
  cbn [skipn app].
  split; [exact Hscan |].
  destruct Hscan as [-> | ->].
  - split; [cbn; lia |]. split; constructor.
  - unfold scan_partition_table.
    destruct (0xaa55 =? _); [| split; [cbn; lia | split; constructor]].
    destruct (scan_slots_sound d sector0 Hb0) as (Hn & Hall & Hnd).
    split; [exact Hn |]. split; [| exact Hnd].
    apply Forall_forall. intros p Hin. rewrite Forall_forall in Hall.
    destruct (Hall p Hin) as (Hd & _ & Hs & Hc).
    split; [exact Hd |]. split; assumption.
Qed.

End Discovery.

(** The disk of 2^32 sectors is admitted on channel 0 as device 0 and
    named "hd0d0". *)
Lemma setup_disk_admitted_witness :
  exists d parts m',
    setup_disk (scripted_disk id_words_lba48) 0 boot
    = Some (Some (d, parts), m') /\
    channel d = 0 /\ slave d = 0 /\ disk_devname d = "hd0d0"%string /\
    (length parts <= 4)%nat.
Proof.
  destruct (setup_disk_admitted (scripted_disk id_words_lba48) 0 boot)
    as (r & evs & c' & E & Hr).
  destruct r as [[d parts] |]; [| vm_compute in E; discriminate E].
  destruct (Hr d parts eq_refl)
    as (Hch & Hsl & _ & _ & Hname & _ & _ & Hn & _).
  exists d, parts. eexists. split; [exact E |].
  split; [exact Hch |]. split; [exact Hsl |].
  split; [exact Hname | exact Hn].
Defined.

(** ** Attaching a controller *)

Lemma probe_writes_active (c : ata_controller) (a : option ata_disk)
    (probe : Z * option (ata_disk * list ata_partition)) :
  probe_writes (with_active_disk c a) probe = probe_writes c probe.
Proof. destruct probe as [k [[d parts] |]]; reflexivity. Qed.

Lemma with_active_disk_same (c : ata_controller) :
  with_active_disk c (active_disk c) = c.
Proof. destruct c. reflexivity. Qed.

Lemma runs_set_ctl (c : ata_controller) (m : machine) :
  runs (set_ctl c) m (fun _ evs c' => evs = [] /\ c' = c).
Proof. exists tt, [], c. split; [reflexivity | split; reflexivity]. Qed.

Lemma last_cons {A : Type} (x : A) (l : list A) (d : A) :
  last (x :: l) d = last l x.
Proof.
  revert x d. induction l as [|y l IH]; intros x d; [reflexivity |].
  change (last (x :: y :: l) d) with (last (y :: l) d).
  rewrite !IH. reflexivity.
Qed.

(** The active disk after a row of probes is the last disk admitted. *)
Lemma last_active_admitted
    (probes : list (Z * option (ata_disk * list ata_partition)))
    (before : option ata_disk) :
  last_active before probes
  = last (map (fun found => Some (fst found)) (admitted probes)) before.
Proof.
  revert before. induction probes as [|[k [[d parts] |]] probes IH];
    intros before.
  - reflexivity.
  - unfold last_active, admitted in *. cbn [fold_left flat_map snd app map fst].
    rewrite IH, last_cons. reflexivity.
  - unfold last_active, admitted in *. cbn [fold_left flat_map snd app].
    apply IH.
Qed.

(** The four names the disks of a controller can get differ from one
    another. *)
Lemma disk_name_distinct (devname : string) (i j : Z) :
  0 <= i < 4 -> 0 <= j < 4 -> i <> j ->
  disk_name devname i <> disk_name devname j.
Proof.
  intros Hi Hj Hne H. unfold disk_name in H.
  apply append_inj_l in H.
  assert (Ci : i = 0 \/ i = 1 \/ i = 2 \/ i = 3) by lia.
  assert (Cj : j = 0 \/ j = 1 \/ j = 2 \/ j = 3) by lia.
  destruct Ci as [-> | [-> | [-> | ->]]];
    destruct Cj as [-> | [-> | [-> | ->]]];
    first [ contradiction Hne; reflexivity | vm_compute in H; discriminate H ].
Qed.

(** Only the codes that are 0 as a [char] give the NUL character. *)
Lemma char_of_nul (a : Z) : char_of a = char_of 0 -> to_u8 a = 0.
Proof.
  intros H. unfold char_of in H.
  apply (f_equal Ascii.N_of_ascii) in H.
  pose proof (to_u8_range a) as Ha.
  rewrite !Ascii.N_ascii_embedding in H
    by (rewrite ?(to_u8_small 0) by lia; lia).
  rewrite (to_u8_small 0) in H by lia. lia.
Qed.

(** The name of a disk of the controller "hd" [code] holds no NUL
    character unless [code] is one: it is then the C string the driver
    builds at [disk->devname]. *)
Lemma disk_name_no_nul (code k : Z) :
  to_u8 code <> 0 -> 0 <= k < 4 ->
  ~ In (char_of 0)
      (String.list_ascii_of_string (disk_name (controller_name code) k)).
Proof.
  intros Hc Hk. unfold disk_name, controller_name.
  cbn [String.substring String.append String.list_ascii_of_string In].
  intros [H | [H | [H | [H | [H | []]]]]]; apply char_of_nul in H.
  - vm_compute in H. discriminate H.
  - vm_compute in H. discriminate H.
  - contradiction.
  - vm_compute in H. discriminate H.
  - unfold zero_char in H. rewrite to_u8_small in H by lia. lia.
Qed.

(** What the probes of disks 0 to 3 leave in the disk list. *)
Lemma admitted_sound (devname : string)
    (probes : list (Z * option (ata_disk * list ata_partition))) :
  map fst probes = [0; 1; 2; 3] ->
  Forall (probe_sound devname) probes ->
  (length (admitted probes) <= 4)%nat /\
  NoDup (map (fun found => disk_devname (fst found)) (admitted probes)) /\
  Forall (fun found =>
            exists k,
              0 <= k < 4 /\
              channel (fst found) = Z.shiftr k 1 /\
              slave (fst found) = Z.land k 1 /\
              disk_devname (fst found) = disk_name devname k /\
              Forall (fun p => part_disk p = fst found) (snd found))
    (admitted probes).
Proof.
  intros Hk Hs.
  destruct probes as [|[k0 o0] [|[k1 o1] [|[k2 o2] [|[k3 o3] [|]]]]];
    try discriminate Hk.
  cbn [map fst] in Hk. injection Hk as -> -> -> ->.
  inversion Hs as [|? ? S0 Hs1]; subst.
  inversion Hs1 as [|? ? S1 Hs2]; subst.
  inversion Hs2 as [|? ? S2 Hs3]; subst.
  inversion Hs3 as [|? ? S3 _]; subst.
  clear Hs Hs1 Hs2 Hs3.
  pose proof (disk_name_distinct devname 0 1 ltac:(lia) ltac:(lia) ltac:(lia))
    as D01.
  pose proof (disk_name_distinct devname 0 2 ltac:(lia) ltac:(lia) ltac:(lia))
    as D02.
  pose proof (disk_name_distinct devname 0 3 ltac:(lia) ltac:(lia) ltac:(lia))
    as D03.
  pose proof (disk_name_distinct devname 1 2 ltac:(lia) ltac:(lia) ltac:(lia))
    as D12.
  pose proof (disk_name_distinct devname 1 3 ltac:(lia) ltac:(lia) ltac:(lia))
    as D13.
  pose proof (disk_name_distinct devname 2 3 ltac:(lia) ltac:(lia) ltac:(lia))
    as D23.
  unfold probe_sound in S0, S1, S2, S3. cbn [fst snd] in S0, S1, S2, S3.
  assert (Hone : forall k d parts,
             0 <= k < 4 ->
             channel d = Z.shiftr k 1 /\ slave d = Z.land k 1 /\
             disk_devname d = disk_name devname k /\
             Forall (fun p => part_disk p = d) parts ->
             exists k',
               0 <= k' < 4 /\
               channel (fst (d, parts)) = Z.shiftr k' 1 /\
               slave (fst (d, parts)) = Z.land k' 1 /\
               disk_devname (fst (d, parts)) = disk_name devname k' /\
               Forall (fun p => part_disk p = fst (d, parts))
                 (snd (d, parts))).
  { intros k d parts Hk H. exists k. split; [exact Hk | exact H]. }
  destruct o0 as [[d0 p0] |];
    [pose proof (Hone 0 d0 p0 ltac:(lia) S0) as F0;
     destruct S0 as (_ & _ & N0 & _) | clear S0];
    (destruct o1 as [[d1 p1] |];
     [pose proof (Hone 1 d1 p1 ltac:(lia) S1) as F1;
      destruct S1 as (_ & _ & N1 & _) | clear S1]);
    (destruct o2 as [[d2 p2] |];
     [pose proof (Hone 2 d2 p2 ltac:(lia) S2) as F2;
      destruct S2 as (_ & _ & N2 & _) | clear S2]);
    (destruct o3 as [[d3 p3] |];
     [pose proof (Hone 3 d3 p3 ltac:(lia) S3) as F3;
      destruct S3 as (_ & _ & N3 & _) | clear S3]);
    unfold admitted; cbn [flat_map snd app length map fst];
    (split; [lia |]);
    (split;
     [rewrite ?N0, ?N1, ?N2, ?N3;
      repeat (apply NoDup_cons; [cbn [In]; intuition congruence |]);
      apply NoDup_nil
     | repeat (apply Forall_cons; [assumption |]); apply Forall_nil]).
Qed.

Section Controllers.

Context {K : kernel_abi} {T : build_target}.
Variable P : platform.

(** A row of probes: every disk number from [disk] on is probed, one
    after the other, whatever became of the ones before. *)
Lemma runs_probe_disks (todo : nat) :
  forall (disk : Z) (acc : list (ata_disk * list ata_partition))
         (m : machine),
    runs (probe_disks P todo disk acc) m
      (fun disk_list evs c' =>
         exists probes,
           map fst probes
           = map (fun i => disk + Z.of_nat i) (seq 0 todo) /\
           disk_list = acc ++ admitted probes /\
           bus_writes evs = flat_map (probe_writes (ctl m)) probes /\
           c' = with_active_disk (ctl m)
                  (last_active (active_disk (ctl m)) probes) /\
           Forall (probe_sound (ctl_devname (ctl m))) probes).
Proof.
  induction todo as [|todo IH]; intros disk acc m.
  - cbn [probe_disks]. apply runs_ret. exists [].
    split; [reflexivity |]. split; [symmetry; apply app_nil_r |].
    split; [reflexivity |].
    split; [symmetry; apply with_active_disk_same | constructor].
  - cbn [probe_disks].
    eapply runs_bind; [apply runs_setup_disk |].
    intros r evs1 c1 Hr.
    set (m1 := {| trace := evs1 ++ trace m; ctl := c1 |}).
    destruct (IH (disk + 1)
                 match r with
                 | Some found => acc ++ [found]
                 | None => acc
                 end m1)
      as (disk_list & evs2 & c2 & E2 & probes & Hk & Hl & Hw & Hc & Hs).
    exists disk_list, evs2, c2. split; [exact E2 |].
    exists ((disk, r) :: probes).
    assert (Hc1 : c1 = with_active_disk (ctl m)
                         (last_active (active_disk (ctl m)) [(disk, r)]) /\
                  bus_writes evs1 = probe_writes (ctl m) (disk, r) /\
                  probe_sound (ctl_devname (ctl m)) (disk, r)).
    { destruct r as [[d parts] |].
      - destruct Hr as (-> & Hw1 & Hch & Hsl & _ & _ & Hname & _ & _ & Hp).
        split; [reflexivity |]. split; [exact Hw1 |].
        unfold probe_sound. cbn [fst snd].
        split; [exact Hch |]. split; [exact Hsl |]. split; [exact Hname |].
        destruct Hp as [(-> & _) | (sector0 & _ & _ & ->)]; [constructor |].
        unfold scan_partition_table. destruct (0xaa55 =? _); [| constructor].
        cbn [scan_slots]. unfold scan_slot.
        repeat match goal with
               | |- context [if ?b then None else Some _] => destruct b
               end;
          cbn [app]; repeat constructor.
      - destruct Hr as (-> & Hw1 & _).
        split; [symmetry; apply with_active_disk_same |].
        split; [unfold probe_writes; cbn [fst snd];
                rewrite app_nil_r; exact Hw1 |].
        exact I. }
    destruct Hc1 as (Hc1 & Hw1 & Hs1).
    split.
    { cbn [map fst seq]. f_equal; [lia |].
      rewrite Hk, <- seq_shift, map_map.
      apply map_ext. intros i. lia. }
    split.
    { rewrite Hl. destruct r as [found |]; cbn [admitted flat_map snd app].
      - rewrite <- app_assoc. reflexivity.
      - reflexivity. }
    split.
    { rewrite bus_writes_app, Hw1, Hw. cbn [flat_map]. f_equal.
      cbn [ctl m1]. rewrite Hc1.
      apply flat_map_ext. intros probe. apply probe_writes_active. }
    split.
    { rewrite Hc. cbn [ctl m1]. rewrite Hc1. reflexivity. }
    constructor; [exact Hs1 |].
    cbn [ctl m1] in Hs. rewrite Hc1 in Hs. exact Hs.
Qed.

(** The setting up of a controller, as the observers of the log see
    it. *)
Lemma runs_setup_controller (v : pci_device) (which_device : Z)
    (mem : ata_controller) (m : machine) :
  let c := new_controller v which_device mem in
  runs (setup_controller P v which_device mem) m
    (fun s evs c' =>
       exists probes,
         map fst probes = [0; 1; 2; 3] /\
         s = {| cs_irq := HDC_IRQ;
                cs_interrupt_line :=
                  if c_true (Z.land (prog_if v) 0x01)
                     || c_true (Z.land (prog_if v) 0x04)
                  then Some HDC_IRQ else None;
                cs_disk_list := admitted probes;
                cs_which_device := to_char (which_device + 1) |} /\
         bus_writes evs
         = [ EvWrite8 (control_port (channel0 c)) 2;
             EvWrite8 (control_port (channel1 c)) 2 ]
           ++ flat_map (probe_writes c) probes
           ++ [ EvWrite8 (control_port (channel0 c)) 0;
                EvWrite8 (control_port (channel1 c)) 0 ] /\
         c' = with_active_disk c (last_active (active_disk mem) probes) /\
         Forall (probe_sound (ctl_devname c)) probes).
Proof.
  intros c. unfold setup_controller. fold c.
  eapply runs_bind; [apply runs_set_ctl |].
  intros _ e0 c0 (-> & ->). cbn [app].
  eapply runs_bind; [apply runs_write_control |].
  intros _ e1 c1 (-> & ->). cbn [ctl trace].
  eapply runs_bind; [apply runs_write_control |].
  intros _ e2 c2 (-> & ->). cbn [ctl trace].
  eapply runs_bind; [apply runs_probe_disks |].
  intros disk_list e3 c3 (probes & Hk & -> & Hw & -> & Hs).
  cbn [ctl trace app] in *.
  eapply runs_bind; [apply runs_write_control |].
  intros _ e4 c4 (-> & ->). cbn [ctl trace].
  eapply runs_bind; [apply runs_write_control |].
  intros _ e5 c5 (-> & ->). cbn [ctl trace].
  apply runs_ret.
  exists probes.
  split; [exact Hk |]. split; [reflexivity |].
  split; [| split; [reflexivity | exact Hs]].
  rewrite !bus_writes_app, Hw.
  rewrite !bus_writes_one_write, !bus_writes_nil.
  cbn [app]. rewrite <- ?app_assoc. reflexivity.
Qed.

(** X13.  [setup_controller] always returns, and these are all its port
    writes, in order: 2 (interrupts off) to the control port of the
    primary and of the secondary channel; the probes of disks 0, 1, 2
    and 3, every one of them whatever became of the others, each with
    IDENTIFY and, if the disk is admitted, the read of its sector 0;
    and 0 (interrupts on) to the two control ports.  The disk list it
    leaves holds the disks admitted, in the order of their numbers. *)
Theorem setup_controller_interrupt_bracket (v : pci_device)
    (which_device : Z) (mem : ata_controller) (m : machine) :
  let c := new_controller v which_device mem in
  exists s evs c' probes,
    setup_controller P v which_device mem m
    = Some (s, {| trace := evs ++ trace m; ctl := c' |}) /\
    map fst probes = [0; 1; 2; 3] /\
    cs_disk_list s = admitted probes /\
    bus_writes evs
    = [ EvWrite8 (control_port (channel0 c)) 2;
        EvWrite8 (control_port (channel1 c)) 2 ]
      ++ flat_map (probe_writes c) probes
      ++ [ EvWrite8 (control_port (channel0 c)) 0;
           EvWrite8 (control_port (channel1 c)) 0 ].
Proof.
  intros c.
  destruct (runs_setup_controller v which_device mem m)
    as (s & evs & c' & E & probes & Hk & -> & Hw & _).
  eexists _, evs, c', probes.
  split; [exact E |]. split; [exact Hk |]. split; [reflexivity | exact Hw].
Qed.

(** X14.  The controller [setup_controller] leaves behind.  It is named
    "hd" and the character of the counter, which goes up by one.  A
    channel whose bit of [prog_if] (bit 0 for the primary, bit 2 for
    the secondary) is clear gets the legacy ports 0x1F0 and 0x3F6, or
    0x170 and 0x376; one whose bit is set gets BAR0 and BAR1 + 2, or
    BAR2 and BAR3 + 2.  The DMA ports are BAR4 and BAR4 + 8.  The
    request record says [IO_NONE].  The interrupt line is written to
    the PCI device only if a channel is native, while [irq_attach]
    always gets [HDC_IRQ].  The probes change nothing of this; they
    leave the last disk admitted as the active disk, and if none was
    admitted the active disk is whatever the memory block held. *)
Theorem setup_controller_result (v : pci_device) (which_device : Z)
    (mem : ata_controller) (m : machine) :
  exists s evs c',
    setup_controller P v which_device mem m
    = Some (s, {| trace := evs ++ trace m; ctl := c' |}) /\
    ctl_devname c'
    = String.String (char_of 104)
        (String.String (char_of 100)
           (String.String (char_of which_device) String.EmptyString)) /\
    cs_which_device s = to_char (which_device + 1) /\
    (base_port (channel0 c'), control_port (channel0 c'))
    = (if Z.land (prog_if v) 0x01 =? 0 then (0x1F0, 0x3F6)
       else (to_int (read_pci_bar v 0), to_int (read_pci_bar v 1 + 2))) /\
    (base_port (channel1 c'), control_port (channel1 c'))
    = (if Z.land (prog_if v) 0x04 =? 0 then (0x170, 0x376)
       else (to_int (read_pci_bar v 2), to_int (read_pci_bar v 3 + 2))) /\
    dma_port (channel0 c') = to_int (read_pci_bar v 4) /\
    dma_port (channel1 c') = to_int (dma_port (channel0 c') + 8) /\
    irp_cmd (the_irp c') = IO_NONE /\
    buffer c' = buffer mem /\
    cs_irq s = HDC_IRQ /\
    cs_interrupt_line s
    = (if (Z.land (prog_if v) 0x01 =? 0) && (Z.land (prog_if v) 0x04 =? 0)
       then None else Some HDC_IRQ) /\
    active_disk c'
    = last (map (fun found => Some (fst found)) (cs_disk_list s))
        (active_disk mem).
Proof.
  destruct (runs_setup_controller v which_device mem m)
    as (s & evs & c' & E & probes & Hk & -> & _ & -> & _).
  eexists _, evs, _. split; [exact E |].
  cbn [cs_which_device cs_irq cs_interrupt_line cs_disk_list].
  unfold with_active_disk, new_controller.
  cbn [ctl_devname channel0 channel1 the_irp irp_cmd buffer active_disk].
  unfold c_true.
  split; [reflexivity |]. split; [reflexivity |].
  split; [destruct (Z.land (prog_if v) 1 =? 0); reflexivity |].
  split; [destruct (Z.land (prog_if v) 4 =? 0); reflexivity |].
  split; [destruct (Z.land (prog_if v) 1 =? 0); reflexivity |].
  split; [destruct (Z.land (prog_if v) 1 =? 0);
          destruct (Z.land (prog_if v) 4 =? 0); reflexivity |].
  split; [reflexivity |]. split; [reflexivity |]. split; [reflexivity |].
  split; [destruct (Z.land (prog_if v) 1 =? 0);
          destruct (Z.land (prog_if v) 4 =? 0); reflexivity |].
  apply last_active_admitted.
Qed.

(** X15.  The disks of a controller after [setup_controller], when the
    character of the controller's counter is not NUL, so that the name
    "hd" and that character is the string the driver stores: the
    controller has that name; its disks are four at most; each is disk
    [k] of the controller for some [k] from 0 to 3, on channel [k >> 1]
    as device [k & 1], named after the controller with "d" and the digit
    of [k], a name without NUL character; no two have the same device
    name; and every partition in a disk's partition list points back to
    that disk. *)
Theorem setup_controller_disks (v : pci_device) (which_device : Z)
    (mem : ata_controller) (m : machine) :
  to_u8 which_device <> 0 ->
  exists s evs c',
    setup_controller P v which_device mem m
    = Some (s, {| trace := evs ++ trace m; ctl := c' |}) /\
    ctl_devname c' = controller_name which_device /\
    (length (cs_disk_list s) <= 4)%nat /\
    NoDup (map (fun found => disk_devname (fst found)) (cs_disk_list s)) /\
    Forall (fun found =>
              exists k,
                0 <= k < 4 /\
                channel (fst found) = Z.shiftr k 1 /\
                slave (fst found) = Z.land k 1 /\
                disk_devname (fst found) = disk_name (ctl_devname c') k /\
                ~ In (char_of 0)
                    (String.list_ascii_of_string
                       (disk_devname (fst found))) /\
                Forall (fun p => part_disk p = fst found) (snd found))
      (cs_disk_list s).
Proof.
  intros Hnul.
  destruct (runs_setup_controller v which_device mem m)
    as (s & evs & c' & E & probes & Hk & -> & _ & -> & Hs).
  eexists _, evs, _. split; [exact E |].
  cbn [cs_disk_list].
  destruct (admitted_sound _ probes Hk Hs) as (Hlen & Hnd & Hall).
  split; [reflexivity |].
  split; [exact Hlen |]. split; [exact Hnd |].
  apply (Forall_impl _ (P := fun found =>
            exists k,
              0 <= k < 4 /\
              channel (fst found) = Z.shiftr k 1 /\
              slave (fst found) = Z.land k 1 /\
              disk_devname (fst found)
              = disk_name
                  (ctl_devname (new_controller v which_device mem)) k /\
              Forall (fun p => part_disk p = fst found) (snd found)));
    [| exact Hall].
  intros found (k & Hr & Hch & Hsl & Hname & Hparts).
  exists k. split; [exact Hr |]. split; [exact Hch |].
  split; [exact Hsl |]. split; [exact Hname |].
  split; [| exact Hparts].
  rewrite Hname.
  exact (disk_name_no_nul which_device k Hnul Hr).
Qed.

End Controllers.

(** The controller "hd0" with the disk of 2^32 sectors as its first
    device: one disk, "hd0d0". *)
Lemma setup_controller_disks_witness :
  exists s m',
    setup_controller (scripted_disk id_words_lba48)
      {| class_code := 1; subclass := 1; prog_if := 0x80;
         read_pci_bar := fun _ => 0 |} 48 hd0 boot
    = Some (s, m') /\
    ctl_devname (ctl m') = "hd0"%string /\
    length (cs_disk_list s) = 1%nat /\
    NoDup (map (fun found => disk_devname (fst found)) (cs_disk_list s)).
Proof.
  destruct (setup_controller_disks (scripted_disk id_words_lba48)
              {| class_code := 1; subclass := 1; prog_if := 0x80;
                 read_pci_bar := fun _ => 0 |} 48 hd0 boot)
    as (s & evs & c' & E & Hname & _ & Hnd & _).
  - vm_compute. discriminate.
  - exists s. eexists. split; [exact E |].
    split; [exact Hname |]. split; [| exact Hnd].
    vm_compute in E. injection E as <- _. reflexivity.
Defined.

(** ** Attaching all controllers *)

Lemma char_of_inj (a b : Z) :
  0 <= a < 256 -> 0 <= b < 256 -> char_of a = char_of b -> a = b.
Proof.
  intros Ha Hb H. unfold char_of in H.
  rewrite !to_u8_small in H by assumption.
  apply (f_equal Ascii.N_of_ascii) in H.
  rewrite !Ascii.N_ascii_embedding in H by lia.
  lia.
Qed.

Lemma controller_name_inj (a b : Z) :
  0 <= a < 256 -> 0 <= b < 256 ->
  controller_name a = controller_name b -> a = b.
Proof.
  intros Ha Hb H. unfold controller_name in H. injection H as H.
  apply char_of_inj; assumption.
Qed.

Section Init.

Context {K : kernel_abi} {T : build_target}.
Variable P : platform.

(** The loop of [hdd_init], with the counter at [w]. *)
Lemma runs_attach_controllers (pci_devices : list pci_device) :
  forall (w : Z) (heap : list ata_controller) (m : machine),
    (length (filter is_ide pci_devices) <= length heap)%nat ->
    0 <= w ->
    w + Z.of_nat (length (filter is_ide pci_devices)) < 128 ->
    runs (attach_controllers P pci_devices w heap) m
      (fun attached evs c' =>
         length attached = length (filter is_ide pci_devices) /\
         forall k c s,
           nth_error attached k = Some (c, s) ->
           exists v mem,
             nth_error (filter is_ide pci_devices) k = Some v /\
             nth_error heap k = Some mem /\
             c = with_active_disk
                   (new_controller v (w + Z.of_nat k) mem) (active_disk c) /\
             cs_irq s = HDC_IRQ /\
             cs_which_device s = w + Z.of_nat k + 1).
Proof.
  induction pci_devices as [|v rest IH]; intros w heap m Hheap Hw Hroom.
  - cbn [attach_controllers]. apply runs_ret.
    split; [reflexivity |]. intros k c s Hk. destruct k; discriminate Hk.
  - cbn [attach_controllers filter] in *. fold (is_ide v) in *.
    destruct (is_ide v) eqn:Hv.
    + cbn [length] in Hheap, Hroom.
      destruct heap as [|mem heap']; [cbn [length] in Hheap; lia |].
      cbn [length] in Hheap.
      eapply runs_bind; [apply runs_setup_controller |].
      intros s e1 c1 (probes & _ & -> & _ & -> & _).
      eapply runs_bind; [apply runs_get_ctl |].
      intros c e2 c2 (-> & -> & ->). cbn [ctl trace cs_which_device].
      assert (Hnext : to_char (w + 1) = w + 1)
        by (apply to_char_small; lia).
      rewrite Hnext.
      eapply runs_bind; [apply (IH (w + 1) heap'); lia |].
      intros more e3 c3 (Hlen & Hmore).
      apply runs_ret. split; [cbn [length]; lia |].
      intros k c s Hk. destruct k as [|k].
      * cbn [nth_error] in Hk. injection Hk as <- <-.
        exists v, mem. split; [reflexivity |]. split; [reflexivity |].
        cbn [cs_irq cs_which_device].
        rewrite Z.add_0_r. split; [reflexivity |].
        split; reflexivity.
      * cbn [nth_error] in Hk |- *.
        destruct (Hmore k c s Hk) as (v' & mem' & Hv' & Hm' & Hc & Hi & Hn).
        exists v', mem'. split; [exact Hv' |]. split; [exact Hm' |].
        replace (w + Z.of_nat (S k)) with (w + 1 + Z.of_nat k) by lia.
        split; [exact Hc |]. split; [exact Hi | exact Hn].
    + apply IH; assumption.
Qed.

(** X16.  [hdd_init] sets up one controller for every PCI device of
    class storage and subclass 1 (IDE), in the order of [pci_devices],
    and skips every other device; it returns 0.  The k-th controller
    is built from the k-th such device in the k-th block of memory,
    is named "hd" with the character '0' + k, and claims [HDC_IRQ]
    like all the others; no two controllers have the same name.  This
    holds as long as memory lasts and the counter stays within the
    characters up to 127, that is for up to 79 controllers. *)
Theorem hdd_init_attaches (pci_devices : list pci_device)
    (heap : list ata_controller) (m : machine) :
  let ide := filter is_ide pci_devices in
  (length ide <= length heap)%nat ->
  (length ide <= 79)%nat ->
  exists attached m',
    hdd_init P pci_devices heap m = Some ((0, attached), m') /\
    length attached = length ide /\
    (forall k c s,
        nth_error attached k = Some (c, s) ->
        exists v mem,
          nth_error ide k = Some v /\
          nth_error heap k = Some mem /\
          ctl_devname c = controller_name (zero_char + Z.of_nat k) /\
          same_ports (new_controller v (zero_char + Z.of_nat k) mem) c /\
          cs_irq s = HDC_IRQ) /\
    NoDup (map (fun cs => ctl_devname (fst cs)) attached).
Proof.
  intros ide Hheap Hcount. unfold hdd_init.
  destruct (runs_attach_controllers pci_devices zero_char heap m Hheap)
    as (attached & evs & c' & E & Hlen & Hnth).
  { unfold zero_char. lia. }
  { fold ide. unfold zero_char. lia. }
  fold ide in Hlen, Hnth.
  exists attached. eexists. unfold bind. rewrite E.
  split; [reflexivity |]. split; [exact Hlen |].
  assert (Hname : forall k c s,
             nth_error attached k = Some (c, s) ->
             ctl_devname c = controller_name (zero_char + Z.of_nat k)).
  { intros k c s Hk.
    destruct (Hnth k c s Hk) as (v & mem & _ & _ & Hc & _).
    rewrite Hc. reflexivity. }
  split.
  - intros k c s Hk.
    destruct (Hnth k c s Hk) as (v & mem & Hv & Hm & Hc & Hi & _).
    exists v, mem. split; [exact Hv |]. split; [exact Hm |].
    split; [exact (Hname k c s Hk) |].
    split; [| exact Hi].
    rewrite Hc. split; reflexivity.
  - apply NoDup_nth_error. intros i j Hi Heq.
    rewrite length_map in Hi.
    rewrite !nth_error_map in Heq.
    destruct (nth_error attached i) as [[ci si] |] eqn:Ei;
      [| apply nth_error_None in Ei; lia].
    destruct (nth_error attached j) as [[cj sj] |] eqn:Ej;
      [| discriminate Heq].
    cbn [option_map fst] in Heq. injection Heq as Heq.
    rewrite (Hname i ci si Ei), (Hname j cj sj Ej) in Heq.
    assert (Hj : (j < length attached)%nat)
      by (apply nth_error_Some; rewrite Ej; discriminate).
    apply controller_name_inj in Heq; unfold zero_char in *; lia.
Qed.

End Init.

(** Two PCI devices, one of them an IDE controller: one controller,
    "hd0". *)
Lemma hdd_init_attaches_witness :
  exists attached m',
    hdd_init (steady_device 0 0)
      [ {| class_code := 2; subclass := 0; prog_if := 0;
           read_pci_bar := fun _ => 0 |};
        {| class_code := 1; subclass := 1; prog_if := 0x80;
           read_pci_bar := fun _ => 0 |} ]
      [hd0] boot
    = Some ((0, attached), m') /\
    length attached = 1%nat /\
    NoDup (map (fun cs => ctl_devname (fst cs)) attached).
Proof.
  destruct (hdd_init_attaches (steady_device 0 0)
              [ {| class_code := 2; subclass := 0; prog_if := 0;
                   read_pci_bar := fun _ => 0 |};
                {| class_code := 1; subclass := 1; prog_if := 0x80;
                   read_pci_bar := fun _ => 0 |} ]
              [hd0] boot)
    as (attached & m' & E & Hlen & _ & Hnd).
  - vm_compute. lia.
  - vm_compute. lia.
  - exists attached, m'. split; [exact E |]. split; [exact Hlen | exact Hnd].
Defined.

(** ** What is not implemented *)

Section Unimplemented.

Context {K : kernel_abi}.
Variable P : platform.

(** The IST on a good status with a request that is not a read. *)
Lemma hdc_ist_not_a_read (d : ata_disk) (m : machine) :
  active_disk (ctl m) = Some d ->
  c_true (Z.land
            (to_u8 (bus_in8 P (trace m)
                      (base_port (channel_at (ctl m) (channel d))
                       + ATA_REG_COMMAND_STATUS)))
            (Z.lor ATA_STATUS_FLAG_ERROR ATA_STATUS_FLAG_DEVICE_FAILURE))
  = false ->
  irp_cmd (the_irp (ctl m)) <> IO_READ ->
  hdc_ist P m = None.
Proof.
  intros Hd Hst Hcmd.
  unfold hdc_ist, bind, get_ctl, ata_read, bus_read_8, bind, get_ctl.
  rewrite Hd. cbn [deref ret].
  cbn -[Z.land Z.lor Z.shiftl to_int to_u8 c_true Z.add to_size_t
        ata_pio_read Z.mul].
  rewrite Hst.
  cbn -[Z.land Z.lor Z.shiftl to_int to_u8 c_true Z.add to_size_t
        ata_pio_read Z.mul].
  destruct (irp_cmd (the_irp (ctl m)));
    [reflexivity | contradiction Hcmd; reflexivity | reflexivity].
Qed.

(** X17.  When the IST returns and when it does not.  It returns
    exactly if the controller has an active disk and either the status
    register of that disk's channel shows ERROR or DEVICE_FAILURE, or
    the request in the record is a read.  Without an active disk it
    goes through a null pointer; on a good status with a request of
    kind [IO_WRITE] or [IO_NONE], as the record is after
    [setup_controller], it panics. *)
Theorem hdc_ist_returns (m : machine) :
  (exists r, hdc_ist P m = Some r) <->
  (exists d,
      active_disk (ctl m) = Some d /\
      (Z.land (to_u8 (bus_in8 P (trace m)
                        (base_port (channel_at (ctl m) (channel d))
                         + ATA_REG_COMMAND_STATUS)))
              failure_flags <> 0
       \/ irp_cmd (the_irp (ctl m)) = IO_READ)).
Proof.
  unfold failure_flags. split.
  - intros (r & E).
    destruct (active_disk (ctl m)) as [d |] eqn:Hd.
    + exists d. split; [reflexivity |].
      destruct (c_true (Z.land
                          (to_u8 (bus_in8 P (trace m)
                                    (base_port (channel_at (ctl m) (channel d))
                                     + ATA_REG_COMMAND_STATUS)))
                          (Z.lor ATA_STATUS_FLAG_ERROR
                                 ATA_STATUS_FLAG_DEVICE_FAILURE))) eqn:Hst.
      * left. apply c_true_iff. exact Hst.
      * right. destruct (irp_cmd (the_irp (ctl m))) eqn:Hcmd;
          [| reflexivity |];
          rewrite (hdc_ist_not_a_read d m Hd Hst) in E;
          try discriminate E; rewrite Hcmd; discriminate.
    + exfalso. unfold hdc_ist, bind, get_ctl in E. rewrite Hd in E.
      discriminate E.
  - intros (d & Hd & Hcase).
    destruct (c_true (Z.land
                        (to_u8 (bus_in8 P (trace m)
                                  (base_port (channel_at (ctl m) (channel d))
                                   + ATA_REG_COMMAND_STATUS)))
                        (Z.lor ATA_STATUS_FLAG_ERROR
                               ATA_STATUS_FLAG_DEVICE_FAILURE))) eqn:Hst.
    + eexists. apply (hdc_ist_error P d m Hd Hst).
    + destruct Hcase as [Hbad | Hcmd].
      * apply c_true_false_iff in Hst. contradiction.
      * destruct (hdc_ist_data P d (irp_blksz (the_irp (ctl m))) m)
          as (data & evs & E & _).
        -- split; [exact Hd |]. split; [exact Hcmd | reflexivity].
        -- exact Hst.
        -- eexists. exact E.
Qed.

End Unimplemented.

(** A read of one sector in flight on a ready disk: the IST returns. *)
Lemma hdc_ist_returns_witness :
  exists r,
    hdc_ist (steady_device 0x58 7) (waiting (plain_disk 1000) 1) = Some r.
Proof.
  apply (proj2 (hdc_ist_returns (steady_device 0x58 7)
                  (waiting (plain_disk 1000) 1))).
  exists (plain_disk 1000). split; [reflexivity | right; reflexivity].
Defined.
